(** * Smart Village backend: events, chat and CRUD handlers of [app.py]

    A shallow embedding of the Flask / SQLAlchemy / Socket.IO handlers of
    [backend/app.py].  Tables are lists of records, a request body is a
    JSON dictionary, and a handler is a computation in a small monad that
    threads the SQLAlchemy session, the committed storage and the
    chronological trace of commits, rollbacks and Socket.IO emits.

    What lies outside [app.py] is a parameter of every handler ([Env]):
    whether the storage accepts the commit of the request (this stands for
    every reason a commit can raise, foreign keys and lengths included),
    the clock, the caller's session id, the ISO codec of [datetime], what
    the database driver does with a value that is not of the column's
    type, and whether the Socket.IO server takes the keyword
    [broadcast=True].  [socketio.emit(..., broadcast=True)] is an emit to
    every connection on a server that takes the keyword and a [TypeError]
    on one that does not, [socketio.emit(..., room=r)] is an emit to the
    members of [r] (to everybody when [r] is falsy), and [emit(...)]
    inside a Socket.IO handler is an emit to the calling connection. *)

From Stdlib Require Import ZArith List String Ascii Bool Lia.
From Stdlib Require Import Sorted Permutation DecimalString.
Import ListNotations.

Open Scope string_scope.
Open Scope Z_scope.

(** ** JSON values and Python dictionaries *)

(** JSON numbers are modelled as integers. *)
#[local] Set Warnings "-register-all".
Inductive json : Type :=
| JNull
| JBool (b : bool)
| JInt (n : Z)
| JStr (s : string)
| JList (l : list json)
| JObj (o : list (string * json)).

Definition dict := list (string * json).

Fixpoint dict_get (d : dict) (k : string) : option json :=
  match d with
  | [] => None
  | (k', v) :: d' => if String.eqb k' k then Some v else dict_get d' k
  end.

(** [data.get(k, default)] *)
Definition get_default (d : dict) (k : string) (default : json) : json :=
  match dict_get d k with Some v => v | None => default end.

(** [data.get(k)] *)
Definition get (d : dict) (k : string) : json := get_default d k JNull.

(** [k in data] *)
Definition contains (d : dict) (k : string) : bool :=
  match dict_get d k with Some _ => true | None => false end.

(** Python truth value of a JSON value, as tested by [not x] / [if x]. *)
Definition py_truthy (v : json) : bool :=
  match v with
  | JNull => false
  | JBool b => b
  | JInt n => negb (n =? 0)
  | JStr s => negb (s =? "")%string
  | JList l => match l with [] => false | _ => true end
  | JObj o => match o with [] => false | _ => true end
  end.

Definition str_int (n : Z) : string := NilZero.string_of_int (Z.to_int n).

(** [str(x)] inside an f-string, for a nullable integer attribute. *)
Definition str_opt_int (n : option Z) : string :=
  match n with Some z => str_int z | None => "None" end.

Definition json_opt_int (n : option Z) : json :=
  match n with Some z => JInt z | None => JNull end.

Definition json_opt_str (s : option string) : json :=
  match s with Some x => JStr x | None => JNull end.

(** [c.upper()] on the ASCII range. *)
Definition upper (c : ascii) : ascii :=
  let n := nat_of_ascii c in
  if (Nat.leb 97 n && Nat.leb n 122)%bool then ascii_of_nat (n - 32) else c.

(** [str(d)] of a [Numeric(10, 2)] value held in hundredths. *)
Definition str_numeric (c : Z) : string :=
  let a := Z.abs c in
  let frac := a mod 100 in
  (if c <? 0 then "-" else "") ++ str_int (a / 100) ++ "."
    ++ (if frac <? 10 then "0" else "") ++ str_int frac.

(** ** The world outside [app.py]

    Everything the handlers obtain from their libraries and from the
    storage server: whether the storage accepts the commit of the current
    request, the clock, the Socket.IO session id of the caller, the ISO
    codec of [datetime], and the adaptation of a Python value to a column
    type performed by the database driver ([None] when the driver or the
    server rejects the value, [Some None] for SQL NULL).  A [datetime] is a
    number of microseconds, a [date] a number of days, a [time] a number of
    microseconds within the day.

    [takes_broadcast] is the installed Socket.IO server's answer to the
    keyword [broadcast=True], which Flask-SocketIO's [SocketIO.emit] hands
    on to it unread: older releases of python-socketio accept and ignore
    it, and the emit, having no room, goes to everybody; later ones have
    no such parameter and raise [TypeError]. *)
Record Env : Type := {
  commit_ok : bool;
  takes_broadcast : bool;
  utcnow : Z;
  request_sid : string;
  fromisoformat : string -> option Z;
  isoformat : Z -> string;
  date_isoformat : Z -> string;
  time_isoformat : Z -> string;
  adapt_int : json -> option (option Z);
  adapt_text : json -> option (option string);
  adapt_numeric : json -> option (option Z)
}.

Definition day_us : Z := 86400000000.
Definition dt_date (d : Z) : Z := d / day_us.
Definition dt_time (d : Z) : Z := d mod day_us.

(** ** The SQLAlchemy models *)

Module Users.
Record t : Type := {
  user_id : Z;
  name : string;
  username : string;
  password_hash : string;
  role : string;
  phone : option string;
  address : option string;
  email : option string;
  avatar : option string;
  status : option string
}.
End Users.

Module Announcements.
Record t : Type := {
  announcement_id : Z;
  title : string;
  content : string;
  published_date : option Z;
  author_id : option Z;
  tag : option string;
  tag_color : option string;
  tag_bg : option string
}.
End Announcements.

Module RepairRequests.
Record t : Type := {
  request_id : Z;
  user_id : option Z;
  title : string;
  category : option string;
  description : string;
  submitted_date : option Z;
  status : option string;
  image_paths : option string
}.
End RepairRequests.

Module BookingRequests.
Record t : Type := {
  booking_id : Z;
  user_id : option Z;
  location : string;
  date : option Z;
  start_time : option Z;
  end_time : option Z;
  purpose : option string;
  attendee_count : option Z;
  status : option string
}.
End BookingRequests.

Module Bills.
Record t : Type := {
  bill_id : Z;
  item_name : string;
  amount : Z;
  due_date : option Z;
  recipient_id : string;
  issued_by_user_id : option Z;
  status : option string
}.
End Bills.

Module Payments.
Record t : Type := {
  payment_id : Z;
  user_id : option Z;
  bill_id : option Z;
  amount : Z;
  payment_method : option string;
  payment_date : option Z;
  status : option string;
  slip_path : option string
}.
End Payments.

Module CalendarEvents.
Record t : Type := {
  event_id : Z;
  event_name : string;
  event_date : option Z;
  location : option string;
  description : option string
}.
End CalendarEvents.

Module Documents.
Record t : Type := {
  document_id : Z;
  document_name : string;
  file_path : string;
  uploaded_by_user_id : option Z;
  upload_date : option Z;
  category : option string
}.
End Documents.

Module ChatMessages.
Record t : Type := {
  message_id : Z;
  sender_id : option Z;
  receiver_id : option Z;
  content : string;
  timestamp : option Z;
  room_name : option string
}.
(** Column default of [room_name]. *)
Definition room_name_default : string := "general".
End ChatMessages.

Module SecurityVisitors.
Record t : Type := {
  visitor_id : Z;
  user_id : option Z;
  name : string;
  phone : option string;
  visit_date : option Z;
  visit_time : option Z;
  purpose : option string
}.
End SecurityVisitors.

Module SecurityIncidents.
Record t : Type := {
  incident_id : Z;
  user_id : option Z;
  description : string;
  reported_date : option Z;
  evidence_paths : option string
}.
End SecurityIncidents.

Module VotingResults.
Record t : Type := {
  result_id : Z;
  poll_id : option Z;
  option_id : option Z;
  user_id : option Z
}.
End VotingResults.

(** The storage: one list of rows per table, in storage order. *)
Record DB : Type := {
  users : list Users.t;
  announcements : list Announcements.t;
  repair_requests : list RepairRequests.t;
  booking_requests : list BookingRequests.t;
  bills : list Bills.t;
  payments : list Payments.t;
  calendar_events : list CalendarEvents.t;
  documents : list Documents.t;
  chat_messages : list ChatMessages.t;
  security_visitors : list SecurityVisitors.t;
  security_incidents : list SecurityIncidents.t;
  voting_results : list VotingResults.t
}.

Definition set_announcements (l : list Announcements.t) (d : DB) : DB :=
  {| users := users d; announcements := l;
     repair_requests := repair_requests d;
     booking_requests := booking_requests d; bills := bills d;
     payments := payments d; calendar_events := calendar_events d;
     documents := documents d; chat_messages := chat_messages d;
     security_visitors := security_visitors d;
     security_incidents := security_incidents d;
     voting_results := voting_results d |}.

Definition set_repair_requests (l : list RepairRequests.t) (d : DB) : DB :=
  {| users := users d; announcements := announcements d;
     repair_requests := l;
     booking_requests := booking_requests d; bills := bills d;
     payments := payments d; calendar_events := calendar_events d;
     documents := documents d; chat_messages := chat_messages d;
     security_visitors := security_visitors d;
     security_incidents := security_incidents d;
     voting_results := voting_results d |}.

Definition set_booking_requests (l : list BookingRequests.t) (d : DB) : DB :=
  {| users := users d; announcements := announcements d;
     repair_requests := repair_requests d;
     booking_requests := l; bills := bills d;
     payments := payments d; calendar_events := calendar_events d;
     documents := documents d; chat_messages := chat_messages d;
     security_visitors := security_visitors d;
     security_incidents := security_incidents d;
     voting_results := voting_results d |}.

Definition set_bills (l : list Bills.t) (d : DB) : DB :=
  {| users := users d; announcements := announcements d;
     repair_requests := repair_requests d;
     booking_requests := booking_requests d; bills := l;
     payments := payments d; calendar_events := calendar_events d;
     documents := documents d; chat_messages := chat_messages d;
     security_visitors := security_visitors d;
     security_incidents := security_incidents d;
     voting_results := voting_results d |}.

Definition set_payments (l : list Payments.t) (d : DB) : DB :=
  {| users := users d; announcements := announcements d;
     repair_requests := repair_requests d;
     booking_requests := booking_requests d; bills := bills d;
     payments := l; calendar_events := calendar_events d;
     documents := documents d; chat_messages := chat_messages d;
     security_visitors := security_visitors d;
     security_incidents := security_incidents d;
     voting_results := voting_results d |}.

Definition set_calendar_events (l : list CalendarEvents.t) (d : DB) : DB :=
  {| users := users d; announcements := announcements d;
     repair_requests := repair_requests d;
     booking_requests := booking_requests d; bills := bills d;
     payments := payments d; calendar_events := l;
     documents := documents d; chat_messages := chat_messages d;
     security_visitors := security_visitors d;
     security_incidents := security_incidents d;
     voting_results := voting_results d |}.

Definition set_documents (l : list Documents.t) (d : DB) : DB :=
  {| users := users d; announcements := announcements d;
     repair_requests := repair_requests d;
     booking_requests := booking_requests d; bills := bills d;
     payments := payments d; calendar_events := calendar_events d;
     documents := l; chat_messages := chat_messages d;
     security_visitors := security_visitors d;
     security_incidents := security_incidents d;
     voting_results := voting_results d |}.

Definition set_chat_messages (l : list ChatMessages.t) (d : DB) : DB :=
  {| users := users d; announcements := announcements d;
     repair_requests := repair_requests d;
     booking_requests := booking_requests d; bills := bills d;
     payments := payments d; calendar_events := calendar_events d;
     documents := documents d; chat_messages := l;
     security_visitors := security_visitors d;
     security_incidents := security_incidents d;
     voting_results := voting_results d |}.

Definition set_security_visitors (l : list SecurityVisitors.t) (d : DB) : DB :=
  {| users := users d; announcements := announcements d;
     repair_requests := repair_requests d;
     booking_requests := booking_requests d; bills := bills d;
     payments := payments d; calendar_events := calendar_events d;
     documents := documents d; chat_messages := chat_messages d;
     security_visitors := l;
     security_incidents := security_incidents d;
     voting_results := voting_results d |}.

Definition set_security_incidents (l : list SecurityIncidents.t) (d : DB) : DB :=
  {| users := users d; announcements := announcements d;
     repair_requests := repair_requests d;
     booking_requests := booking_requests d; bills := bills d;
     payments := payments d; calendar_events := calendar_events d;
     documents := documents d; chat_messages := chat_messages d;
     security_visitors := security_visitors d;
     security_incidents := l;
     voting_results := voting_results d |}.

Definition set_voting_results (l : list VotingResults.t) (d : DB) : DB :=
  {| users := users d; announcements := announcements d;
     repair_requests := repair_requests d;
     booking_requests := booking_requests d; bills := bills d;
     payments := payments d; calendar_events := calendar_events d;
     documents := documents d; chat_messages := chat_messages d;
     security_visitors := security_visitors d;
     security_incidents := security_incidents d;
     voting_results := l |}.

(** ** Generic table operations *)

Section Table.
Context {R : Type} (pk : R -> Z).

(** The primary key the storage assigns to a new row. *)
Definition next_id (rows : list R) : Z :=
  1 + fold_right (fun r m => Z.max (pk r) m) 0 rows.

(** [Model.query.get(id)] *)
Definition find_row (id : Z) (rows : list R) : option R :=
  find (fun r => pk r =? id) rows.

Definition replace_row (r : R) (rows : list R) : list R :=
  map (fun x => if pk x =? pk r then r else x) rows.

Definition delete_row (id : Z) (rows : list R) : list R :=
  filter (fun x => negb (pk x =? id)) rows.
End Table.

(** A relationship to [Users] through a nullable foreign key. *)
Definition related_user (d : DB) (fk : option Z) : option Users.t :=
  match fk with
  | Some id => find_row Users.user_id id (users d)
  | None => None
  end.

Definition related_bill (d : DB) (fk : option Z) : option Bills.t :=
  match fk with
  | Some id => find_row Bills.bill_id id (bills d)
  | None => None
  end.

(** ** Socket.IO events *)

(** Where an emit is addressed: every connection, the members of a room,
    or the connection whose handler is running ([flask_socketio.emit]
    called without [room] and without [broadcast]). *)
Inductive target : Type :=
| Broadcast
| Room (name : json)
| ToSid (sid : string).

Record event : Type := {
  ev_name : string;
  ev_payload : dict;
  ev_target : target
}.

(** [room=r] of [socketio.emit]: Flask-SocketIO reads the room as
    [to or room], so a falsy [r] ([None], [''], [0], [False]) is no room
    and the server addresses everybody. *)
Definition room_target (r : json) : target :=
  if py_truthy r then Room r else Broadcast.

(** ** The handler monad *)

Inductive action : Type :=
| Commit
| Rollback
| Emit (e : event).

(** [committed] is the durable storage, [session] the state seen through
    the SQLAlchemy session (the committed rows and the pending changes),
    [trace] what has happened so far, oldest first. *)
Record world : Type := {
  committed : DB;
  session : DB;
  trace : list action
}.

Inductive exc : Type :=
| KeyError
| TypeError
| ValueError
| AttributeError
| StorageError
| NotFound.

Inductive result (A : Type) : Type :=
| Ok (a : A)
| Raise (e : exc).
Arguments Ok {A} a.
Arguments Raise {A} e.

Definition M (A : Type) : Type := world -> result A * world.

Definition ret {A} (a : A) : M A := fun w => (Ok a, w).

Definition raise {A} (e : exc) : M A := fun w => (Raise e, w).

Definition bind {A B} (m : M A) (k : A -> M B) : M B :=
  fun w =>
    match m w with
    | (Ok a, w') => k a w'
    | (Raise e, w') => (Raise e, w')
    end.

Notation "x <- m ;; k" := (bind m (fun x => k))
  (at level 61, m at next level, right associativity).
Notation "m ;;; k" := (bind m (fun _ => k))
  (at level 61, right associativity).

(** [try: m except Exception: h] *)
Definition try_except {A} (m : M A) (h : exc -> M A) : M A :=
  fun w =>
    match m w with
    | (Ok a, w') => (Ok a, w')
    | (Raise e, w') => h e w'
    end.

(** A pure fallible step inside a handler. *)
Definition liftr {A} (r : result A) : M A := fun w => (r, w).
Coercion liftr : result >-> M.

Definition rbind {A B} (r : result A) (k : A -> result B) : result B :=
  match r with
  | Ok a => k a
  | Raise e => Raise e
  end.

Notation "x <~ r ;; k" := (rbind r (fun x => k))
  (at level 61, r at next level, right associativity).

Definition of_option {A} (e : exc) (o : option A) : result A :=
  match o with Some a => Ok a | None => Raise e end.

(** [for x in xs: result.append(f(x))] with a body that reads only. *)
Fixpoint traverse {A B} (f : A -> result B) (xs : list A)
  : result (list B) :=
  match xs with
  | [] => Ok []
  | x :: xs' => y <~ f x ;; ys <~ traverse f xs' ;; Ok (y :: ys)
  end.

Definition read_session : M DB := fun w => (Ok (session w), w).

Definition write_session (f : DB -> DB) : M unit :=
  fun w => (Ok tt, {| committed := committed w; session := f (session w);
                      trace := trace w |}).

Definition log (a : action) : M unit :=
  fun w => (Ok tt, {| committed := committed w; session := session w;
                      trace := (trace w ++ [a])%list |}).

(** [data[k]] *)
Definition getitem (d : dict) (k : string) : result json :=
  of_option KeyError (dict_get d k).

(** [x.user.name if x.user else placeholder] *)
Definition display_name (u : option Users.t) (placeholder : string)
  : string :=
  match u with Some usr => Users.name usr | None => placeholder end.

Section WithEnv.
Variable env : Env.

(** [db.session.commit()]: the pending changes become durable, or the
    storage refuses and the call raises. *)
Definition session_commit : M unit :=
  fun w =>
    if commit_ok env
    then (Ok tt, {| committed := session w; session := session w;
                    trace := (trace w ++ [Commit])%list |})
    else (Raise StorageError, w).

(** [db.session.rollback()] *)
Definition session_rollback : M unit :=
  fun w => (Ok tt, {| committed := committed w; session := committed w;
                      trace := (trace w ++ [Rollback])%list |}).

(** An emit that reaches the server: [self.socketio.emit(name, payload,
    room=...)], and the broadcast once its keyword is accepted. *)
Definition socketio_emit (name : string) (payload : dict) (t : target)
  : M unit :=
  log (Emit {| ev_name := name; ev_payload := payload; ev_target := t |}).

(** [self.socketio.emit(name, payload, broadcast=True)]: the payload is
    built first, then the call either reaches everybody or raises. *)
Definition socketio_broadcast (name : string) (payload : dict) : M unit :=
  if takes_broadcast env
  then socketio_emit name payload Broadcast
  else raise TypeError.

(** [emit(name, payload)] inside a Socket.IO handler. *)
Definition emit (name : string) (payload : dict) : M unit :=
  socketio_emit name payload (ToSid (request_sid env)).

(** What a column stores for a Python value: a value of the column's own
    type is stored as it is and [None] as NULL; otherwise the driver
    decides, and a rejected value surfaces as a storage error. *)
Definition col_int (v : json) : result (option Z) :=
  match v with
  | JInt n => Ok (Some n)
  | JNull => Ok None
  | _ => of_option StorageError (adapt_int env v)
  end.

Definition col_text (v : json) : result (option string) :=
  match v with
  | JStr s => Ok (Some s)
  | JNull => Ok None
  | _ => of_option StorageError (adapt_text env v)
  end.

(** A [Numeric(10, 2)] column, in hundredths. *)
Definition col_numeric (v : json) : result (option Z) :=
  match v with
  | JInt n => Ok (Some (100 * n))
  | JNull => Ok None
  | _ => of_option StorageError (adapt_numeric env v)
  end.

(** A [nullable=False] column. *)
Definition text_nn (v : json) : result string :=
  t <~ col_text v ;; of_option StorageError t.

Definition numeric_nn (v : json) : result Z :=
  n <~ col_numeric v ;; of_option StorageError n.

(** [datetime.fromisoformat(v)] *)
Definition parse_datetime (v : json) : result Z :=
  match v with
  | JStr s => of_option ValueError (fromisoformat env s)
  | _ => Raise TypeError
  end.

(** [x.isoformat()] on a nullable attribute. *)
Definition iso_datetime (d : option Z) : result json :=
  match d with
  | Some x => Ok (JStr (isoformat env x))
  | None => Raise AttributeError
  end.

Definition iso_date (d : option Z) : result json :=
  match d with
  | Some x => Ok (JStr (date_isoformat env x))
  | None => Raise AttributeError
  end.

Definition iso_time (d : option Z) : result json :=
  match d with
  | Some x => Ok (JStr (time_isoformat env x))
  | None => Raise AttributeError
  end.

End WithEnv.

(** [Model.query.get_or_404(id)] *)
Definition get_or_404 {R} (pk : R -> Z) (tbl : DB -> list R) (id : Z)
  : M R :=
  d <- read_session ;; liftr (of_option NotFound (find_row pk id (tbl d))).

(** ** HTTP requests and responses *)

Inductive http_method : Type := GET | POST | PUT | DELETE.

(** Flask's [request]: the method, [request.json] and [request.args]. *)
Record request : Type := {
  req_method : http_method;
  req_json : dict;
  req_args : dict
}.

Definition with_method (m : http_method) (r : request) : request :=
  {| req_method := m; req_json := req_json r; req_args := req_args r |}.

Record response : Type := {
  body : json;
  status : Z
}.

(** [jsonify(obj), code] *)
Definition jsonify (obj : json) (code : Z) : M response :=
  ret {| body := obj; status := code |}.

(** The routing layer answers a method outside the route's [methods]. *)
Definition method_not_allowed : M response :=
  ret {| body := JNull; status := 405 |}.

(** ** Query helpers *)

(** NULL sorts after every value. *)
Definition opt_leb (a b : option Z) : bool :=
  match a, b with
  | _, None => true
  | None, Some _ => false
  | Some x, Some y => x <=? y
  end.

Section OrderBy.
Context {R : Type} (leb : R -> R -> bool).

Fixpoint insert_sorted (x : R) (l : list R) : list R :=
  match l with
  | [] => [x]
  | y :: l' => if leb x y then x :: l else y :: insert_sorted x l'
  end.

(** [query.order_by(...).all()]; rows with equal keys stay in storage
    order. *)
Fixpoint order_by (l : list R) : list R :=
  match l with
  | [] => []
  | x :: l' => insert_sorted x (order_by l')
  end.
End OrderBy.

(** Equality of two nullable integers; NULL matches NULL as in
    [filter_by(col=None)]. *)
Definition opt_eqb (a b : option Z) : bool :=
  match a, b with
  | Some x, Some y => x =? y
  | None, None => true
  | _, _ => false
  end.

Definition asc {R} (key : R -> option Z) (a b : R) : bool :=
  opt_leb (key a) (key b).

Definition desc {R} (key : R -> option Z) (a b : R) : bool :=
  opt_leb (key b) (key a).

(** [session.add(Model(...))]: the new row receives its primary key. *)
Definition session_add {R} (pk : R -> Z) (tbl : DB -> list R)
    (set : list R -> DB -> DB) (mk : Z -> R) : M R :=
  d <- read_session ;;
  let r := mk (next_id pk (tbl d)) in
  write_session (set (tbl d ++ [r])%list) ;;;
  ret r.

(** An attribute assignment on a row loaded in the session. *)
Definition session_update {R} (pk : R -> Z) (tbl : DB -> list R)
    (set : list R -> DB -> DB) (r : R) : M unit :=
  write_session (fun d => set (replace_row pk r (tbl d)) d).

(** [session.delete(row)] *)
Definition session_delete {R} (pk : R -> Z) (tbl : DB -> list R)
    (set : list R -> DB -> DB) (id : Z) : M unit :=
  write_session (fun d => set (delete_row pk id (tbl d)) d).

(** [row.attr = data.get(k, row.attr)] followed by the column adaptation. *)
Definition updated {A} (data : dict) (k : string) (adapt : json -> result A)
    (old : A) : result A :=
  match dict_get data k with
  | Some v => adapt v
  | None => Ok old
  end.

(** The tag palette of the announcement handlers. *)
Definition tag_colors : list (string * (string * string)) :=
  [ ("สำคัญ", ("#1976d2", "#e3f2fd"));
    ("กิจกรรม", ("#2e7d32", "#e8f5e8"));
    ("แจ้งเตือน", ("#856404", "#fff3cd")) ].

Fixpoint assoc {A} (l : list (string * A)) (k : string) : option A :=
  match l with
  | [] => None
  | (k', v) :: l' => if (k' =? k)%string then Some v else assoc l' k
  end.

(** [tag_colors.get(tag, {'color': '#666', 'bg': '#eee'})] *)
Definition tag_info (tag : json) : result (string * string) :=
  match tag with
  | JStr s =>
      Ok (match assoc tag_colors s with
          | Some c => c
          | None => ("#666", "#eee")
          end)
  | JList _ | JObj _ => Raise TypeError
  | _ => Ok ("#666", "#eee")
  end.

(** ** The REST handlers *)

Section Handlers.
Variable env : Env.

(** [row.user] and the like, loaded through the session. *)
Definition relationship (fk : option Z) : M (option Users.t) :=
  d <- read_session ;; ret (related_user d fk).

Definition announcement_payload (a : Announcements.t) (author_name : string)
  : result dict :=
  published <~ iso_datetime env (Announcements.published_date a) ;;
  Ok [ ("announcement_id", JInt (Announcements.announcement_id a));
        ("title", JStr (Announcements.title a));
        ("content", JStr (Announcements.content a));
        ("published_date", published);
        ("author_id", json_opt_int (Announcements.author_id a));
        ("author_name", JStr author_name);
        ("tag", json_opt_str (Announcements.tag a));
        ("tag_color", json_opt_str (Announcements.tag_color a));
        ("tag_bg", json_opt_str (Announcements.tag_bg a)) ].

Definition manage_announcements (req : request) : M response :=
  match req_method req with
  | POST =>
      let data := req_json req in
      colors <- tag_info (get data "tag") ;;
      title <- getitem data "title" ;;
      content <- getitem data "content" ;;
      published_date <-
        (if contains data "published_date"
         then v <- getitem data "published_date" ;; parse_datetime env v
         else ret (utcnow env)) ;;
      title' <- text_nn env title ;;
      content' <- text_nn env content ;;
      author_id <- col_int env (get data "author_id") ;;
      tag <- col_text env (get data "tag") ;;
      new_announcement <-
        session_add Announcements.announcement_id announcements
          set_announcements
          (fun id =>
             {| Announcements.announcement_id := id;
                Announcements.title := title';
                Announcements.content := content';
                Announcements.published_date := Some published_date;
                Announcements.author_id := author_id;
                Announcements.tag := tag;
                Announcements.tag_color := Some (fst colors);
                Announcements.tag_bg := Some (snd colors) |}) ;;
      session_commit env ;;;
      author <- relationship (Announcements.author_id new_announcement) ;;
      let author_name := display_name author "Unknown Author" in
      payload <- announcement_payload new_announcement author_name ;;
      socketio_broadcast env "new_announcement" payload ;;;
      jsonify
        (JObj [ ("message", JStr "Announcement created successfully");
                ("announcement_id",
                 JInt (Announcements.announcement_id new_announcement)) ])
        201
  | GET =>
      d <- read_session ;;
      let rows :=
        order_by (desc Announcements.published_date) (announcements d) in
      result <-
        traverse
          (fun ann =>
             let author := related_user d (Announcements.author_id ann) in
             p <~ announcement_payload ann
                    (display_name author "Unknown Author") ;;
             Ok (JObj p))
          rows ;;
      jsonify (JList result) 200
  | _ => method_not_allowed
  end.

Definition handle_single_announcement (req : request)
    (announcement_id : Z) : M response :=
  match req_method req with
  | PUT =>
      announcement <-
        get_or_404 Announcements.announcement_id announcements
          announcement_id ;;
      let data := req_json req in
      published_date <-
        (if contains data "published_date"
         then v <- getitem data "published_date" ;;
              p <- parse_datetime env v ;; ret (Some p)
         else ret (Announcements.published_date announcement)) ;;
      colors <-
        tag_info (get_default data "tag"
                    (json_opt_str (Announcements.tag announcement))) ;;
      title <- updated data "title" (text_nn env)
                 (Announcements.title announcement) ;;
      content <- updated data "content" (text_nn env)
                   (Announcements.content announcement) ;;
      author_id <- updated data "author_id" (col_int env)
                     (Announcements.author_id announcement) ;;
      tag <- updated data "tag" (col_text env)
               (Announcements.tag announcement) ;;
      let announcement' :=
        {| Announcements.announcement_id :=
             Announcements.announcement_id announcement;
           Announcements.title := title;
           Announcements.content := content;
           Announcements.published_date := published_date;
           Announcements.author_id := author_id;
           Announcements.tag := tag;
           Announcements.tag_color := Some (fst colors);
           Announcements.tag_bg := Some (snd colors) |} in
      session_update Announcements.announcement_id announcements
        set_announcements announcement' ;;;
      session_commit env ;;;
      author <- relationship (Announcements.author_id announcement') ;;
      let author_name := display_name author "Unknown Author" in
      payload <- announcement_payload announcement' author_name ;;
      socketio_broadcast env "announcement_updated" payload ;;;
      jsonify
        (JObj [ ("message", JStr "Announcement updated successfully") ])
        200
  | DELETE =>
      announcement <-
        get_or_404 Announcements.announcement_id announcements
          announcement_id ;;
      session_delete Announcements.announcement_id announcements
        set_announcements (Announcements.announcement_id announcement) ;;;
      session_commit env ;;;
      socketio_broadcast env "announcement_deleted"
        [ ("announcement_id", JInt announcement_id) ] ;;;
      jsonify
        (JObj [ ("message", JStr "Announcement deleted successfully") ])
        204
  | _ => method_not_allowed
  end.

Definition manage_repair_requests (req : request) : M response :=
  match req_method req with
  | POST =>
      let data := req_json req in
      user_id <- getitem data "user_id" ;;
      title <- getitem data "title" ;;
      category <- getitem data "category" ;;
      description <- getitem data "description" ;;
      user_id' <- col_int env user_id ;;
      title' <- text_nn env title ;;
      category' <- col_text env category ;;
      description' <- text_nn env description ;;
      image_paths <- col_text env (get data "image_paths") ;;
      new_request <-
        session_add RepairRequests.request_id repair_requests
          set_repair_requests
          (fun id =>
             {| RepairRequests.request_id := id;
                RepairRequests.user_id := user_id';
                RepairRequests.title := title';
                RepairRequests.category := category';
                RepairRequests.description := description';
                RepairRequests.submitted_date := Some (utcnow env);
                RepairRequests.status := Some "pending";
                RepairRequests.image_paths := image_paths |}) ;;
      session_commit env ;;;
      user <- relationship (RepairRequests.user_id new_request) ;;
      let user_name := display_name user "Unknown User" in
      submitted <-
        iso_datetime env (RepairRequests.submitted_date new_request) ;;
      socketio_emit "new_repair_request"
        [ ("request_id", JInt (RepairRequests.request_id new_request));
          ("user_id", json_opt_int (RepairRequests.user_id new_request));
          ("user_name", JStr user_name);
          ("title", JStr (RepairRequests.title new_request));
          ("status", json_opt_str (RepairRequests.status new_request));
          ("submitted_date", submitted) ]
        (Room (JStr "admins")) ;;;
      jsonify
        (JObj [ ("message", JStr "Repair request submitted successfully");
                ("request_id",
                 JInt (RepairRequests.request_id new_request)) ])
        201
  | GET =>
      d <- read_session ;;
      result <-
        traverse
          (fun r =>
             let user := related_user d (RepairRequests.user_id r) in
             submitted <~
               iso_datetime env (RepairRequests.submitted_date r) ;;
             Ok (JObj
               [ ("request_id", JInt (RepairRequests.request_id r));
                 ("user_id", json_opt_int (RepairRequests.user_id r));
                 ("user_name", JStr (display_name user "Unknown User"));
                 ("title", JStr (RepairRequests.title r));
                 ("category", json_opt_str (RepairRequests.category r));
                 ("description", JStr (RepairRequests.description r));
                 ("status", json_opt_str (RepairRequests.status r));
                 ("submitted_date", submitted);
                 ("image_paths",
                  json_opt_str (RepairRequests.image_paths r)) ]))
          (repair_requests d) ;;
      jsonify (JList result) 200
  | _ => method_not_allowed
  end.

Definition handle_single_repair_request (req : request) (request_id : Z)
  : M response :=
  match req_method req with
  | PUT =>
      r <- get_or_404 RepairRequests.request_id repair_requests
             request_id ;;
      let data := req_json req in
      title <- updated data "title" (text_nn env) (RepairRequests.title r) ;;
      category <- updated data "category" (col_text env)
                    (RepairRequests.category r) ;;
      description <- updated data "description" (text_nn env)
                       (RepairRequests.description r) ;;
      status <- updated data "status" (col_text env)
                  (RepairRequests.status r) ;;
      image_paths <- updated data "image_paths" (col_text env)
                       (RepairRequests.image_paths r) ;;
      let r' :=
        {| RepairRequests.request_id := RepairRequests.request_id r;
           RepairRequests.user_id := RepairRequests.user_id r;
           RepairRequests.title := title;
           RepairRequests.category := category;
           RepairRequests.description := description;
           RepairRequests.submitted_date :=
             RepairRequests.submitted_date r;
           RepairRequests.status := status;
           RepairRequests.image_paths := image_paths |} in
      session_update RepairRequests.request_id repair_requests
        set_repair_requests r' ;;;
      session_commit env ;;;
      socketio_emit "repair_status_updated"
        [ ("request_id", JInt (RepairRequests.request_id r'));
          ("user_id", json_opt_int (RepairRequests.user_id r'));
          ("status", json_opt_str (RepairRequests.status r'));
          ("title", JStr (RepairRequests.title r')) ]
        (Room (JStr ("user_" ++ str_opt_int (RepairRequests.user_id r')))) ;;;
      jsonify
        (JObj [ ("message", JStr "Repair request updated successfully") ])
        200
  | DELETE =>
      r <- get_or_404 RepairRequests.request_id repair_requests
             request_id ;;
      session_delete RepairRequests.request_id repair_requests
        set_repair_requests (RepairRequests.request_id r) ;;;
      session_commit env ;;;
      jsonify
        (JObj [ ("message", JStr "Repair request deleted successfully") ])
        204
  | _ => method_not_allowed
  end.

Definition manage_booking_requests (req : request) : M response :=
  match req_method req with
  | POST =>
      let data := req_json req in
      user_id <- getitem data "user_id" ;;
      location <- getitem data "location" ;;
      date_v <- getitem data "date" ;;
      date <- parse_datetime env date_v ;;
      start_v <- getitem data "start_time" ;;
      start_time <- parse_datetime env start_v ;;
      end_v <- getitem data "end_time" ;;
      end_time <- parse_datetime env end_v ;;
      user_id' <- col_int env user_id ;;
      location' <- text_nn env location ;;
      purpose <- col_text env (get data "purpose") ;;
      attendee_count <- col_int env (get data "attendee_count") ;;
      new_booking <-
        session_add BookingRequests.booking_id booking_requests
          set_booking_requests
          (fun id =>
             {| BookingRequests.booking_id := id;
                BookingRequests.user_id := user_id';
                BookingRequests.location := location';
                BookingRequests.date := Some (dt_date date);
                BookingRequests.start_time := Some (dt_time start_time);
                BookingRequests.end_time := Some (dt_time end_time);
                BookingRequests.purpose := purpose;
                BookingRequests.attendee_count := attendee_count;
                BookingRequests.status := Some "pending" |}) ;;
      session_commit env ;;;
      user <- relationship (BookingRequests.user_id new_booking) ;;
      let user_name := display_name user "Unknown User" in
      socketio_emit "new_booking_request"
        [ ("booking_id", JInt (BookingRequests.booking_id new_booking));
          ("user_id", json_opt_int (BookingRequests.user_id new_booking));
          ("user_name", JStr user_name);
          ("location", JStr (BookingRequests.location new_booking));
          ("status", json_opt_str (BookingRequests.status new_booking)) ]
        (Room (JStr "admins")) ;;;
      jsonify
        (JObj [ ("message", JStr "Booking request submitted successfully");
                ("booking_id",
                 JInt (BookingRequests.booking_id new_booking)) ])
        201
  | GET =>
      d <- read_session ;;
      result <-
        traverse
          (fun b =>
             let user := related_user d (BookingRequests.user_id b) in
             date <~ iso_date env (BookingRequests.date b) ;;
             start_time <~ iso_time env (BookingRequests.start_time b) ;;
             end_time <~ iso_time env (BookingRequests.end_time b) ;;
             Ok (JObj
               [ ("booking_id", JInt (BookingRequests.booking_id b));
                 ("user_id", json_opt_int (BookingRequests.user_id b));
                 ("user_name", JStr (display_name user "Unknown User"));
                 ("location", JStr (BookingRequests.location b));
                 ("date", date);
                 ("start_time", start_time);
                 ("end_time", end_time);
                 ("purpose", json_opt_str (BookingRequests.purpose b));
                 ("attendee_count",
                  json_opt_int (BookingRequests.attendee_count b));
                 ("status", json_opt_str (BookingRequests.status b)) ]))
          (booking_requests d) ;;
      jsonify (JList result) 200
  | _ => method_not_allowed
  end.

(** [fromisoformat(data[k]).part() if k in data else old] *)
Definition updated_part (data : dict) (k : string) (part : Z -> Z)
    (old : option Z) : result (option Z) :=
  if contains data k
  then v <~ getitem data k ;; p <~ parse_datetime env v ;;
       Ok (Some (part p))
  else Ok old.

Definition handle_single_booking_request (req : request) (booking_id : Z)
  : M response :=
  match req_method req with
  | PUT =>
      b <- get_or_404 BookingRequests.booking_id booking_requests
             booking_id ;;
      let data := req_json req in
      date <- updated_part data "date" dt_date (BookingRequests.date b) ;;
      start_time <- updated_part data "start_time" dt_time
                      (BookingRequests.start_time b) ;;
      end_time <- updated_part data "end_time" dt_time
                    (BookingRequests.end_time b) ;;
      location <- updated data "location" (text_nn env)
                    (BookingRequests.location b) ;;
      purpose <- updated data "purpose" (col_text env)
                   (BookingRequests.purpose b) ;;
      attendee_count <- updated data "attendee_count" (col_int env)
                          (BookingRequests.attendee_count b) ;;
      status <- updated data "status" (col_text env)
                  (BookingRequests.status b) ;;
      let b' :=
        {| BookingRequests.booking_id := BookingRequests.booking_id b;
           BookingRequests.user_id := BookingRequests.user_id b;
           BookingRequests.location := location;
           BookingRequests.date := date;
           BookingRequests.start_time := start_time;
           BookingRequests.end_time := end_time;
           BookingRequests.purpose := purpose;
           BookingRequests.attendee_count := attendee_count;
           BookingRequests.status := status |} in
      session_update BookingRequests.booking_id booking_requests
        set_booking_requests b' ;;;
      session_commit env ;;;
      socketio_emit "booking_status_updated"
        [ ("booking_id", JInt (BookingRequests.booking_id b'));
          ("user_id", json_opt_int (BookingRequests.user_id b'));
          ("status", json_opt_str (BookingRequests.status b'));
          ("location", JStr (BookingRequests.location b')) ]
        (Room (JStr ("user_" ++ str_opt_int (BookingRequests.user_id b')))) ;;;
      jsonify
        (JObj [ ("message", JStr "Booking request updated successfully") ])
        200
  | DELETE =>
      b <- get_or_404 BookingRequests.booking_id booking_requests
             booking_id ;;
      session_delete BookingRequests.booking_id booking_requests
        set_booking_requests (BookingRequests.booking_id b) ;;;
      session_commit env ;;;
      jsonify
        (JObj [ ("message", JStr "Booking request deleted successfully") ])
        204
  | _ => method_not_allowed
  end.

Definition manage_bills (req : request) : M response :=
  match req_method req with
  | POST =>
      let data := req_json req in
      item_name <- getitem data "item_name" ;;
      amount <- getitem data "amount" ;;
      due_v <- getitem data "due_date" ;;
      due_date <- parse_datetime env due_v ;;
      issued_by <- getitem data "issued_by_user_id" ;;
      item_name' <- text_nn env item_name ;;
      amount' <- numeric_nn env amount ;;
      recipient_id <- text_nn env (get_default data "recipient_id" (JStr "all")) ;;
      issued_by' <- col_int env issued_by ;;
      new_bill <-
        session_add Bills.bill_id bills set_bills
          (fun id =>
             {| Bills.bill_id := id;
                Bills.item_name := item_name';
                Bills.amount := amount';
                Bills.due_date := Some (dt_date due_date);
                Bills.recipient_id := recipient_id;
                Bills.issued_by_user_id := issued_by';
                Bills.status := Some "unpaid" |}) ;;
      session_commit env ;;;
      due <- iso_date env (Bills.due_date new_bill) ;;
      socketio_broadcast env "new_bill_created"
        [ ("bill_id", JInt (Bills.bill_id new_bill));
          ("item_name", JStr (Bills.item_name new_bill));
          ("amount", JStr (str_numeric (Bills.amount new_bill)));
          ("due_date", due);
          ("recipient_id", JStr (Bills.recipient_id new_bill));
          ("status", json_opt_str (Bills.status new_bill)) ] ;;;
      jsonify
        (JObj [ ("message", JStr "Bill created successfully");
                ("bill_id", JInt (Bills.bill_id new_bill)) ])
        201
  | GET =>
      d <- read_session ;;
      result <-
        traverse
          (fun bill =>
             let issued_by_user :=
               related_user d (Bills.issued_by_user_id bill) in
             due <~ iso_date env (Bills.due_date bill) ;;
             Ok (JObj
               [ ("bill_id", JInt (Bills.bill_id bill));
                 ("item_name", JStr (Bills.item_name bill));
                 ("amount", JStr (str_numeric (Bills.amount bill)));
                 ("due_date", due);
                 ("recipient_id", JStr (Bills.recipient_id bill));
                 ("issued_by_user_id",
                  json_opt_int (Bills.issued_by_user_id bill));
                 ("issued_by_user_name",
                  JStr (display_name issued_by_user "Unknown"));
                 ("status", json_opt_str (Bills.status bill)) ]))
          (bills d) ;;
      jsonify (JList result) 200
  | _ => method_not_allowed
  end.

(** Deleting a bill de-associates the payments that referenced it (the
    [payments] backref carries no delete cascade). *)
Definition detach_bill (id : Z) (p : Payments.t) : Payments.t :=
  if opt_eqb (Payments.bill_id p) (Some id)
  then {| Payments.payment_id := Payments.payment_id p;
          Payments.user_id := Payments.user_id p;
          Payments.bill_id := None;
          Payments.amount := Payments.amount p;
          Payments.payment_method := Payments.payment_method p;
          Payments.payment_date := Payments.payment_date p;
          Payments.status := Payments.status p;
          Payments.slip_path := Payments.slip_path p |}
  else p.

Definition handle_single_bill (req : request) (bill_id : Z) : M response :=
  match req_method req with
  | PUT =>
      bill <- get_or_404 Bills.bill_id bills bill_id ;;
      let data := req_json req in
      due_date <- updated_part data "due_date" dt_date
                    (Bills.due_date bill) ;;
      item_name <- updated data "item_name" (text_nn env)
                     (Bills.item_name bill) ;;
      amount <- updated data "amount" (numeric_nn env) (Bills.amount bill) ;;
      recipient_id <- updated data "recipient_id" (text_nn env)
                        (Bills.recipient_id bill) ;;
      status <- updated data "status" (col_text env) (Bills.status bill) ;;
      let bill' :=
        {| Bills.bill_id := Bills.bill_id bill;
           Bills.item_name := item_name;
           Bills.amount := amount;
           Bills.due_date := due_date;
           Bills.recipient_id := recipient_id;
           Bills.issued_by_user_id := Bills.issued_by_user_id bill;
           Bills.status := status |} in
      session_update Bills.bill_id bills set_bills bill' ;;;
      session_commit env ;;;
      socketio_broadcast env "bill_updated"
        [ ("bill_id", JInt (Bills.bill_id bill'));
          ("item_name", JStr (Bills.item_name bill'));
          ("amount", JStr (str_numeric (Bills.amount bill')));
          ("status", json_opt_str (Bills.status bill')) ] ;;;
      jsonify (JObj [ ("message", JStr "Bill updated successfully") ]) 200
  | DELETE =>
      bill <- get_or_404 Bills.bill_id bills bill_id ;;
      let bill_name := Bills.item_name bill in
      session_delete Bills.bill_id bills set_bills (Bills.bill_id bill) ;;;
      write_session
        (fun d => set_payments
                    (map (detach_bill (Bills.bill_id bill)) (payments d))
                    d) ;;;
      session_commit env ;;;
      socketio_broadcast env "bill_deleted"
        [ ("bill_id", JInt bill_id); ("item_name", JStr bill_name) ] ;;;
      jsonify (JObj [ ("message", JStr "Bill deleted successfully") ]) 204
  | _ => method_not_allowed
  end.

Definition manage_payments (req : request) : M response :=
  match req_method req with
  | POST =>
      let data := req_json req in
      user_id <- getitem data "user_id" ;;
      amount <- getitem data "amount" ;;
      user_id' <- col_int env user_id ;;
      bill_id <- col_int env (get data "bill_id") ;;
      amount' <- numeric_nn env amount ;;
      payment_method <- col_text env (get data "payment_method") ;;
      status <- col_text env (get_default data "status" (JStr "pending")) ;;
      slip_path <- col_text env (get data "slip_path") ;;
      new_payment <-
        session_add Payments.payment_id payments set_payments
          (fun id =>
             {| Payments.payment_id := id;
                Payments.user_id := user_id';
                Payments.bill_id := bill_id;
                Payments.amount := amount';
                Payments.payment_method := payment_method;
                Payments.payment_date := Some (utcnow env);
                Payments.status := status;
                Payments.slip_path := slip_path |}) ;;
      session_commit env ;;;
      user <- relationship (Payments.user_id new_payment) ;;
      let user_name := display_name user "Unknown User" in
      socketio_emit "new_payment_receipt"
        [ ("payment_id", JInt (Payments.payment_id new_payment));
          ("user_id", json_opt_int (Payments.user_id new_payment));
          ("user_name", JStr user_name);
          ("amount", JStr (str_numeric (Payments.amount new_payment)));
          ("status", json_opt_str (Payments.status new_payment));
          ("bill_id", json_opt_int (Payments.bill_id new_payment)) ]
        (Room (JStr "admins")) ;;;
      jsonify
        (JObj [ ("message", JStr "Payment recorded successfully");
                ("payment_id", JInt (Payments.payment_id new_payment)) ])
        201
  | GET =>
      let user_id := get (req_args req) "user_id" in
      d <- read_session ;;
      rows <-
        (if py_truthy user_id
         then u <- col_int env user_id ;;
              ret (filter (fun p => opt_eqb (Payments.user_id p) u)
                     (payments d))
         else ret (payments d)) ;;
      result <-
        traverse
          (fun payment =>
             let user := related_user d (Payments.user_id payment) in
             let bill := related_bill d (Payments.bill_id payment) in
             paid <~ iso_datetime env (Payments.payment_date payment) ;;
             Ok (JObj
               [ ("payment_id", JInt (Payments.payment_id payment));
                 ("user_id", json_opt_int (Payments.user_id payment));
                 ("user_name", JStr (display_name user "Unknown User"));
                 ("bill_id", json_opt_int (Payments.bill_id payment));
                 ("bill_item_name",
                  match bill with
                  | Some b => JStr (Bills.item_name b)
                  | None => JNull
                  end);
                 ("amount", JStr (str_numeric (Payments.amount payment)));
                 ("payment_method",
                  json_opt_str (Payments.payment_method payment));
                 ("payment_date", paid);
                 ("status", json_opt_str (Payments.status payment));
                 ("slip_path",
                  json_opt_str (Payments.slip_path payment)) ]))
          rows ;;
      jsonify (JList result) 200
  | _ => method_not_allowed
  end.

Definition set_bill_status (s : option string) (b : Bills.t) : Bills.t :=
  {| Bills.bill_id := Bills.bill_id b;
     Bills.item_name := Bills.item_name b;
     Bills.amount := Bills.amount b;
     Bills.due_date := Bills.due_date b;
     Bills.recipient_id := Bills.recipient_id b;
     Bills.issued_by_user_id := Bills.issued_by_user_id b;
     Bills.status := s |}.

Definition approve_payment (req : request) (payment_id : Z) : M response :=
  match req_method req with
  | PUT =>
      payment <- get_or_404 Payments.payment_id payments payment_id ;;
      let data := req_json req in
      let new_status := get_default data "status" (JStr "paid") in
      match new_status with
      | JStr s =>
          if ((s =? "paid") || (s =? "rejected"))%string
          then
            status <- col_text env new_status ;;
            let payment' :=
              {| Payments.payment_id := Payments.payment_id payment;
                 Payments.user_id := Payments.user_id payment;
                 Payments.bill_id := Payments.bill_id payment;
                 Payments.amount := Payments.amount payment;
                 Payments.payment_method := Payments.payment_method payment;
                 Payments.payment_date := Payments.payment_date payment;
                 Payments.status := status;
                 Payments.slip_path := Payments.slip_path payment |} in
            session_update Payments.payment_id payments set_payments
              payment' ;;;
            d <- read_session ;;
            match related_bill d (Payments.bill_id payment) with
            | Some b =>
                session_update Bills.bill_id bills set_bills
                  (set_bill_status status b)
            | None => ret tt
            end ;;;
            session_commit env ;;;
            socketio_broadcast env "payment_approved"
              [ ("payment_id", JInt (Payments.payment_id payment'));
                ("user_id", json_opt_int (Payments.user_id payment'));
                ("bill_id", json_opt_int (Payments.bill_id payment'));
                ("status", json_opt_str (Payments.status payment')) ] ;;;
            jsonify
              (JObj [ ("message",
                       JStr ("Payment " ++ str_int payment_id
                             ++ " status updated to " ++ s)) ])
              200
          else
            jsonify
              (JObj [ ("message",
                       JStr "Invalid status for payment approval") ])
              400
      | _ =>
          jsonify
            (JObj [ ("message",
                     JStr "Invalid status for payment approval") ])
            400
      end
  | _ => method_not_allowed
  end.

Definition manage_calendar_events (req : request) : M response :=
  match req_method req with
  | POST =>
      let data := req_json req in
      event_name <- getitem data "event_name" ;;
      date_v <- getitem data "event_date" ;;
      event_date <- parse_datetime env date_v ;;
      event_name' <- text_nn env event_name ;;
      location <- col_text env (get data "location") ;;
      description <- col_text env (get data "description") ;;
      new_event <-
        session_add CalendarEvents.event_id calendar_events
          set_calendar_events
          (fun id =>
             {| CalendarEvents.event_id := id;
                CalendarEvents.event_name := event_name';
                CalendarEvents.event_date := Some event_date;
                CalendarEvents.location := location;
                CalendarEvents.description := description |}) ;;
      session_commit env ;;;
      date <- iso_datetime env (CalendarEvents.event_date new_event) ;;
      socketio_broadcast env "new_calendar_event"
        [ ("event_id", JInt (CalendarEvents.event_id new_event));
          ("event_name", JStr (CalendarEvents.event_name new_event));
          ("event_date", date);
          ("location", json_opt_str (CalendarEvents.location new_event)) ] ;;;
      jsonify
        (JObj [ ("message", JStr "Calendar event created successfully");
                ("event_id", JInt (CalendarEvents.event_id new_event)) ])
        201
  | GET =>
      d <- read_session ;;
      result <-
        traverse
          (fun ev =>
             date <~ iso_datetime env (CalendarEvents.event_date ev) ;;
             Ok (JObj
               [ ("event_id", JInt (CalendarEvents.event_id ev));
                 ("event_name", JStr (CalendarEvents.event_name ev));
                 ("event_date", date);
                 ("location", json_opt_str (CalendarEvents.location ev));
                 ("description",
                  json_opt_str (CalendarEvents.description ev)) ]))
          (calendar_events d) ;;
      jsonify (JList result) 200
  | _ => method_not_allowed
  end.

Definition manage_documents (req : request) : M response :=
  match req_method req with
  | POST =>
      let data := req_json req in
      document_name <- getitem data "document_name" ;;
      file_path <- getitem data "file_path" ;;
      uploaded_by <- getitem data "uploaded_by_user_id" ;;
      document_name' <- text_nn env document_name ;;
      file_path' <- text_nn env file_path ;;
      uploaded_by' <- col_int env uploaded_by ;;
      category <- col_text env (get data "category") ;;
      new_doc <-
        session_add Documents.document_id documents set_documents
          (fun id =>
             {| Documents.document_id := id;
                Documents.document_name := document_name';
                Documents.file_path := file_path';
                Documents.uploaded_by_user_id := uploaded_by';
                Documents.upload_date := Some (utcnow env);
                Documents.category := category |}) ;;
      session_commit env ;;;
      jsonify
        (JObj [ ("message", JStr "Document uploaded successfully");
                ("document_id", JInt (Documents.document_id new_doc)) ])
        201
  | GET =>
      d <- read_session ;;
      result <-
        traverse
          (fun doc =>
             let user := related_user d (Documents.uploaded_by_user_id doc) in
             uploaded <~ iso_datetime env (Documents.upload_date doc) ;;
             Ok (JObj
               [ ("document_id", JInt (Documents.document_id doc));
                 ("document_name", JStr (Documents.document_name doc));
                 ("file_path", JStr (Documents.file_path doc));
                 ("uploaded_by_user_id",
                  json_opt_int (Documents.uploaded_by_user_id doc));
                 ("uploaded_by_user_name",
                  JStr (display_name user "Unknown User"));
                 ("upload_date", uploaded);
                 ("category", json_opt_str (Documents.category doc)) ]))
          (documents d) ;;
      jsonify (JList result) 200
  | _ => method_not_allowed
  end.

Definition manage_security_visitors (req : request) : M response :=
  match req_method req with
  | POST =>
      let data := req_json req in
      user_id <- getitem data "user_id" ;;
      name <- getitem data "name" ;;
      date_v <- getitem data "visit_date" ;;
      visit_date <- parse_datetime env date_v ;;
      time_v <- getitem data "visit_time" ;;
      visit_time <- parse_datetime env time_v ;;
      user_id' <- col_int env user_id ;;
      name' <- text_nn env name ;;
      phone <- col_text env (get data "phone") ;;
      purpose <- col_text env (get data "purpose") ;;
      new_visitor <-
        session_add SecurityVisitors.visitor_id security_visitors
          set_security_visitors
          (fun id =>
             {| SecurityVisitors.visitor_id := id;
                SecurityVisitors.user_id := user_id';
                SecurityVisitors.name := name';
                SecurityVisitors.phone := phone;
                SecurityVisitors.visit_date := Some (dt_date visit_date);
                SecurityVisitors.visit_time := Some (dt_time visit_time);
                SecurityVisitors.purpose := purpose |}) ;;
      session_commit env ;;;
      user <- relationship (SecurityVisitors.user_id new_visitor) ;;
      let user_name := display_name user "Unknown User" in
      date <- iso_date env (SecurityVisitors.visit_date new_visitor) ;;
      socketio_emit "new_visitor_registered"
        [ ("visitor_id", JInt (SecurityVisitors.visitor_id new_visitor));
          ("name", JStr (SecurityVisitors.name new_visitor));
          ("visit_date", date);
          ("user_id", json_opt_int (SecurityVisitors.user_id new_visitor));
          ("user_name", JStr user_name) ]
        (Room (JStr "admins")) ;;;
      jsonify
        (JObj [ ("message", JStr "Visitor registered successfully");
                ("visitor_id",
                 JInt (SecurityVisitors.visitor_id new_visitor)) ])
        201
  | GET =>
      d <- read_session ;;
      result <-
        traverse
          (fun visitor =>
             let user := related_user d (SecurityVisitors.user_id visitor) in
             date <~ iso_date env (SecurityVisitors.visit_date visitor) ;;
             time <~ iso_time env (SecurityVisitors.visit_time visitor) ;;
             Ok (JObj
               [ ("visitor_id", JInt (SecurityVisitors.visitor_id visitor));
                 ("user_id",
                  json_opt_int (SecurityVisitors.user_id visitor));
                 ("user_name", JStr (display_name user "Unknown User"));
                 ("name", JStr (SecurityVisitors.name visitor));
                 ("phone", json_opt_str (SecurityVisitors.phone visitor));
                 ("visit_date", date);
                 ("visit_time", time);
                 ("purpose",
                  json_opt_str (SecurityVisitors.purpose visitor)) ]))
          (security_visitors d) ;;
      jsonify (JList result) 200
  | _ => method_not_allowed
  end.

Definition manage_security_incidents (req : request) : M response :=
  match req_method req with
  | POST =>
      let data := req_json req in
      user_id <- getitem data "user_id" ;;
      description <- getitem data "description" ;;
      user_id' <- col_int env user_id ;;
      description' <- text_nn env description ;;
      evidence_paths <- col_text env (get data "evidence_paths") ;;
      new_incident <-
        session_add SecurityIncidents.incident_id security_incidents
          set_security_incidents
          (fun id =>
             {| SecurityIncidents.incident_id := id;
                SecurityIncidents.user_id := user_id';
                SecurityIncidents.description := description';
                SecurityIncidents.reported_date := Some (utcnow env);
                SecurityIncidents.evidence_paths := evidence_paths |}) ;;
      session_commit env ;;;
      user <- relationship (SecurityIncidents.user_id new_incident) ;;
      let user_name := display_name user "Unknown User" in
      reported <-
        iso_datetime env (SecurityIncidents.reported_date new_incident) ;;
      socketio_emit "new_incident_reported"
        [ ("incident_id", JInt (SecurityIncidents.incident_id new_incident));
          ("user_id", json_opt_int (SecurityIncidents.user_id new_incident));
          ("user_name", JStr user_name);
          ("description",
           JStr (SecurityIncidents.description new_incident));
          ("reported_date", reported) ]
        (Room (JStr "admins")) ;;;
      jsonify
        (JObj [ ("message", JStr "Incident reported successfully");
                ("incident_id",
                 JInt (SecurityIncidents.incident_id new_incident)) ])
        201
  | GET =>
      d <- read_session ;;
      result <-
        traverse
          (fun inc =>
             let user := related_user d (SecurityIncidents.user_id inc) in
             reported <~
               iso_datetime env (SecurityIncidents.reported_date inc) ;;
             Ok (JObj
               [ ("incident_id", JInt (SecurityIncidents.incident_id inc));
                 ("user_id", json_opt_int (SecurityIncidents.user_id inc));
                 ("user_name", JStr (display_name user "Unknown User"));
                 ("description", JStr (SecurityIncidents.description inc));
                 ("reported_date", reported);
                 ("evidence_paths",
                  json_opt_str (SecurityIncidents.evidence_paths inc)) ]))
          (security_incidents d) ;;
      jsonify (JList result) 200
  | _ => method_not_allowed
  end.

Definition manage_voting_results (req : request) : M response :=
  match req_method req with
  | POST =>
      let data := req_json req in
      poll_v <- getitem data "poll_id" ;;
      user_v <- getitem data "user_id" ;;
      poll_id <- col_int env poll_v ;;
      user_id <- col_int env user_v ;;
      d <- read_session ;;
      let existing_vote :=
        find (fun r => opt_eqb (VotingResults.poll_id r) poll_id
                       && opt_eqb (VotingResults.user_id r) user_id)%bool
          (voting_results d) in
      match existing_vote with
      | Some _ =>
          jsonify
            (JObj [ ("message",
                     JStr "You have already voted in this poll.") ])
            409
      | None =>
          option_v <- getitem data "option_id" ;;
          option_id <- col_int env option_v ;;
          new_result <-
            session_add VotingResults.result_id voting_results
              set_voting_results
              (fun id =>
                 {| VotingResults.result_id := id;
                    VotingResults.poll_id := poll_id;
                    VotingResults.option_id := option_id;
                    VotingResults.user_id := user_id |}) ;;
          session_commit env ;;;
          jsonify
            (JObj [ ("message", JStr "Vote recorded successfully");
                    ("result_id",
                     JInt (VotingResults.result_id new_result)) ])
            201
      end
  | GET =>
      d <- read_session ;;
      jsonify
        (JList
           (map (fun res =>
                   JObj
                     [ ("result_id", JInt (VotingResults.result_id res));
                       ("poll_id",
                        json_opt_int (VotingResults.poll_id res));
                       ("option_id",
                        json_opt_int (VotingResults.option_id res));
                       ("user_id",
                        json_opt_int (VotingResults.user_id res)) ])
              (voting_results d)))
        200
  | _ => method_not_allowed
  end.

(** ** Chat history and relay *)

(** [sender_user.name if sender_user else 'Unknown User'] *)
Definition sender_name_of (sender_user : option Users.t) : string :=
  match sender_user with
  | Some u => Users.name u
  | None => "Unknown User"
  end.

(** [sender_user.avatar if sender_user else
     (sender_name[0].upper() if sender_name else '?')] *)
Definition sender_avatar_of (sender_user : option Users.t)
    (sender_name : string) : json :=
  match sender_user with
  | Some u => json_opt_str (Users.avatar u)
  | None =>
      match sender_name with
      | String c _ => JStr (String (upper c) "")
      | EmptyString => JStr "?"
      end
  end.

Definition message_payload (msg : ChatMessages.t)
    (sender_user : option Users.t) : result dict :=
  let sender_name := sender_name_of sender_user in
  let sender_avatar := sender_avatar_of sender_user sender_name in
  stamp <~ iso_datetime env (ChatMessages.timestamp msg) ;;
  Ok [ ("message_id", JInt (ChatMessages.message_id msg));
        ("sender_id", json_opt_int (ChatMessages.sender_id msg));
        ("sender_name", JStr sender_name);
        ("sender_avatar", sender_avatar);
        ("content", JStr (ChatMessages.content msg));
        ("timestamp", stamp);
        ("room_name", json_opt_str (ChatMessages.room_name msg)) ].

(** [ChatMessages.query.order_by(ChatMessages.timestamp.asc()).all()] *)
Definition chat_history_rows (d : DB) : list ChatMessages.t :=
  order_by (asc ChatMessages.timestamp) (chat_messages d).

Definition get_chat_messages (req : request) : M response :=
  match req_method req with
  | GET =>
      d <- read_session ;;
      let messages := chat_history_rows d in
      result <-
        traverse
          (fun msg =>
             let sender_user := related_user d (ChatMessages.sender_id msg) in
             p <~ message_payload msg sender_user ;;
             Ok (JObj p))
          messages ;;
      jsonify (JList result) 200
  | _ => method_not_allowed
  end.

(** [self.Users.query.get(sender_id)] *)
Definition users_query_get (id : json) : M (option Users.t) :=
  key <- col_int env id ;;
  d <- read_session ;;
  ret (related_user d key).

Definition handle_send_message (data : dict) : M unit :=
  let sender_id := get data "sender_id" in
  let content := get data "content" in
  let room_name := get_default data "room_name" (JStr "general_chat") in
  if (negb (py_truthy sender_id) || negb (py_truthy content))%bool
  then emit env "error" [ ("message", JStr "Missing sender_id or content") ]
  else
    try_except
      (sender_id' <- col_int env sender_id ;;
       content' <- text_nn env content ;;
       room_name' <- col_text env room_name ;;
       new_message <-
         session_add ChatMessages.message_id chat_messages
           set_chat_messages
           (fun id =>
              {| ChatMessages.message_id := id;
                 ChatMessages.sender_id := sender_id';
                 ChatMessages.receiver_id := None;
                 ChatMessages.content := content';
                 ChatMessages.timestamp := Some (utcnow env);
                 ChatMessages.room_name :=
                   match room_name' with
                   | Some r => Some r
                   | None => Some ChatMessages.room_name_default
                   end |}) ;;
       session_commit env ;;;
       sender_user <- users_query_get sender_id ;;
       payload <- message_payload new_message sender_user ;;
       socketio_emit "receive_message" payload (room_target room_name))
      (fun _ =>
         session_rollback ;;;
         emit env "error" [ ("message", JStr "Failed to send message") ]).

End Handlers.

(** ** Running a handler *)

(** What a request leaves behind: the handler's result, the durable
    storage, the session state at the end of the handler (discarded when
    the request is torn down) and the trace. *)
Record outcome (A : Type) : Type := {
  out_result : result A;
  out_db : DB;
  out_session : DB;
  out_trace : list action
}.
Arguments out_result {A} o.
Arguments out_db {A} o.
Arguments out_session {A} o.
Arguments out_trace {A} o.

(** A request starts with a clean session over the committed storage. *)
Definition run {A} (m : M A) (db : DB) : outcome A :=
  let (r, w) := m {| committed := db; session := db; trace := [] |} in
  {| out_result := r; out_db := committed w; out_session := session w;
     out_trace := trace w |}.

(** The HTTP answer: an uncaught exception is a 500, [get_or_404] a 404. *)
Definition http_status (o : outcome response) : Z :=
  match out_result o with
  | Ok r => status r
  | Raise NotFound => 404
  | Raise _ => 500
  end.

Definition http_body (o : outcome response) : option json :=
  match out_result o with
  | Ok r => Some (body r)
  | Raise _ => None
  end.

Fixpoint emitted (t : list action) : list event :=
  match t with
  | [] => []
  | Emit e :: t' => e :: emitted t'
  | _ :: t' => emitted t'
  end.

Definition out_events {A} (o : outcome A) : list event :=
  emitted (out_trace o).

(** ** A concrete environment for the examples

    A decimal stand-in for the ISO codec, a driver that reads an integer
    from a decimal string and rejects every other ill-typed value, and a
    Socket.IO server of the later kind, which refuses the broadcast
    keyword. *)
Definition read_decimal (s : string) : option Z :=
  option_map Z.of_int (NilZero.int_of_string s).

Definition test_env (ok : bool) (now : Z) : Env :=
  {| commit_ok := ok;
     takes_broadcast := false;
     utcnow := now;
     request_sid := "sid-1";
     fromisoformat := read_decimal;
     isoformat := str_int;
     date_isoformat := str_int;
     time_isoformat := str_int;
     adapt_int := fun v =>
       match v with
       | JStr s => option_map Some (read_decimal s)
       | _ => None
       end;
     adapt_text := fun _ => None;
     adapt_numeric := fun _ => None |}.

(** The same environment over a Socket.IO server of the older kind, which
    takes the broadcast keyword. *)
Definition legacy_env (ok : bool) (now : Z) : Env :=
  let env := test_env ok now in
  {| commit_ok := commit_ok env;
     takes_broadcast := true;
     utcnow := utcnow env;
     request_sid := request_sid env;
     fromisoformat := fromisoformat env;
     isoformat := isoformat env;
     date_isoformat := date_isoformat env;
     time_isoformat := time_isoformat env;
     adapt_int := adapt_int env;
     adapt_text := adapt_text env;
     adapt_numeric := adapt_numeric env |}.

Definition empty_db : DB :=
  {| users := []; announcements := []; repair_requests := [];
     booking_requests := []; bills := []; payments := [];
     calendar_events := []; documents := []; chat_messages := [];
     security_visitors := []; security_incidents := [];
     voting_results := [] |}.

Definition set_users (l : list Users.t) (d : DB) : DB :=
  {| users := l; announcements := announcements d;
     repair_requests := repair_requests d;
     booking_requests := booking_requests d; bills := bills d;
     payments := payments d; calendar_events := calendar_events d;
     documents := documents d; chat_messages := chat_messages d;
     security_visitors := security_visitors d;
     security_incidents := security_incidents d;
     voting_results := voting_results d |}.

Definition resident (id : Z) (name : string) (avatar : option string)
  : Users.t :=
  {| Users.user_id := id; Users.name := name; Users.username := name;
     Users.password_hash := ""; Users.role := "resident";
     Users.phone := None; Users.address := None; Users.email := None;
     Users.avatar := avatar; Users.status := Some "approved" |}.

Definition get_request : request :=
  {| req_method := GET; req_json := []; req_args := [] |}.

Definition post (data : dict) : request :=
  {| req_method := POST; req_json := data; req_args := [] |}.

Definition put (data : dict) : request :=
  {| req_method := PUT; req_json := data; req_args := [] |}.

(** * The vocabulary of the properties *)

(** The reply that [emit('error', ...)] sends to the caller alone. *)
Definition local_error (env : Env) (message : string) : action :=
  Emit {| ev_name := "error";
          ev_payload := [ ("message", JStr message) ];
          ev_target := ToSid (request_sid env) |}.

(** The row that [handle_send_message] stores. *)
Definition new_chat_row (env : Env) (db : DB) (sender : option Z)
    (content : string) (room : option string) : ChatMessages.t :=
  {| ChatMessages.message_id :=
       next_id ChatMessages.message_id (chat_messages db);
     ChatMessages.sender_id := sender;
     ChatMessages.receiver_id := None;
     ChatMessages.content := content;
     ChatMessages.timestamp := Some (utcnow env);
     ChatMessages.room_name :=
       match room with
       | Some r => Some r
       | None => Some ChatMessages.room_name_default
       end |}.

(** The payload of [receive_message] for a stored row. *)
Definition relayed_payload (env : Env) (db : DB) (msg : ChatMessages.t)
  : dict :=
  let sender_user := related_user db (ChatMessages.sender_id msg) in
  [ ("message_id", JInt (ChatMessages.message_id msg));
    ("sender_id", json_opt_int (ChatMessages.sender_id msg));
    ("sender_name", JStr (sender_name_of sender_user));
    ("sender_avatar",
     sender_avatar_of sender_user (sender_name_of sender_user));
    ("content", JStr (ChatMessages.content msg));
    ("timestamp",
     match ChatMessages.timestamp msg with
     | Some t => JStr (isoformat env t)
     | None => JNull
     end);
    ("room_name", json_opt_str (ChatMessages.room_name msg)) ].

(** What the storage is asked to persist, when every column accepts its
    value. *)
Definition accepted (env : Env) (data : dict)
    (sender : option Z) (content : string) (room : option string) : Prop :=
  col_int env (get data "sender_id") = Ok sender /\
  text_nn env (get data "content") = Ok content /\
  col_text env (get_default data "room_name" (JStr "general_chat"))
  = Ok room.

(** The persistence step of [handle_send_message] fails: a column rejects
    its value or the commit raises. *)
Definition persistence_fails (env : Env) (data : dict) : Prop :=
  (exists e, col_int env (get data "sender_id") = Raise e) \/
  (exists e, text_nn env (get data "content") = Raise e) \/
  (exists e, col_text env (get_default data "room_name" (JStr "general_chat"))
             = Raise e) \/
  commit_ok env = false.

(** [not data.get(k)]: the key is absent, or its value is [None], an empty
    string, zero, [False] or an empty container. *)
Definition missing (data : dict) (k : string) : Prop :=
  py_truthy (get data k) = false.

Inductive mutation : Type :=
| CreateAnnouncement
| UpdateAnnouncement (id : Z)
| DeleteAnnouncement (id : Z)
| CreateRepairRequest
| UpdateRepairRequest (id : Z)
| CreateBookingRequest
| UpdateBookingRequest (id : Z)
| CreateBill
| UpdateBill (id : Z)
| DeleteBill (id : Z)
| CreatePayment
| ApprovePayment (id : Z)
| CreateCalendarEvent
| RegisterVisitor
| ReportIncident.

(** The route and method behind each mutation. *)
Definition perform (env : Env) (mu : mutation) (req : request) : M response :=
  match mu with
  | CreateAnnouncement => manage_announcements env (with_method POST req)
  | UpdateAnnouncement id =>
      handle_single_announcement env (with_method PUT req) id
  | DeleteAnnouncement id =>
      handle_single_announcement env (with_method DELETE req) id
  | CreateRepairRequest => manage_repair_requests env (with_method POST req)
  | UpdateRepairRequest id =>
      handle_single_repair_request env (with_method PUT req) id
  | CreateBookingRequest => manage_booking_requests env (with_method POST req)
  | UpdateBookingRequest id =>
      handle_single_booking_request env (with_method PUT req) id
  | CreateBill => manage_bills env (with_method POST req)
  | UpdateBill id => handle_single_bill env (with_method PUT req) id
  | DeleteBill id => handle_single_bill env (with_method DELETE req) id
  | CreatePayment => manage_payments env (with_method POST req)
  | ApprovePayment id => approve_payment env (with_method PUT req) id
  | CreateCalendarEvent => manage_calendar_events env (with_method POST req)
  | RegisterVisitor => manage_security_visitors env (with_method POST req)
  | ReportIncident => manage_security_incidents env (with_method POST req)
  end.

(** The event each mutation emits. *)
Definition event_of (mu : mutation) : string :=
  match mu with
  | CreateAnnouncement => "new_announcement"
  | UpdateAnnouncement _ => "announcement_updated"
  | DeleteAnnouncement _ => "announcement_deleted"
  | CreateRepairRequest => "new_repair_request"
  | UpdateRepairRequest _ => "repair_status_updated"
  | CreateBookingRequest => "new_booking_request"
  | UpdateBookingRequest _ => "booking_status_updated"
  | CreateBill => "new_bill_created"
  | UpdateBill _ => "bill_updated"
  | DeleteBill _ => "bill_deleted"
  | CreatePayment => "new_payment_receipt"
  | ApprovePayment _ => "payment_approved"
  | CreateCalendarEvent => "new_calendar_event"
  | RegisterVisitor => "new_visitor_registered"
  | ReportIncident => "new_incident_reported"
  end.

(** The user a status update concerns: the owner of the updated row. *)
Definition affected_user (db : DB) (mu : mutation) : option Z :=
  match mu with
  | UpdateRepairRequest id =>
      match find_row RepairRequests.request_id id (repair_requests db) with
      | Some r => RepairRequests.user_id r
      | None => None
      end
  | UpdateBookingRequest id =>
      match find_row BookingRequests.booking_id id (booking_requests db) with
      | Some b => BookingRequests.user_id b
      | None => None
      end
  | _ => None
  end.

Inductive audience : Type := Everyone | Admins | Owner.

(** The table of outbound events of the specification, to be compared
    with the emits of the handlers: each event name with the audience the
    specification gives it (broadcast, [admins], [user_{id}]). *)
Definition spec_delivery_table (event_name : string) : option audience :=
  assoc
    [ ("new_announcement", Everyone); ("announcement_updated", Everyone);
      ("announcement_deleted", Everyone);
      ("new_repair_request", Admins); ("repair_status_updated", Owner);
      ("new_booking_request", Admins); ("booking_status_updated", Owner);
      ("new_bill_created", Everyone); ("bill_updated", Everyone);
      ("bill_deleted", Everyone);
      ("new_payment_receipt", Admins); ("payment_approved", Everyone);
      ("new_calendar_event", Everyone);
      ("new_visitor_registered", Admins);
      ("new_incident_reported", Admins) ]
    event_name.

Definition audience_target (a : audience) (owner : option Z) : target :=
  match a with
  | Everyone => Broadcast
  | Admins => Room (JStr "admins")
  | Owner => Room (JStr ("user_" ++ str_opt_int owner))
  end.

(** The user a payload refers to through the foreign key stored under
    [fk], looked up in [db]. *)
Definition payload_user (db : DB) (p : dict) (fk : string)
  : option Users.t :=
  match dict_get p fk with
  | Some (JInt id) => find_row Users.user_id id (users db)
  | _ => None
  end.

(** A payload carries under [name_key] the name of the user behind [fk], or
    [placeholder] when there is none. *)
Definition names_user (db : DB) (fk name_key placeholder : string) (p : dict)
  : Prop :=
  dict_get p name_key
  = Some (JStr (display_name (payload_user db p fk) placeholder)).

(** The derived display name in the payload of a mutation's event: the
    foreign key, the name field and the placeholder. *)
Definition derived_name (mu : mutation) : option (string * string * string) :=
  match mu with
  | CreateAnnouncement | UpdateAnnouncement _ =>
      Some ("author_id", "author_name", "Unknown Author")
  | CreateRepairRequest | CreateBookingRequest | CreatePayment
  | RegisterVisitor | ReportIncident =>
      Some ("user_id", "user_name", "Unknown User")
  | _ => None
  end.

Definition names_ok (mu : mutation) (db : DB) (p : dict) : Prop :=
  match derived_name mu with
  | Some (fk, name_key, placeholder) => names_user db fk name_key placeholder p
  | None => True
  end.

(** The request succeeded: a 2xx answer. *)
Definition succeeded (o : outcome response) : Prop :=
  200 <= http_status o < 300.

(** The three ways a mutation can end: nothing durable and nothing emitted;
    committed but failed before the emit; committed and its one event
    emitted. *)
Definition mutation_outcome (env : Env) (mu : mutation) (db : DB)
    (o : outcome response) : Prop :=
  (out_trace o = [] /\ out_db o = db /\ ~ succeeded o) \/
  (commit_ok env = true /\ out_trace o = [Commit] /\
   out_db o = out_session o /\ ~ succeeded o) \/
  (commit_ok env = true /\ out_db o = out_session o /\ succeeded o /\
   exists p,
     out_trace o
     = [ Commit;
         Emit {| ev_name := event_of mu; ev_payload := p;
                 ev_target :=
                   match spec_delivery_table (event_of mu) with
                   | Some a => audience_target a (affected_user db mu)
                   | None => ToSid ""
                   end |} ] /\
     names_ok mu (out_db o) p).

Definition history_entry (env : Env) (db : DB) (msg : ChatMessages.t)
  : json :=
  JObj (relayed_payload env db msg).

Definition stamped (msg : ChatMessages.t) : Prop :=
  ChatMessages.timestamp msg <> None.

Definition json_field (j : json) (k : string) : option json :=
  match j with
  | JObj p => dict_get p k
  | _ => None
  end.


(** The reply that tells the caller, and nobody else, of a failure. *)
Definition error_reply (env : Env) (e : event) : Prop :=
  ev_name e = "error" /\ ev_target e = ToSid (request_sid env).

(** A run in which every event other than an error reply comes after the
    successful commit, with nothing rolled back and nothing left pending;
    and in which a refused commit leaves the storage as it was and lets
    out error replies only. *)
Definition commit_precedes_publish {A} (env : Env) (db : DB)
    (o : outcome A) : Prop :=
  (forall t1 e t2,
      out_trace o = (t1 ++ Emit e :: t2)%list ->
      ~ error_reply env e ->
      In Commit t1 /\ ~ In Rollback (out_trace o) /\
      commit_ok env = true /\ out_db o = out_session o) /\
  (commit_ok env = false ->
   out_db o = db /\
   ~ In Commit (out_trace o) /\
   forall e, In e (out_events o) -> error_reply env e).

(** A nullable date as a payload carries it. *)
Definition json_stamp (f : Z -> string) (t : option Z) : json :=
  match t with Some x => JStr (f x) | None => JNull end.

(** The columns of a stored row, under the keys the payloads use. *)
Definition announcement_columns (env : Env) (a : Announcements.t) : dict :=
  [ ("announcement_id", JInt (Announcements.announcement_id a));
    ("title", JStr (Announcements.title a));
    ("content", JStr (Announcements.content a));
    ("published_date",
     json_stamp (isoformat env) (Announcements.published_date a));
    ("author_id", json_opt_int (Announcements.author_id a));
    ("tag", json_opt_str (Announcements.tag a));
    ("tag_color", json_opt_str (Announcements.tag_color a));
    ("tag_bg", json_opt_str (Announcements.tag_bg a)) ].

Definition repair_columns (env : Env) (r : RepairRequests.t) : dict :=
  [ ("request_id", JInt (RepairRequests.request_id r));
    ("user_id", json_opt_int (RepairRequests.user_id r));
    ("title", JStr (RepairRequests.title r));
    ("category", json_opt_str (RepairRequests.category r));
    ("description", JStr (RepairRequests.description r));
    ("submitted_date",
     json_stamp (isoformat env) (RepairRequests.submitted_date r));
    ("status", json_opt_str (RepairRequests.status r));
    ("image_paths", json_opt_str (RepairRequests.image_paths r)) ].

Definition booking_columns (env : Env) (b : BookingRequests.t) : dict :=
  [ ("booking_id", JInt (BookingRequests.booking_id b));
    ("user_id", json_opt_int (BookingRequests.user_id b));
    ("location", JStr (BookingRequests.location b));
    ("date", json_stamp (date_isoformat env) (BookingRequests.date b));
    ("start_time",
     json_stamp (time_isoformat env) (BookingRequests.start_time b));
    ("end_time",
     json_stamp (time_isoformat env) (BookingRequests.end_time b));
    ("purpose", json_opt_str (BookingRequests.purpose b));
    ("attendee_count", json_opt_int (BookingRequests.attendee_count b));
    ("status", json_opt_str (BookingRequests.status b)) ].

Definition bill_columns (env : Env) (b : Bills.t) : dict :=
  [ ("bill_id", JInt (Bills.bill_id b));
    ("item_name", JStr (Bills.item_name b));
    ("amount", JStr (str_numeric (Bills.amount b)));
    ("due_date", json_stamp (date_isoformat env) (Bills.due_date b));
    ("recipient_id", JStr (Bills.recipient_id b));
    ("issued_by_user_id", json_opt_int (Bills.issued_by_user_id b));
    ("status", json_opt_str (Bills.status b)) ].

Definition payment_columns (env : Env) (p : Payments.t) : dict :=
  [ ("payment_id", JInt (Payments.payment_id p));
    ("user_id", json_opt_int (Payments.user_id p));
    ("bill_id", json_opt_int (Payments.bill_id p));
    ("amount", JStr (str_numeric (Payments.amount p)));
    ("payment_method", json_opt_str (Payments.payment_method p));
    ("payment_date",
     json_stamp (isoformat env) (Payments.payment_date p));
    ("status", json_opt_str (Payments.status p));
    ("slip_path", json_opt_str (Payments.slip_path p)) ].

Definition calendar_columns (env : Env) (c : CalendarEvents.t) : dict :=
  [ ("event_id", JInt (CalendarEvents.event_id c));
    ("event_name", JStr (CalendarEvents.event_name c));
    ("event_date",
     json_stamp (isoformat env) (CalendarEvents.event_date c));
    ("location", json_opt_str (CalendarEvents.location c));
    ("description", json_opt_str (CalendarEvents.description c)) ].

Definition visitor_columns (env : Env) (v : SecurityVisitors.t) : dict :=
  [ ("visitor_id", JInt (SecurityVisitors.visitor_id v));
    ("user_id", json_opt_int (SecurityVisitors.user_id v));
    ("name", JStr (SecurityVisitors.name v));
    ("phone", json_opt_str (SecurityVisitors.phone v));
    ("visit_date",
     json_stamp (date_isoformat env) (SecurityVisitors.visit_date v));
    ("visit_time",
     json_stamp (time_isoformat env) (SecurityVisitors.visit_time v));
    ("purpose", json_opt_str (SecurityVisitors.purpose v)) ].

Definition incident_columns (env : Env) (i : SecurityIncidents.t) : dict :=
  [ ("incident_id", JInt (SecurityIncidents.incident_id i));
    ("user_id", json_opt_int (SecurityIncidents.user_id i));
    ("description", JStr (SecurityIncidents.description i));
    ("reported_date",
     json_stamp (isoformat env) (SecurityIncidents.reported_date i));
    ("evidence_paths", json_opt_str (SecurityIncidents.evidence_paths i)) ].

Definition message_columns (env : Env) (m : ChatMessages.t) : dict :=
  [ ("message_id", JInt (ChatMessages.message_id m));
    ("sender_id", json_opt_int (ChatMessages.sender_id m));
    ("receiver_id", json_opt_int (ChatMessages.receiver_id m));
    ("content", JStr (ChatMessages.content m));
    ("timestamp", json_stamp (isoformat env) (ChatMessages.timestamp m));
    ("room_name", json_opt_str (ChatMessages.room_name m)) ].

(** Every field of the payload [p] that is a column has the value of the
    column. *)
Fixpoint agrees (p cols : dict) : Prop :=
  match p with
  | [] => True
  | (k, v) :: p' =>
      match dict_get cols k with
      | Some v' => v = v'
      | None => True
      end /\ agrees p' cols
  end.

Section Recorded.
Context {R : Type} (pk : R -> Z) (rows : list R).

(** The payload carries under [key] the id of a row of the table, and
    that row has the values the payload tells. *)
Definition holds_row (key : string) (cols : R -> dict) (p : dict) : Prop :=
  exists r,
    dict_get p key = Some (JInt (pk r)) /\
    find_row pk (pk r) rows = Some r /\
    agrees p (cols r).

(** The payload carries under [key] an id that no row of the table has. *)
Definition lacks_row (key : string) (p : dict) : Prop :=
  exists id, dict_get p key = Some (JInt id) /\ find_row pk id rows = None.
End Recorded.

(** What each event tells of the storage: the row it describes is there,
    with the values of the payload, or, for a deletion, is no longer
    there. *)
Definition event_record : list (string * (Env -> DB -> dict -> Prop)) :=
  [ ("new_announcement",
     fun env d =>
       holds_row Announcements.announcement_id (announcements d)
         "announcement_id" (announcement_columns env));
    ("announcement_updated",
     fun env d =>
       holds_row Announcements.announcement_id (announcements d)
         "announcement_id" (announcement_columns env));
    ("announcement_deleted",
     fun _ d =>
       lacks_row Announcements.announcement_id (announcements d)
         "announcement_id");
    ("new_repair_request",
     fun env d =>
       holds_row RepairRequests.request_id (repair_requests d)
         "request_id" (repair_columns env));
    ("repair_status_updated",
     fun env d =>
       holds_row RepairRequests.request_id (repair_requests d)
         "request_id" (repair_columns env));
    ("new_booking_request",
     fun env d =>
       holds_row BookingRequests.booking_id (booking_requests d)
         "booking_id" (booking_columns env));
    ("booking_status_updated",
     fun env d =>
       holds_row BookingRequests.booking_id (booking_requests d)
         "booking_id" (booking_columns env));
    ("new_bill_created",
     fun env d =>
       holds_row Bills.bill_id (bills d) "bill_id" (bill_columns env));
    ("bill_updated",
     fun env d =>
       holds_row Bills.bill_id (bills d) "bill_id" (bill_columns env));
    ("bill_deleted",
     fun _ d => lacks_row Bills.bill_id (bills d) "bill_id");
    ("new_payment_receipt",
     fun env d =>
       holds_row Payments.payment_id (payments d) "payment_id"
         (payment_columns env));
    ("payment_approved",
     fun env d =>
       holds_row Payments.payment_id (payments d) "payment_id"
         (payment_columns env));
    ("new_calendar_event",
     fun env d =>
       holds_row CalendarEvents.event_id (calendar_events d) "event_id"
         (calendar_columns env));
    ("new_visitor_registered",
     fun env d =>
       holds_row SecurityVisitors.visitor_id (security_visitors d)
         "visitor_id" (visitor_columns env));
    ("new_incident_reported",
     fun env d =>
       holds_row SecurityIncidents.incident_id (security_incidents d)
         "incident_id" (incident_columns env));
    ("receive_message",
     fun env d =>
       holds_row ChatMessages.message_id (chat_messages d) "message_id"
         (message_columns env)) ].

(** The event tells of a write that is in the durable storage [d]. *)
Definition durably_committed (env : Env) (d : DB) (e : event) : Prop :=
  match assoc event_record (ev_name e) with
  | Some recorded => recorded env d (ev_payload e)
  | None => False
  end.

(** Every event of the run, the error reply apart, tells of a write that
    is in the storage the run leaves. *)
Definition publishes_what_is_stored {A} (env : Env) (o : outcome A) : Prop :=
  forall e,
    In e (out_events o) -> ~ error_reply env e ->
    durably_committed env (out_db o) e.

(** The read results that carry a display name resolved through a user. *)
Inductive listing : Type :=
| ListAnnouncements
| ListRepairRequests
| ListBookingRequests
| ListBills
| ListPayments
| ListDocuments
| ListVisitors
| ListIncidents
| ListChatMessages.

Definition list_rows (env : Env) (l : listing) (req : request)
  : M response :=
  match l with
  | ListAnnouncements => manage_announcements env (with_method GET req)
  | ListRepairRequests => manage_repair_requests env (with_method GET req)
  | ListBookingRequests => manage_booking_requests env (with_method GET req)
  | ListBills => manage_bills env (with_method GET req)
  | ListPayments => manage_payments env (with_method GET req)
  | ListDocuments => manage_documents env (with_method GET req)
  | ListVisitors => manage_security_visitors env (with_method GET req)
  | ListIncidents => manage_security_incidents env (with_method GET req)
  | ListChatMessages => get_chat_messages env (with_method GET req)
  end.






(** ** Example data *)

(** Bob is registered and has no stored avatar. *)
Definition db_bob : DB := set_users [ resident 1 "bob" None ] empty_db.

Definition db_neighbours : DB :=
  set_users [ resident 1 "bob" None; resident 2 "eve" (Some "E") ] empty_db.

Definition hello (sender : Z) (text : string) : dict :=
  [ ("sender_id", JInt sender); ("content", JStr text) ].

(** Two messages sent one after the other, the second stamped by a clock
    that reads earlier (two handler threads, or a clock that was set
    back). *)
Definition db_after_two_sends : DB :=
  let db1 :=
    out_db (run (handle_send_message (test_env true 20) (hello 1 "first"))
              db_bob) in
  out_db (run (handle_send_message (test_env true 10) (hello 1 "second"))
            db1).

(** Two rooms, one message each. *)
Definition db_two_rooms : DB :=
  let db1 :=
    out_db (run (handle_send_message (test_env true 10)
                   (("room_name", JStr "lobby") :: hello 1 "first"))
              db_neighbours) in
  out_db (run (handle_send_message (test_env true 20)
                 (("room_name", JStr "garden") :: hello 2 "second"))
            db1).

(** A message whose sender has left: the row no longer references a
    user. *)
Definition db_departed : DB :=
  set_chat_messages
    [ {| ChatMessages.message_id := 1; ChatMessages.sender_id := None;
         ChatMessages.receiver_id := None; ChatMessages.content := "bye";
         ChatMessages.timestamp := Some 3;
         ChatMessages.room_name := Some "general_chat" |} ]
    empty_db.

Definition db_one_vote : DB :=
  out_db (run (manage_voting_results (test_env true 0)
                 (post [ ("poll_id", JInt 3); ("option_id", JInt 8);
                         ("user_id", JInt 5) ]))
            empty_db).

Definition announce : request :=
  post [ ("title", JStr "Water"); ("content", JStr "Off at noon") ].

Definition db_one_repair : DB :=
  out_db (run (perform (test_env true 0) CreateRepairRequest
                 (post [ ("user_id", JInt 42); ("title", JStr "Tap");
                         ("category", JStr "plumbing");
                         ("description", JStr "Leaks") ]))
            (set_users [ resident 42 "ann" (Some "A") ] empty_db)).

(** Ann, and her report of a leaking tap. *)
Definition db_ann : DB := set_users [ resident 42 "ann" (Some "A") ] empty_db.

Definition report_tap : request :=
  post [ ("user_id", JInt 42); ("title", JStr "Tap");
         ("category", JStr "plumbing"); ("description", JStr "Leaks") ].


(** * Accounts, documents and room membership

    The handlers of [app.py] that publish nothing: registration, the user
    directory, login, the removal of a document, and the Socket.IO handlers
    that join and leave rooms. *)

(** What these handlers obtain from their libraries: [bcrypt] ([None] when
    the call raises), Python's [str.upper] and first character of a
    non-empty string, [str()] of a list or a dictionary, and whether
    Socket.IO accepts a list or a dictionary as the name of a room. *)
Record Lib : Type := {
  hashpw : string -> option string;
  checkpw : string -> string -> option bool;
  py_upper : string -> string;
  py_head : string -> string;
  py_repr : json -> string;
  accepts_room : json -> bool
}.

(** [str(v)], as an f-string formats it. *)
Definition py_str (lib : Lib) (v : json) : string :=
  match v with
  | JStr s => s
  | JInt n => str_int n
  | JBool true => "True"
  | JBool false => "False"
  | JNull => "None"
  | _ => py_repr lib v
  end.

(** [user.set_password(v)]: the new hash. *)
Definition set_password (lib : Lib) (v : json) : result string :=
  match v with
  | JStr s => of_option ValueError (hashpw lib s)
  | _ => Raise AttributeError
  end.

(** [user.check_password(v)] *)
Definition check_password (lib : Lib) (hash : string) (v : json)
  : result bool :=
  match v with
  | JStr s => of_option ValueError (checkpw lib s hash)
  | _ => Raise AttributeError
  end.

(** [name[0].upper()] of a stored name; [KeyError] stands for the
    [IndexError] of an empty string. *)
Definition name_initial (lib : Lib) (name : string) : result string :=
  if (name =? "")%string then Raise KeyError
  else Ok (py_upper lib (py_head lib name)).

(** [data['name'][0].upper()] of a JSON value. *)
Definition initial (lib : Lib) (v : json) : result json :=
  match v with
  | JStr s => s' <~ name_initial lib s ;; Ok (JStr s')
  | JList [] => Raise KeyError
  | JList (JStr s :: _) => Ok (JStr (py_upper lib s))
  | JList (_ :: _) => Raise AttributeError
  | JObj _ => Raise KeyError
  | _ => Raise TypeError
  end.

(** The entry of a user in the directory and in [GET /users/<id>]. *)
Definition user_entry (u : Users.t) : dict :=
  [ ("user_id", JInt (Users.user_id u));
    ("name", JStr (Users.name u));
    ("username", JStr (Users.username u));
    ("role", JStr (Users.role u));
    ("phone", json_opt_str (Users.phone u));
    ("address", json_opt_str (Users.address u));
    ("email", json_opt_str (Users.email u));
    ("avatar", json_opt_str (Users.avatar u));
    ("status", json_opt_str (Users.status u)) ].

(** A column with a default receives it when the attribute is [None]. *)
Definition or_default {A} (default : A) (o : option A) : A :=
  match o with Some a => a | None => default end.

(** [filter_by(username=u).first()] *)
Definition find_username (u : option string) (rows : list Users.t)
  : option Users.t :=
  match u with
  | Some s => find (fun r => (Users.username r =? s)%string) rows
  | None => None
  end.

(** The children of a deleted user lose their reference to it (the
    backrefs carry no delete cascade). *)
Definition clear_fk (id : Z) (fk : option Z) : option Z :=
  if opt_eqb fk (Some id) then None else fk.

Definition detach_user (id : Z) (d : DB) : DB :=
  {| users := users d;
     announcements :=
       map (fun a =>
              {| Announcements.announcement_id :=
                   Announcements.announcement_id a;
                 Announcements.title := Announcements.title a;
                 Announcements.content := Announcements.content a;
                 Announcements.published_date :=
                   Announcements.published_date a;
                 Announcements.author_id :=
                   clear_fk id (Announcements.author_id a);
                 Announcements.tag := Announcements.tag a;
                 Announcements.tag_color := Announcements.tag_color a;
                 Announcements.tag_bg := Announcements.tag_bg a |})
         (announcements d);
     repair_requests :=
       map (fun r =>
              {| RepairRequests.request_id := RepairRequests.request_id r;
                 RepairRequests.user_id :=
                   clear_fk id (RepairRequests.user_id r);
                 RepairRequests.title := RepairRequests.title r;
                 RepairRequests.category := RepairRequests.category r;
                 RepairRequests.description := RepairRequests.description r;
                 RepairRequests.submitted_date :=
                   RepairRequests.submitted_date r;
                 RepairRequests.status := RepairRequests.status r;
                 RepairRequests.image_paths :=
                   RepairRequests.image_paths r |})
         (repair_requests d);
     booking_requests :=
       map (fun b =>
              {| BookingRequests.booking_id := BookingRequests.booking_id b;
                 BookingRequests.user_id :=
                   clear_fk id (BookingRequests.user_id b);
                 BookingRequests.location := BookingRequests.location b;
                 BookingRequests.date := BookingRequests.date b;
                 BookingRequests.start_time := BookingRequests.start_time b;
                 BookingRequests.end_time := BookingRequests.end_time b;
                 BookingRequests.purpose := BookingRequests.purpose b;
                 BookingRequests.attendee_count :=
                   BookingRequests.attendee_count b;
                 BookingRequests.status := BookingRequests.status b |})
         (booking_requests d);
     bills :=
       map (fun b =>
              {| Bills.bill_id := Bills.bill_id b;
                 Bills.item_name := Bills.item_name b;
                 Bills.amount := Bills.amount b;
                 Bills.due_date := Bills.due_date b;
                 Bills.recipient_id := Bills.recipient_id b;
                 Bills.issued_by_user_id :=
                   clear_fk id (Bills.issued_by_user_id b);
                 Bills.status := Bills.status b |})
         (bills d);
     payments :=
       map (fun p =>
              {| Payments.payment_id := Payments.payment_id p;
                 Payments.user_id := clear_fk id (Payments.user_id p);
                 Payments.bill_id := Payments.bill_id p;
                 Payments.amount := Payments.amount p;
                 Payments.payment_method := Payments.payment_method p;
                 Payments.payment_date := Payments.payment_date p;
                 Payments.status := Payments.status p;
                 Payments.slip_path := Payments.slip_path p |})
         (payments d);
     calendar_events := calendar_events d;
     documents :=
       map (fun x =>
              {| Documents.document_id := Documents.document_id x;
                 Documents.document_name := Documents.document_name x;
                 Documents.file_path := Documents.file_path x;
                 Documents.uploaded_by_user_id :=
                   clear_fk id (Documents.uploaded_by_user_id x);
                 Documents.upload_date := Documents.upload_date x;
                 Documents.category := Documents.category x |})
         (documents d);
     chat_messages :=
       map (fun m =>
              {| ChatMessages.message_id := ChatMessages.message_id m;
                 ChatMessages.sender_id :=
                   clear_fk id (ChatMessages.sender_id m);
                 ChatMessages.receiver_id :=
                   clear_fk id (ChatMessages.receiver_id m);
                 ChatMessages.content := ChatMessages.content m;
                 ChatMessages.timestamp := ChatMessages.timestamp m;
                 ChatMessages.room_name := ChatMessages.room_name m |})
         (chat_messages d);
     security_visitors :=
       map (fun v =>
              {| SecurityVisitors.visitor_id := SecurityVisitors.visitor_id v;
                 SecurityVisitors.user_id :=
                   clear_fk id (SecurityVisitors.user_id v);
                 SecurityVisitors.name := SecurityVisitors.name v;
                 SecurityVisitors.phone := SecurityVisitors.phone v;
                 SecurityVisitors.visit_date := SecurityVisitors.visit_date v;
                 SecurityVisitors.visit_time := SecurityVisitors.visit_time v;
                 SecurityVisitors.purpose := SecurityVisitors.purpose v |})
         (security_visitors d);
     security_incidents :=
       map (fun i =>
              {| SecurityIncidents.incident_id :=
                   SecurityIncidents.incident_id i;
                 SecurityIncidents.user_id :=
                   clear_fk id (SecurityIncidents.user_id i);
                 SecurityIncidents.description :=
                   SecurityIncidents.description i;
                 SecurityIncidents.reported_date :=
                   SecurityIncidents.reported_date i;
                 SecurityIncidents.evidence_paths :=
                   SecurityIncidents.evidence_paths i |})
         (security_incidents d);
     voting_results := voting_results d |}.

Section Accounts.
Variable env : Env.
Variable lib : Lib.

Definition handle_users (req : request) : M response :=
  match req_method req with
  | POST =>
      let data := req_json req in
      username <- getitem data "username" ;;
      wanted <- col_text env username ;;
      d <- read_session ;;
      match find_username wanted (users d) with
      | Some _ =>
          jsonify (JObj [ ("message", JStr "Username already exists") ]) 409
      | None =>
          name <- getitem data "name" ;;
          default_avatar <- initial lib name ;;
          password <- getitem data "password" ;;
          password_hash <- set_password lib password ;;
          name' <- text_nn env name ;;
          username' <- of_option StorageError wanted ;;
          role <- col_text env (get_default data "role" (JStr "resident")) ;;
          phone <- col_text env (get data "phone") ;;
          address <- col_text env (get data "address") ;;
          email <- col_text env (get data "email") ;;
          avatar <- col_text env (get_default data "avatar" default_avatar) ;;
          status <- col_text env (get_default data "status" (JStr "pending")) ;;
          new_user <-
            session_add Users.user_id users set_users
              (fun id =>
                 {| Users.user_id := id;
                    Users.name := name';
                    Users.username := username';
                    Users.password_hash := password_hash;
                    Users.role := or_default "resident" role;
                    Users.phone := phone;
                    Users.address := address;
                    Users.email := email;
                    Users.avatar := avatar;
                    Users.status := Some (or_default "pending" status) |}) ;;
          session_commit env ;;;
          jsonify
            (JObj [ ("message", JStr "User registered successfully");
                    ("user_id", JInt (Users.user_id new_user)) ])
            201
      end
  | GET =>
      d <- read_session ;;
      jsonify (JList (map (fun user => JObj (user_entry user)) (users d))) 200
  | _ => method_not_allowed
  end.

Definition handle_single_user (req : request) (user_id : Z) : M response :=
  match req_method req with
  | GET =>
      user <- get_or_404 Users.user_id users user_id ;;
      jsonify (JObj (user_entry user)) 200
  | PUT =>
      user <- get_or_404 Users.user_id users user_id ;;
      let data := req_json req in
      password_hash <-
        (if (contains data "password" && py_truthy (get data "password"))%bool
         then set_password lib (get data "password")
         else Ok (Users.password_hash user)) ;;
      name <- updated data "name" (text_nn env) (Users.name user) ;;
      username <- updated data "username" (text_nn env)
                    (Users.username user) ;;
      role <- updated data "role" (text_nn env) (Users.role user) ;;
      phone <- updated data "phone" (col_text env) (Users.phone user) ;;
      address <- updated data "address" (col_text env)
                   (Users.address user) ;;
      email <- updated data "email" (col_text env) (Users.email user) ;;
      avatar <- updated data "avatar" (col_text env) (Users.avatar user) ;;
      status <- updated data "status" (col_text env) (Users.status user) ;;
      session_update Users.user_id users set_users
        {| Users.user_id := Users.user_id user;
           Users.name := name;
           Users.username := username;
           Users.password_hash := password_hash;
           Users.role := role;
           Users.phone := phone;
           Users.address := address;
           Users.email := email;
           Users.avatar := avatar;
           Users.status := status |} ;;;
      session_commit env ;;;
      jsonify (JObj [ ("message", JStr "User updated successfully") ]) 200
  | DELETE =>
      user <- get_or_404 Users.user_id users user_id ;;
      session_delete Users.user_id users set_users (Users.user_id user) ;;;
      write_session (detach_user (Users.user_id user)) ;;;
      session_commit env ;;;
      jsonify (JObj [ ("message", JStr "User deleted successfully") ]) 204
  | _ => method_not_allowed
  end.

Definition login (req : request) : M response :=
  match req_method req with
  | POST =>
      let data := req_json req in
      let username := get data "username" in
      let password := get data "password" in
      wanted <- col_text env username ;;
      d <- read_session ;;
      let denied :=
        jsonify (JObj [ ("message", JStr "Invalid username or password") ])
          401 in
      match find_username wanted (users d) with
      | Some user =>
          matches <- check_password lib (Users.password_hash user) password ;;
          if matches : bool
          then
            if or_default false
                 (option_map (fun s => (s =? "pending")%string)
                    (Users.status user))
            then
              jsonify
                (JObj [ ("message",
                         JStr "บัญชีของคุณยังไม่ได้รับการอนุมัติ") ])
                403
            else if or_default false
                      (option_map (fun s => (s =? "suspended")%string)
                         (Users.status user))
            then
              jsonify (JObj [ ("message", JStr "บัญชีของคุณถูกระงับ") ]) 403
            else
              avatar <-
                (match Users.avatar user with
                 | Some a =>
                     if (a =? "")%string
                     then name_initial lib (Users.name user)
                     else Ok a
                 | None => name_initial lib (Users.name user)
                 end) ;;
              jsonify
                (JObj [ ("message", JStr "Login successful");
                        ("user_id", JInt (Users.user_id user));
                        ("username", JStr (Users.username user));
                        ("name", JStr (Users.name user));
                        ("role", JStr (Users.role user));
                        ("avatar", JStr avatar) ])
                200
          else denied
      | None => denied
      end
  | _ => method_not_allowed
  end.

Definition delete_document (req : request) (document_id : Z) : M response :=
  match req_method req with
  | DELETE =>
      doc <- get_or_404 Documents.document_id documents document_id ;;
      session_delete Documents.document_id documents set_documents
        (Documents.document_id doc) ;;;
      session_commit env ;;;
      jsonify (JObj [ ("message", JStr "Document deleted successfully") ]) 204
  | _ => method_not_allowed
  end.

(** ** Room membership *)

(** What a Socket.IO handler asks of the room registry. *)
Inductive room_change : Type :=
| Enter (sid : string) (room : json)
| Leave (sid : string) (room : json).

(** The effect of a membership handler: the requests to the registry, the
    events emitted, and whether the handler ended by an exception. *)
Record membership : Type := {
  changes : list room_change;
  replies : list event;
  failed : bool
}.

Definition unchanged : membership :=
  {| changes := []; replies := []; failed := false |}.

(** A string or a number can name a room; for a list or a dictionary the
    library decides. *)
Definition room_accepted (room : json) : bool :=
  match room with
  | JList _ | JObj _ => accepts_room lib room
  | _ => true
  end.

(** [emit('status', {'msg': msg}, room=request.sid)] *)
Definition status_reply (msg : string) : event :=
  {| ev_name := "status";
     ev_payload := [ ("msg", JStr msg) ];
     ev_target := room_target (JStr (request_sid env)) |}.

Definition handle_connect : membership := unchanged.

Definition handle_disconnect : membership := unchanged.

Definition handle_join_chat_room (data : dict) : membership :=
  let room_name := get data "room_name" in
  if py_truthy room_name
  then
    if room_accepted room_name
    then {| changes := [ Enter (request_sid env) room_name ];
            replies := [ status_reply ("Joined " ++ py_str lib room_name) ];
            failed := false |}
    else {| changes := []; replies := []; failed := true |}
  else unchanged.

Definition handle_leave_chat_room (data : dict) : membership :=
  let room_name := get data "room_name" in
  if py_truthy room_name
  then
    if room_accepted room_name
    then {| changes := [ Leave (request_sid env) room_name ];
            replies := [ status_reply ("Left " ++ py_str lib room_name) ];
            failed := false |}
    else {| changes := []; replies := []; failed := true |}
  else unchanged.

Definition handle_join_user_room (data : dict) : membership :=
  let user_id := get data "user_id" in
  if py_truthy user_id
  then
    let room_name := "user_" ++ py_str lib user_id in
    {| changes := [ Enter (request_sid env) (JStr room_name) ];
       replies :=
         [ status_reply ("Joined personal room " ++ room_name) ];
       failed := false |}
  else unchanged.

End Accounts.

(** * The vocabulary of the further properties *)

(** The requests that only read. *)
Inductive reading : Type :=
| ReadListing (l : listing)
| ReadCalendar
| ReadVotes
| ReadUsers
| ReadUser (id : Z).

Definition read (env : Env) (lib : Lib) (r : reading) (req : request)
  : M response :=
  match r with
  | ReadListing l => list_rows env l req
  | ReadCalendar => manage_calendar_events env (with_method GET req)
  | ReadVotes => manage_voting_results env (with_method GET req)
  | ReadUsers => handle_users env lib (with_method GET req)
  | ReadUser id => handle_single_user env lib (with_method GET req) id
  end.

(** The tables whose rows are addressed by an id in the URL. *)
Inductive resource : Type :=
| AnAnnouncement
| ARepairRequest
| ABookingRequest
| ABill
| APayment
| ADocument
| AUser.

(** The handler behind [METHOD /resource/<id>] ([PUT /payments/approve/<id>]
    for a payment). *)
Definition single (env : Env) (lib : Lib) (res : resource) (req : request)
    (id : Z) : M response :=
  match res with
  | AnAnnouncement => handle_single_announcement env req id
  | ARepairRequest => handle_single_repair_request env req id
  | ABookingRequest => handle_single_booking_request env req id
  | ABill => handle_single_bill env req id
  | APayment => approve_payment env req id
  | ADocument => delete_document env req id
  | AUser => handle_single_user env lib req id
  end.

(** Whether the table of the resource has a row with this id. *)
Definition has_row (db : DB) (res : resource) (id : Z) : bool :=
  match res with
  | AnAnnouncement =>
      existsb (fun r => Announcements.announcement_id r =? id)
        (announcements db)
  | ARepairRequest =>
      existsb (fun r => RepairRequests.request_id r =? id)
        (repair_requests db)
  | ABookingRequest =>
      existsb (fun r => BookingRequests.booking_id r =? id)
        (booking_requests db)
  | ABill => existsb (fun r => Bills.bill_id r =? id) (bills db)
  | APayment => existsb (fun r => Payments.payment_id r =? id) (payments db)
  | ADocument =>
      existsb (fun r => Documents.document_id r =? id) (documents db)
  | AUser => existsb (fun r => Users.user_id r =? id) (users db)
  end.

(** The methods each of these routes accepts. *)
Definition allows (res : resource) (m : http_method) : bool :=
  match res, m with
  | (AnAnnouncement | ARepairRequest | ABookingRequest | ABill),
    (PUT | DELETE) => true
  | APayment, PUT => true
  | ADocument, DELETE => true
  | AUser, (GET | PUT | DELETE) => true
  | _, _ => false
  end.


(** An outcome that left no trace: nothing committed, nothing pending,
    nothing emitted. *)
Definition untouched {A} (db : DB) (o : outcome A) : Prop :=
  out_db o = db /\ out_session o = db /\ out_trace o = [].

(** The payment after [approve_payment] has set its status. *)
Definition with_payment_status (s : option string) (p : Payments.t)
  : Payments.t :=
  {| Payments.payment_id := Payments.payment_id p;
     Payments.user_id := Payments.user_id p;
     Payments.bill_id := Payments.bill_id p;
     Payments.amount := Payments.amount p;
     Payments.payment_method := Payments.payment_method p;
     Payments.payment_date := Payments.payment_date p;
     Payments.status := s;
     Payments.slip_path := Payments.slip_path p |}.

(** The status [approve_payment] is asked to set. *)
Definition requested_status (req : request) : json :=
  get_default (req_json req) "status" (JStr "paid").



(** The colours of a tag in the palette of the announcement handlers. *)
Definition palette (tag : option string) : string * string :=
  match tag with
  | Some s =>
      match assoc tag_colors s with
      | Some c => c
      | None => ("#666", "#eee")
      end
  | None => ("#666", "#eee")
  end.

Definition well_coloured (a : Announcements.t) : Prop :=
  Announcements.tag_color a = Some (fst (palette (Announcements.tag a))) /\
  Announcements.tag_bg a = Some (snd (palette (Announcements.tag a))).

(** The body gives the tag as a string or as null, or not at all. *)
Definition tag_is_text (data : dict) : Prop :=
  match dict_get data "tag" with
  | None | Some JNull | Some (JStr _) => True
  | _ => False
  end.

(** The Socket.IO calls that concern room membership. *)
Inductive socket_call : Type :=
| Connect
| Disconnect
| JoinChatRoom (data : dict)
| LeaveChatRoom (data : dict)
| JoinUserRoom (data : dict).

Definition on_socket (env : Env) (lib : Lib) (c : socket_call) : membership :=
  match c with
  | Connect => handle_connect
  | Disconnect => handle_disconnect
  | JoinChatRoom data => handle_join_chat_room env lib data
  | LeaveChatRoom data => handle_leave_chat_room env lib data
  | JoinUserRoom data => handle_join_user_room env lib data
  end.

(** The connection whose membership a request to the registry changes. *)
Definition change_sid (c : room_change) : string :=
  match c with Enter sid _ | Leave sid _ => sid end.

(** The room name or the user id a call carries ([None] for a call that
    carries none). *)
Definition named (c : socket_call) : json :=
  match c with
  | Connect | Disconnect => JNull
  | JoinChatRoom data | LeaveChatRoom data => get data "room_name"
  | JoinUserRoom data => get data "user_id"
  end.

(** A [status] event addressed to the connection [sid] alone. *)
Definition status_for (sid : string) (e : event) : Prop :=
  ev_name e = "status" /\ ev_target e = Room (JStr sid).

(** The mutations that tell the owner of a request of its new status. *)
Definition status_update (mu : mutation) : bool :=
  match mu with
  | UpdateRepairRequest _ | UpdateBookingRequest _ => true
  | _ => false
  end.

(** ** An example library *)

Fixpoint uppercase (s : string) : string :=
  match s with
  | EmptyString => EmptyString
  | String c s' => String (upper c) (uppercase s')
  end.

(** A stand-in for [bcrypt] that marks a password instead of hashing it. *)
Definition test_lib : Lib :=
  {| hashpw := fun s => Some ("$" ++ s);
     checkpw := fun s h => Some (h =? "$" ++ s)%string;
     py_upper := uppercase;
     py_head := fun s =>
       match s with String c _ => String c "" | EmptyString => "" end;
     py_repr := fun _ => "[]";
     accepts_room := fun _ => false |}.

(** The user with another password hash. *)
Definition with_hash (h : string) (u : Users.t) : Users.t :=
  {| Users.user_id := Users.user_id u;
     Users.name := Users.name u;
     Users.username := Users.username u;
     Users.password_hash := h;
     Users.role := Users.role u;
     Users.phone := Users.phone u;
     Users.address := Users.address u;
     Users.email := Users.email u;
     Users.avatar := Users.avatar u;
     Users.status := Users.status u |}.

(** The storage with the password hash of every user replaced. *)
Definition rehashed (f : Users.t -> string) (db : DB) : DB :=
  set_users (map (fun u => with_hash (f u) u) (users db)) db.

(** The account found by [login], its password verified. *)
Definition verified (env : Env) (lib : Lib) (req : request) (db : DB)
    (u : Users.t) : Prop :=
  exists s pw,
    col_text env (get (req_json req) "username") = Ok (Some s) /\
    find_username (Some s) (users db) = Some u /\
    get (req_json req) "password" = JStr pw /\
    checkpw lib pw (Users.password_hash u) = Some true.


(** The requests that change the storage and have no outbound event. *)
Inductive quiet : Type :=
| DeleteRepairRequest (id : Z)
| DeleteBookingRequest (id : Z)
| UploadDocument
| DeleteDocument (id : Z)
| Register
| UpdateUser (id : Z)
| DeleteUser (id : Z)
| Vote.

Definition perform_quietly (env : Env) (lib : Lib) (q : quiet)
    (req : request) : M response :=
  match q with
  | DeleteRepairRequest id =>
      handle_single_repair_request env (with_method DELETE req) id
  | DeleteBookingRequest id =>
      handle_single_booking_request env (with_method DELETE req) id
  | UploadDocument => manage_documents env (with_method POST req)
  | DeleteDocument id => delete_document env (with_method DELETE req) id
  | Register => handle_users env lib (with_method POST req)
  | UpdateUser id => handle_single_user env lib (with_method PUT req) id
  | DeleteUser id => handle_single_user env lib (with_method DELETE req) id
  | Vote => manage_voting_results env (with_method POST req)
  end.

(** ** Further example data *)

Definition delete_request : request := with_method DELETE get_request.

Definition water_bill : Bills.t :=
  {| Bills.bill_id := 1; Bills.item_name := "water"; Bills.amount := 10000;
     Bills.due_date := Some 10; Bills.recipient_id := "all";
     Bills.issued_by_user_id := Some 1; Bills.status := Some "unpaid" |}.

Definition water_payment : Payments.t :=
  {| Payments.payment_id := 1; Payments.user_id := Some 1;
     Payments.bill_id := Some 1; Payments.amount := 10000;
     Payments.payment_method := Some "transfer";
     Payments.payment_date := Some 5; Payments.status := Some "pending";
     Payments.slip_path := None |}.

(** Bob has paid the water bill; the payment awaits approval. *)
Definition db_one_payment : DB :=
  set_payments [ water_payment ] (set_bills [ water_bill ] db_bob).

Definition tap_repair : RepairRequests.t :=
  {| RepairRequests.request_id := 1; RepairRequests.user_id := Some 42;
     RepairRequests.title := "Tap";
     RepairRequests.category := Some "plumbing";
     RepairRequests.description := "Leaks";
     RepairRequests.submitted_date := Some 0;
     RepairRequests.status := Some "pending";
     RepairRequests.image_paths := None |}.

Definition vote (poll option user : Z) : request :=
  post [ ("poll_id", JInt poll); ("option_id", JInt option);
         ("user_id", JInt user) ].

(** Two announcements, the second published before the first. *)
Definition db_two_announcements : DB :=
  let db1 :=
    out_db (run (perform (test_env true 20) CreateAnnouncement announce)
              empty_db) in
  out_db (run (perform (test_env true 10) CreateAnnouncement announce) db1).

(** A registration, with further fields in front. *)
Definition sign_up (extra : dict) : request :=
  post (extra ++ [ ("name", JStr "Ann"); ("username", JStr "ann");
                   ("password", JStr "secret") ])%list.

Definition sign_in : request :=
  post [ ("username", JStr "ann"); ("password", JStr "secret") ].

(** Ann, registered as approved and without an avatar. *)
Definition ann : Users.t :=
  {| Users.user_id := 1; Users.name := "Ann"; Users.username := "ann";
     Users.password_hash := "$secret"; Users.role := "resident";
     Users.phone := None; Users.address := None; Users.email := None;
     Users.avatar := None; Users.status := Some "approved" |}.

Definition db_registered : DB :=
  out_db (run (handle_users (test_env true 0) test_lib
                 (sign_up [ ("avatar", JNull); ("status", JStr "approved") ]))
            empty_db).

(** * Properties *)

(** ** Symbolic execution of handlers *)

(** Projections of a row, a table or a request out of an explicit record. *)
Ltac record_cbn :=
  cbn [app of_option
       Users.user_id Users.name Users.username Users.password_hash
       Users.role Users.phone Users.address Users.email Users.avatar
       Users.status Announcements.announcement_id Announcements.title
       Announcements.content Announcements.published_date
       Announcements.author_id Announcements.tag Announcements.tag_color
       Announcements.tag_bg RepairRequests.request_id
       RepairRequests.user_id RepairRequests.title RepairRequests.category
       RepairRequests.description RepairRequests.submitted_date
       RepairRequests.status RepairRequests.image_paths
       BookingRequests.booking_id BookingRequests.user_id
       BookingRequests.location BookingRequests.date
       BookingRequests.start_time BookingRequests.end_time
       BookingRequests.purpose BookingRequests.attendee_count
       BookingRequests.status Bills.bill_id Bills.item_name Bills.amount
       Bills.due_date Bills.recipient_id Bills.issued_by_user_id
       Bills.status Payments.payment_id Payments.user_id Payments.bill_id
       Payments.amount Payments.payment_method Payments.payment_date
       Payments.status Payments.slip_path CalendarEvents.event_id
       CalendarEvents.event_name CalendarEvents.event_date
       CalendarEvents.location CalendarEvents.description
       Documents.document_id Documents.document_name Documents.file_path
       Documents.uploaded_by_user_id Documents.upload_date
       Documents.category ChatMessages.message_id ChatMessages.sender_id
       ChatMessages.receiver_id ChatMessages.content ChatMessages.timestamp
       ChatMessages.room_name SecurityVisitors.visitor_id
       SecurityVisitors.user_id SecurityVisitors.name
       SecurityVisitors.phone SecurityVisitors.visit_date
       SecurityVisitors.visit_time SecurityVisitors.purpose
       SecurityIncidents.incident_id SecurityIncidents.user_id
       SecurityIncidents.description SecurityIncidents.reported_date
       SecurityIncidents.evidence_paths VotingResults.result_id
       VotingResults.poll_id VotingResults.option_id VotingResults.user_id
       users announcements repair_requests booking_requests bills payments
       calendar_events documents chat_messages security_visitors
       security_incidents voting_results set_users set_announcements
       set_repair_requests set_booking_requests set_bills set_payments
       set_calendar_events set_documents set_chat_messages
       set_security_visitors set_security_incidents set_voting_results
       iso_datetime iso_date iso_time req_method req_json req_args
       with_method].

Ltac monad_cbn :=
  cbv beta iota zeta delta
      [run bind ret raise liftr rbind try_except
       read_session write_session log
       session_commit session_rollback socketio_emit socketio_broadcast emit
       session_add session_update session_delete get_or_404
       relationship jsonify method_not_allowed
       committed session trace
       out_result out_db out_session out_trace fst snd];
  record_cbn.

(** One step: decide the next fallible call or test of the handler. *)
Ltac exec_step :=
  match goal with
  | |- context [match ?r with Ok _ => _ | Raise _ => _ end] =>
      lazymatch r with
      | match _ with Ok _ => _ | Raise _ => _ end => fail
      | _ => let E := fresh "E" in destruct r eqn:E
      end
  | |- context [if commit_ok ?e then _ else _] =>
      let E := fresh "E" in destruct (commit_ok e) eqn:E
  | |- context [if takes_broadcast ?e then _ else _] =>
      let E := fresh "E" in destruct (takes_broadcast e) eqn:E
  | |- context [if contains ?d ?k then _ else _] =>
      let E := fresh "E" in destruct (contains d k) eqn:E
  end; monad_cbn.

Ltac exec := monad_cbn; repeat exec_step.

(** ** The relay of chat messages *)

Lemma message_payload_ok env db msg p :
  message_payload env msg (related_user db (ChatMessages.sender_id msg))
  = Ok p ->
  p = relayed_payload env db msg /\ ChatMessages.timestamp msg <> None.
Proof.
  unfold message_payload, relayed_payload, iso_datetime.
  destruct (ChatMessages.timestamp msg); cbn; intros H; inversion H.
  split; [reflexivity | discriminate].
Qed.

Lemma related_user_set_chat l db fk :
  related_user (set_chat_messages l db) fk = related_user db fk.
Proof. destruct fk; reflexivity. Qed.

Lemma absent_is_missing data k : dict_get data k = None -> missing data k.
Proof. unfold missing, get, get_default. now intros ->. Qed.

Lemma empty_is_missing data k :
  dict_get data k = Some (JStr "") -> missing data k.
Proof. unfold missing, get, get_default. now intros ->. Qed.

Lemma send_message_rejected env data db :
  missing data "sender_id" \/ missing data "content" ->
  run (handle_send_message env data) db
  = {| out_result := Ok tt; out_db := db; out_session := db;
       out_trace := [local_error env "Missing sender_id or content"] |}.
Proof.
  unfold missing, handle_send_message. intros H.
  assert (C : (negb (py_truthy (get data "sender_id"))
               || negb (py_truthy (get data "content")))%bool = true).
  { destruct H as [-> | ->]; cbn; auto using orb_true_r. }
  rewrite C. reflexivity.
Qed.

Lemma send_message_failed env data db :
  py_truthy (get data "sender_id") = true ->
  py_truthy (get data "content") = true ->
  persistence_fails env data ->
  run (handle_send_message env data) db
  = {| out_result := Ok tt; out_db := db; out_session := db;
       out_trace := [Rollback; local_error env "Failed to send message"] |}.
Proof.
  unfold handle_send_message, persistence_fails. intros -> -> H.
  cbn [negb orb]. unfold users_query_get.
  exec; try reflexivity;
    destruct H as [[x H] | [[x H] | [[x H] | H]]]; congruence.
Qed.

Lemma send_message_stored env data db sender content room :
  py_truthy (get data "sender_id") = true ->
  py_truthy (get data "content") = true ->
  accepted env data sender content room ->
  commit_ok env = true ->
  let msg := new_chat_row env db sender content room in
  let db' := set_chat_messages (chat_messages db ++ [msg])%list db in
  run (handle_send_message env data) db
  = {| out_result := Ok tt; out_db := db'; out_session := db';
       out_trace :=
         [ Commit;
           Emit {| ev_name := "receive_message";
                   ev_payload := relayed_payload env db msg;
                   ev_target :=
                     room_target
                       (get_default data "room_name" (JStr "general_chat"))
                |} ] |}.
Proof.
  unfold handle_send_message, accepted. intros -> -> (Hs & Hc & Hr) Hok.
  cbn [negb orb]. unfold users_query_get.
  monad_cbn. rewrite Hs. monad_cbn. rewrite Hc. monad_cbn.
  rewrite Hr. monad_cbn. rewrite Hok. monad_cbn.
  unfold message_payload, relayed_payload, new_chat_row. cbn.
  rewrite related_user_set_chat. reflexivity.
Qed.

(** ** The mutations that have an outbound event *)

Lemma payload_user_related db p fk key :
  dict_get p fk = Some (json_opt_int key) ->
  payload_user db p fk = related_user db key.
Proof.
  unfold payload_user. intros ->. destruct key; reflexivity.
Qed.

Ltac exec_more :=
  match goal with
  | |- context [match related_bill ?d ?k with _ => _ end] =>
      let E := fresh "E" in destruct (related_bill d k) eqn:E
  | |- context [match get_default ?d ?k ?v with _ => _ end] =>
      let E := fresh "E" in destruct (get_default d k v) eqn:E
  | |- context [if (orb ?a ?b) then _ else _] =>
      let E := fresh "E" in destruct (orb a b) eqn:E
  end; monad_cbn.

Lemma raised_not_succeeded e d d' t :
  ~ succeeded {| out_result := @Raise response e; out_db := d;
                 out_session := d'; out_trace := t |}.
Proof. unfold succeeded, http_status. cbn. destruct e; lia. Qed.

Ltac not_succeeded :=
  first [ apply raised_not_succeeded
        | cbv [succeeded http_status out_result status]; lia ].

Ltac failed_before_commit :=
  left; split; [reflexivity | split; [reflexivity | not_succeeded]].

Ltac failed_after_commit :=
  right; left;
  split; [assumption |
  split; [reflexivity | split; [reflexivity | not_succeeded]]].

Lemma of_option_ok {A} e (o : option A) a :
  of_option e o = Ok a -> o = Some a.
Proof. destruct o; cbn; congruence. Qed.

Ltac found_rows :=
  repeat match goal with
         | H : of_option _ _ = Ok _ |- _ => apply of_option_ok in H
         end.

Ltac published :=
  right; right;
  split; [assumption |];
  split; [reflexivity |];
  split; [cbv [succeeded http_status out_result status]; lia |];
  eexists; split;
  [ cbv [affected_user]; found_rows;
    repeat match goal with
           | H : find_row _ _ _ = Some _ |- _ => rewrite H
           end;
    reflexivity
  | cbv [names_ok derived_name names_user];
    cbn [dict_get String.eqb Ascii.eqb Bool.eqb];
    try (erewrite payload_user_related by reflexivity);
    try reflexivity ].

Ltac settle := solve [failed_before_commit | failed_after_commit | published].

(** Every mutation ends in one of the three ways. *)
Lemma perform_outcome env mu req db :
  mutation_outcome env mu db (run (perform env mu req) db).
Proof.
  destruct mu;
    cbv [perform manage_announcements handle_single_announcement
         announcement_payload manage_repair_requests handle_single_repair_request
         manage_booking_requests handle_single_booking_request
         manage_bills handle_single_bill manage_payments approve_payment
         manage_calendar_events manage_security_visitors
         manage_security_incidents];
    exec; repeat (exec_more; repeat exec_step); try settle.
Qed.

(** ** Ordered queries *)

Section OrderByFacts.
Context {R : Type} (leb : R -> R -> bool).
Hypothesis leb_total : forall a b, leb a b = false -> leb b a = true.
Hypothesis leb_trans :
  forall a b c, leb a b = true -> leb b c = true -> leb a c = true.

Lemma insert_sorted_perm x l : Permutation (insert_sorted leb x l) (x :: l).
Proof.
  induction l as [|y l IH]; cbn.
  - reflexivity.
  - destruct (leb x y).
    + reflexivity.
    + rewrite IH. apply perm_swap.
Qed.

Lemma order_by_perm l : Permutation (order_by leb l) l.
Proof.
  induction l as [|x l IH]; cbn.
  - reflexivity.
  - rewrite insert_sorted_perm. now constructor.
Qed.

Lemma insert_sorted_sorted x l :
  StronglySorted (fun a b => leb a b = true) l ->
  StronglySorted (fun a b => leb a b = true) (insert_sorted leb x l).
Proof.
  induction 1 as [|y l Hl IH Hy]; cbn.
  - repeat constructor.
  - destruct (leb x y) eqn:E.
    + constructor; [now constructor |].
      constructor; [assumption |].
      eapply Forall_impl; [| exact Hy]. intros z Hz. eauto.
    + constructor; [assumption |].
      eapply Permutation_Forall.
      * symmetry. apply insert_sorted_perm.
      * constructor; auto.
Qed.

Lemma order_by_sorted l :
  StronglySorted (fun a b => leb a b = true) (order_by leb l).
Proof.
  induction l as [|x l IH]; cbn.
  - constructor.
  - now apply insert_sorted_sorted.
Qed.
End OrderByFacts.

Lemma StronglySorted_nth_error {A} (P : A -> A -> Prop) l :
  StronglySorted P l ->
  forall i j a b, (i < j)%nat ->
    nth_error l i = Some a -> nth_error l j = Some b -> P a b.
Proof.
  induction 1 as [|x l Hl IH Hx]; intros i j a b Hij Ha Hb.
  - destruct i; discriminate.
  - destruct j as [|j]; [lia |].
    destruct i as [|i]; cbn in Ha, Hb.
    + inversion Ha; subst.
      rewrite Forall_forall in Hx. apply Hx. eapply nth_error_In; eauto.
    + eapply IH; [| eassumption | eassumption]. lia.
Qed.

Lemma opt_leb_total a b : opt_leb a b = false -> opt_leb b a = true.
Proof.
  destruct a, b; cbn; try congruence. intros H.
  apply Z.leb_gt in H. apply Z.leb_le. lia.
Qed.

Lemma opt_leb_trans a b c :
  opt_leb a b = true -> opt_leb b c = true -> opt_leb a c = true.
Proof.
  destruct a, b, c; cbn; try congruence. intros H1 H2.
  apply Z.leb_le in H1, H2. apply Z.leb_le. lia.
Qed.

(** ** Loops that build a response *)

Lemma traverse_map {A B} (f : A -> result B) (g : A -> B) (Q : A -> Prop)
    xs ys :
  (forall x y, f x = Ok y -> y = g x /\ Q x) ->
  traverse f xs = Ok ys ->
  ys = map g xs /\ Forall Q xs.
Proof.
  intros Hf. revert ys. induction xs as [|x xs IH]; cbn; intros ys H.
  - inversion H. auto.
  - destruct (f x) as [y|] eqn:Ex; cbn in H; [| discriminate].
    destruct (traverse f xs) as [ys'|] eqn:Exs; cbn in H; [| discriminate].
    inversion H; subst. destruct (Hf _ _ Ex) as [-> Hq].
    destruct (IH _ eq_refl) as [-> Hall]. auto.
Qed.


Lemma traverse_total {A B} (f : A -> result B) xs :
  Forall (fun x => exists y, f x = Ok y) xs ->
  exists ys, traverse f xs = Ok ys.
Proof.
  induction 1 as [|x xs [y Hy] _ [ys IH]]; cbn.
  - eauto.
  - rewrite Hy, IH. cbn. eauto.
Qed.

(** ** The chat history *)

(** The body of a successful [GET /chat-messages]: one entry per row of
    the ordered query. *)
Lemma get_chat_messages_body env req db entries :
  http_body (run (get_chat_messages env req) db) = Some (JList entries) ->
  entries = map (history_entry env db) (chat_history_rows db) /\
  Forall stamped (chat_history_rows db).
Proof.
  unfold get_chat_messages.
  destruct (req_method req); exec; cbv [http_body out_result body];
    try discriminate.
  intros H. inversion H; subst.
  eapply traverse_map; [| exact E].
  intros msg y Hy. cbv beta in Hy.
  destruct (message_payload env msg _) as [p|] eqn:Ep; cbn in Hy;
    [| discriminate].
  apply message_payload_ok in Ep. destruct Ep as [-> Hts].
  inversion Hy. split; [reflexivity | exact Hts].
Qed.

Lemma get_chat_messages_total env req db :
  req_method req = GET ->
  Forall stamped (chat_messages db) ->
  exists entries,
    run (get_chat_messages env req) db
    = {| out_result := Ok {| body := JList entries; status := 200 |};
         out_db := db; out_session := db; out_trace := [] |}.
Proof.
  intros Hm Hall. unfold get_chat_messages. rewrite Hm.
  destruct (traverse_total
              (fun msg =>
                 p <~ message_payload env msg
                        (related_user db (ChatMessages.sender_id msg)) ;;
                 Ok (JObj p))
              (chat_history_rows db)) as [entries He].
  - eapply Permutation_Forall.
    + symmetry. apply order_by_perm.
    + eapply Forall_impl; [| exact Hall]. intros msg Hts.
      unfold message_payload, iso_datetime, stamped in *.
      destruct (ChatMessages.timestamp msg); [| congruence].
      cbn. eauto.
  - exists entries. monad_cbn. cbv [rbind] in He. rewrite He. reflexivity.
Qed.

Example db_after_two_sends_rows :
  map (fun m => (ChatMessages.message_id m, ChatMessages.timestamp m))
    (chat_messages db_after_two_sends)
  = [ (1, Some 20); (2, Some 10) ].
Proof. reflexivity. Qed.





(** C10: [GET /chat-messages] reads no room argument and filters nothing:
    its outcome is the same for any two requests of the same method, and
    the list it returns has one entry for every row of the table, whatever
    the row's room; it does return a list whenever every row carries its
    timestamp. *)
Theorem chat_history_spans_every_room env req db :
  (forall req',
      req_method req' = req_method req ->
      run (get_chat_messages env req') db
      = run (get_chat_messages env req) db) /\
  (forall entries,
      http_body (run (get_chat_messages env req) db) = Some (JList entries) ->
      List.length entries = List.length (chat_messages db) /\
      forall msg,
        In msg (chat_messages db) ->
        exists p,
          In (JObj p) entries /\
          dict_get p "message_id" = Some (JInt (ChatMessages.message_id msg))
          /\ dict_get p "room_name"
             = Some (json_opt_str (ChatMessages.room_name msg))) /\
  (req_method req = GET ->
   Forall stamped (chat_messages db) ->
   exists entries,
     http_body (run (get_chat_messages env req) db) = Some (JList entries)).
Proof.
  split; [| split].
  - intros req' Hm. unfold get_chat_messages. rewrite Hm. reflexivity.
  - intros entries H. apply get_chat_messages_body in H.
    destruct H as [-> _].
    assert (Hperm : Permutation (chat_history_rows db) (chat_messages db))
      by apply order_by_perm.
    split.
    + rewrite length_map. apply Permutation_length. exact Hperm.
    + intros msg Hin. exists (relayed_payload env db msg).
      repeat split; try reflexivity.
      apply (in_map (history_entry env db)).
      eapply Permutation_in; [symmetry; exact Hperm | exact Hin].
  - intros Hm Hall.
    destruct (get_chat_messages_total env req db Hm Hall) as [entries He].
    exists entries. rewrite He. reflexivity.
Qed.

Lemma chat_history_spans_every_room_witness :
  let env := test_env true 0 in
  exists entries,
    http_body (run (get_chat_messages env get_request) db_two_rooms)
    = Some (JList entries) /\
    List.length entries = List.length (chat_messages db_two_rooms) /\
    forall msg,
      In msg (chat_messages db_two_rooms) ->
      exists p,
        In (JObj p) entries /\
        dict_get p "message_id" = Some (JInt (ChatMessages.message_id msg))
        /\ dict_get p "room_name"
           = Some (json_opt_str (ChatMessages.room_name msg)).
Proof.
  intros env.
  destruct (chat_history_spans_every_room env get_request db_two_rooms)
    as (_ & Hall & Htotal).
  destruct Htotal as [entries He].
  - reflexivity.
  - repeat constructor; discriminate.
  - exists entries. split; [exact He |]. apply Hall. exact He.
Defined.

(** C3: a [send_message] whose [sender_id] or [content] is missing (absent,
    null or empty) is answered by one [error] event addressed to the
    calling connection; nothing is committed, nothing is left in the
    session and nothing else is emitted. *)
Theorem send_message_missing_field env data db :
  missing data "sender_id" \/ missing data "content" ->
  let o := run (handle_send_message env data) db in
  out_trace o = [ local_error env "Missing sender_id or content" ] /\
  out_events o
  = [ {| ev_name := "error";
         ev_payload := [ ("message", JStr "Missing sender_id or content") ];
         ev_target := ToSid (request_sid env) |} ] /\
  out_db o = db /\ out_session o = db.
Proof.
  intros H o. subst o. rewrite (send_message_rejected env data db H).
  repeat split.
Qed.

Lemma send_message_missing_field_witness :
  let env := test_env true 0 in
  let data := [ ("sender_id", JInt 1); ("content", JStr "") ] in
  let o := run (handle_send_message env data) empty_db in
  (missing data "sender_id" \/ missing data "content") /\
  out_trace o = [ local_error env "Missing sender_id or content" ] /\
  out_events o
  = [ {| ev_name := "error";
         ev_payload := [ ("message", JStr "Missing sender_id or content") ];
         ev_target := ToSid (request_sid env) |} ] /\
  out_db o = empty_db /\ out_session o = empty_db.
Proof.
  intros env data o.
  assert (H : missing data "sender_id" \/ missing data "content")
    by (right; reflexivity).
  split; [exact H |].
  exact (send_message_missing_field env data empty_db H).
Defined.

(** C4: when a [send_message] passes validation and its persistence step
    fails, the handler rolls back, the storage and the session are what
    they were, and the only event is one [error] addressed to the calling
    connection: no [receive_message] goes to the room. *)
Theorem send_message_persistence_failure env data db :
  py_truthy (get data "sender_id") = true ->
  py_truthy (get data "content") = true ->
  persistence_fails env data ->
  let o := run (handle_send_message env data) db in
  out_trace o = [ Rollback; local_error env "Failed to send message" ] /\
  out_events o
  = [ {| ev_name := "error";
         ev_payload := [ ("message", JStr "Failed to send message") ];
         ev_target := ToSid (request_sid env) |} ] /\
  out_db o = db /\ out_session o = db.
Proof.
  intros Hs Hc Hf o. subst o.
  rewrite (send_message_failed env data db Hs Hc Hf). repeat split.
Qed.

Lemma send_message_persistence_failure_witness :
  let env := test_env false 0 in
  let data := hello 1 "hi" in
  let o := run (handle_send_message env data) empty_db in
  persistence_fails env data /\
  out_trace o = [ Rollback; local_error env "Failed to send message" ] /\
  out_events o
  = [ {| ev_name := "error";
         ev_payload := [ ("message", JStr "Failed to send message") ];
         ev_target := ToSid (request_sid env) |} ] /\
  out_db o = empty_db /\ out_session o = empty_db.
Proof.
  intros env data o.
  assert (H : persistence_fails env data)
    by (right; right; right; reflexivity).
  split; [exact H |].
  exact (send_message_persistence_failure env data empty_db
           eq_refl eq_refl H).
Defined.

(** C9: a [send_message] that omits [room_name], passes validation and is
    accepted by the storage is persisted with [room_name] ['general_chat']
    and its [receive_message] event goes to the room ['general_chat'],
    while the column default of [ChatMessages.room_name] is ['general']. *)
Theorem send_message_default_room env data db sender content :
  dict_get data "room_name" = None ->
  py_truthy (get data "sender_id") = true ->
  py_truthy (get data "content") = true ->
  col_int env (get data "sender_id") = Ok sender ->
  text_nn env (get data "content") = Ok content ->
  commit_ok env = true ->
  let o := run (handle_send_message env data) db in
  exists msg payload,
    out_db o = set_chat_messages (chat_messages db ++ [msg])%list db /\
    ChatMessages.room_name msg = Some "general_chat" /\
    ChatMessages.sender_id msg = sender /\
    ChatMessages.content msg = content /\
    out_events o
    = [ {| ev_name := "receive_message"; ev_payload := payload;
           ev_target := Room (JStr "general_chat") |} ] /\
    dict_get payload "room_name" = Some (JStr "general_chat") /\
    ChatMessages.room_name_default = "general" /\
    ChatMessages.room_name_default <> "general_chat".
Proof.
  intros Hroom Hs Hc Hsender Hcontent Hok o. subst o.
  assert (Hdef : get_default data "room_name" (JStr "general_chat")
                 = JStr "general_chat")
    by (unfold get_default; now rewrite Hroom).
  assert (Hacc : accepted env data sender content (Some "general_chat")).
  { unfold accepted. rewrite Hdef. repeat split; assumption. }
  rewrite (send_message_stored env data db _ _ _ Hs Hc Hacc Hok), Hdef.
  eexists. eexists. repeat split. discriminate.
Qed.

Lemma send_message_default_room_witness :
  let env := test_env true 7 in
  let data := hello 1 "hi" in
  let o := run (handle_send_message env data) db_bob in
  dict_get data "room_name" = None /\
  exists msg payload,
    out_db o = set_chat_messages (chat_messages db_bob ++ [msg])%list
                 db_bob /\
    ChatMessages.room_name msg = Some "general_chat" /\
    ChatMessages.sender_id msg = Some 1 /\
    ChatMessages.content msg = "hi" /\
    out_events o
    = [ {| ev_name := "receive_message"; ev_payload := payload;
           ev_target := Room (JStr "general_chat") |} ] /\
    dict_get payload "room_name" = Some (JStr "general_chat") /\
    ChatMessages.room_name_default = "general" /\
    ChatMessages.room_name_default <> "general_chat".
Proof.
  intros env data o. split; [reflexivity |].
  exact (send_message_default_room env data db_bob (Some 1) "hi"
           eq_refl eq_refl eq_refl eq_refl eq_refl eq_refl).
Defined.

(** A [room_name] that is present and null leaves the row to the column
    default and the event to every connection. *)
Example send_message_null_room :
  let o := run (handle_send_message (test_env true 7)
                  (("room_name", JNull) :: hello 1 "hi")) db_bob in
  map ChatMessages.room_name (chat_messages (out_db o)) = [ Some "general" ]
  /\ map ev_target (out_events o) = [ Broadcast ].
Proof. split; reflexivity. Qed.

(** ** The avatar of a chat message *)

(** C6: the sender bob has no stored avatar.  The relayed payload and the
    history entry carry a null [sender_avatar], not the first character of
    his name; for a sender that does not resolve the avatar is the initial
    of the placeholder name, ['U'], not ['?'].  In general the avatar of a
    resolved sender is the stored one, whatever it is, and the ['?'] branch
    is never taken. *)
Theorem chat_avatar_has_no_fallback :
  let sent := run (handle_send_message (test_env true 5) (hello 1 "hi"))
                db_bob in
  let read := run (get_chat_messages (test_env true 0) get_request)
                (out_db sent) in
  let lost := run (get_chat_messages (test_env true 0) get_request)
                db_departed in
  map (fun e => (dict_get (ev_payload e) "sender_name",
                 dict_get (ev_payload e) "sender_avatar"))
    (out_events sent)
  = [ (Some (JStr "bob"), Some JNull) ] /\
  (exists entry,
      http_body read = Some (JList [ entry ]) /\
      json_field entry "sender_name" = Some (JStr "bob") /\
      json_field entry "sender_avatar" = Some JNull) /\
  (exists entry,
      http_body lost = Some (JList [ entry ]) /\
      json_field entry "sender_name" = Some (JStr "Unknown User") /\
      json_field entry "sender_avatar" = Some (JStr "U")) /\
  (forall u n, sender_avatar_of (Some u) n = json_opt_str (Users.avatar u)) /\
  (forall u, sender_avatar_of u (sender_name_of u) <> JStr "?"
             \/ exists usr, u = Some usr /\ Users.avatar usr = Some "?").
Proof.
  cbv zeta. split; [reflexivity |].
  split; [eexists; repeat split; reflexivity |].
  split; [eexists; repeat split; reflexivity |].
  split; [reflexivity |].
  intros [usr|]; cbn.
  - destruct (Users.avatar usr) as [a|] eqn:E; cbn.
    + destruct (String.eqb_spec a "?") as [-> | Hne].
      * right. eauto.
      * left. congruence.
    + left. discriminate.
  - left. discriminate.
Qed.

(** ** Votes *)

Lemma find_exists {A} (f : A -> bool) l x :
  In x l -> f x = true -> exists y, find f l = Some y.
Proof.
  induction l as [|a l IH]; cbn; [tauto |].
  intros [-> | Hin] Hf.
  - rewrite Hf. eauto.
  - destruct (f a); eauto.
Qed.

Lemma opt_eqb_refl a : opt_eqb a a = true.
Proof. destruct a; cbn; [apply Z.eqb_refl | reflexivity]. Qed.

(** C8: a vote for a poll in which the same user already has a row is
    answered 409; no row is added, nothing is committed and nothing is
    emitted. *)
Theorem duplicate_vote_is_a_conflict env req db poll_v user_v vote :
  req_method req = POST ->
  dict_get (req_json req) "poll_id" = Some poll_v ->
  dict_get (req_json req) "user_id" = Some user_v ->
  In vote (voting_results db) ->
  col_int env poll_v = Ok (VotingResults.poll_id vote) ->
  col_int env user_v = Ok (VotingResults.user_id vote) ->
  let o := run (manage_voting_results env req) db in
  http_status o = 409 /\
  out_db o = db /\ out_session o = db /\
  out_trace o = [] /\ out_events o = [].
Proof.
  intros Hm Hp Hu Hin Hpoll Huser o. subst o.
  unfold manage_voting_results, getitem. rewrite Hm, Hp, Hu.
  monad_cbn. rewrite Hpoll, Huser. monad_cbn.
  destruct (find_exists
              (fun r =>
                 (opt_eqb (VotingResults.poll_id r)
                    (VotingResults.poll_id vote)
                  && opt_eqb (VotingResults.user_id r)
                       (VotingResults.user_id vote))%bool)
              (voting_results db) vote Hin) as [y Hy].
  { now rewrite !opt_eqb_refl. }
  rewrite Hy. repeat split.
Qed.

Example db_one_vote_rows :
  voting_results db_one_vote
  = [ {| VotingResults.result_id := 1; VotingResults.poll_id := Some 3;
         VotingResults.option_id := Some 8;
         VotingResults.user_id := Some 5 |} ].
Proof. reflexivity. Qed.

Lemma duplicate_vote_is_a_conflict_witness :
  let env := test_env true 0 in
  let req := post [ ("poll_id", JInt 3); ("option_id", JInt 9);
                    ("user_id", JInt 5) ] in
  let o := run (manage_voting_results env req) db_one_vote in
  http_status o = 409 /\
  out_db o = db_one_vote /\ out_session o = db_one_vote /\
  out_trace o = [] /\ out_events o = [].
Proof.
  intros env req.
  apply (duplicate_vote_is_a_conflict env req db_one_vote (JInt 3) (JInt 5)
           {| VotingResults.result_id := 1; VotingResults.poll_id := Some 3;
              VotingResults.option_id := Some 8;
              VotingResults.user_id := Some 5 |});
    try reflexivity.
  left. reflexivity.
Defined.

(** ** Commit before publish *)

Lemma find_row_none {R} (pk : R -> Z) id rows :
  existsb (fun r => pk r =? id) rows = false ->
  find_row pk id rows = None.
Proof.
  unfold find_row. induction rows as [|r rows IH]; cbn; [reflexivity |].
  destruct (pk r =? id); cbn; [discriminate | exact IH].
Qed.

Section TableFacts.
Context {R : Type} (pk : R -> Z).

Lemma find_row_key id rows r : find_row pk id rows = Some r -> pk r = id.
Proof.
  unfold find_row. intros H. apply find_some in H.
  destruct H as [_ H]. now apply Z.eqb_eq in H.
Qed.

Lemma find_row_replaced id rows r r' :
  find_row pk id rows = Some r -> pk r' = id ->
  find_row pk id (replace_row pk r' rows) = Some r'.
Proof.
  unfold find_row, replace_row. intros H Hk. subst id.
  induction rows as [|x rows IH]; cbn in *; [discriminate |].
  destruct (pk x =? pk r') eqn:E; cbn.
  - now rewrite Z.eqb_refl.
  - rewrite E. auto.
Qed.

Lemma find_row_other id' rows r' :
  pk r' <> id' ->
  find_row pk id' (replace_row pk r' rows) = find_row pk id' rows.
Proof.
  unfold find_row, replace_row. intros Hne.
  induction rows as [|x rows IH]; cbn; [reflexivity |].
  destruct (pk x =? pk r') eqn:E.
  - apply Z.eqb_eq in E.
    destruct (pk r' =? id') eqn:E1; [apply Z.eqb_eq in E1; congruence |].
    destruct (pk x =? id') eqn:E2; [apply Z.eqb_eq in E2; congruence |].
    exact IH.
  - destruct (pk x =? id'); [reflexivity | exact IH].
Qed.

Lemma replace_row_length r' rows :
  List.length (replace_row pk r' rows) = List.length rows.
Proof. unfold replace_row. apply length_map. Qed.

Lemma replace_row_others r' rows x :
  In x rows -> pk x <> pk r' -> In x (replace_row pk r' rows).
Proof.
  unfold replace_row. intros Hin Hne. apply in_map_iff. exists x.
  split; [| exact Hin].
  destruct (pk x =? pk r') eqn:E; [apply Z.eqb_eq in E; congruence |].
  reflexivity.
Qed.

Lemma deleted_row_gone id rows :
  existsb (fun r => pk r =? id) (delete_row pk id rows) = false.
Proof.
  unfold delete_row. induction rows as [|x rows IH]; cbn; [reflexivity |].
  destruct (pk x =? id) eqn:E; cbn; [exact IH |]. now rewrite E.
Qed.

Lemma delete_row_others id rows x :
  In x rows -> pk x <> id -> In x (delete_row pk id rows).
Proof.
  unfold delete_row. intros Hin Hne. apply filter_In. split; [exact Hin |].
  destruct (pk x =? id) eqn:E; [apply Z.eqb_eq in E; congruence |].
  reflexivity.
Qed.

Lemma find_row_deleted id rows : find_row pk id (delete_row pk id rows) = None.
Proof.
  unfold find_row, delete_row.
  induction rows as [|x rows IH]; cbn; [reflexivity |].
  destruct (pk x =? id) eqn:E; cbn; [exact IH |]. now rewrite E.
Qed.

Lemma next_id_above rows x : In x rows -> pk x < next_id pk rows.
Proof.
  unfold next_id. induction rows as [|y rows IH]; cbn [fold_right In];
    [tauto |].
  intros [-> | Hin]; [lia |]. specialize (IH Hin). lia.
Qed.

Lemma find_row_updated id rows r r' :
  find_row pk id rows = Some r -> pk r' = pk r ->
  find_row pk (pk r') (replace_row pk r' rows) = Some r'.
Proof.
  intros Hf Hk. rewrite Hk, (find_row_key _ _ _ Hf).
  eapply find_row_replaced; [exact Hf |].
  rewrite Hk. apply (find_row_key _ _ _ Hf).
Qed.

Lemma find_row_erased id rows r :
  find_row pk id rows = Some r ->
  find_row pk id (delete_row pk (pk r) rows) = None.
Proof.
  intros Hf. rewrite (find_row_key _ _ _ Hf). apply find_row_deleted.
Qed.

Lemma find_row_new rows r :
  pk r = next_id pk rows ->
  find_row pk (pk r) (rows ++ [ r ])%list = Some r.
Proof.
  intros Hr. unfold find_row.
  assert (Hold : forall x, In x rows -> (pk x =? pk r) = false).
  { intros x Hx. apply Z.eqb_neq. pose proof (next_id_above rows x Hx). lia. }
  clear Hr. induction rows as [|x rows IH]; cbn.
  - now rewrite Z.eqb_refl.
  - rewrite (Hold x (or_introl eq_refl)). apply IH.
    intros y Hy. apply Hold. now right.
Qed.
End TableFacts.


(** The three ways [handle_send_message] can end. *)
Lemma send_message_cases env data db :
  let o := run (handle_send_message env data) db in
  o = {| out_result := Ok tt; out_db := db; out_session := db;
         out_trace := [ local_error env "Missing sender_id or content" ] |}
  \/
  o = {| out_result := Ok tt; out_db := db; out_session := db;
         out_trace := [ Rollback;
                        local_error env "Failed to send message" ] |}
  \/
  (commit_ok env = true /\
   exists sender content room,
     let msg := new_chat_row env db sender content room in
     let db' := set_chat_messages (chat_messages db ++ [msg])%list db in
     o = {| out_result := Ok tt; out_db := db'; out_session := db';
            out_trace :=
              [ Commit;
                Emit {| ev_name := "receive_message";
                        ev_payload := relayed_payload env db msg;
                        ev_target :=
                          room_target
                            (get_default data "room_name"
                               (JStr "general_chat")) |} ] |}).
Proof.
  cbv zeta.
  destruct (py_truthy (get data "sender_id")) eqn:Hs;
    [| left; apply send_message_rejected; left; exact Hs].
  destruct (py_truthy (get data "content")) eqn:Hc;
    [| left; apply send_message_rejected; right; exact Hc].
  destruct (col_int env (get data "sender_id")) as [sender|e1] eqn:E1;
    [| right; left; apply send_message_failed; auto;
       left; eauto].
  destruct (text_nn env (get data "content")) as [content|e2] eqn:E2;
    [| right; left; apply send_message_failed; auto;
       right; left; eauto].
  destruct (col_text env (get_default data "room_name" (JStr "general_chat")))
    as [room|e3] eqn:E3;
    [| right; left; apply send_message_failed; auto;
       right; right; left; eauto].
  destruct (commit_ok env) eqn:E4;
    [| right; left; apply send_message_failed; auto;
       right; right; right; exact E4].
  right; right. split; [reflexivity |].
  exists sender, content, room.
  apply send_message_stored; auto. repeat split; assumption.
Qed.

Lemma split_committed_emit e0 t1 e t2 :
  [ Commit; Emit e0 ] = (t1 ++ Emit e :: t2)%list ->
  t1 = [ Commit ] /\ e = e0.
Proof.
  destruct t1 as [|x [|y t1]]; cbn; intros H; inversion H; auto.
  destruct t1; discriminate.
Qed.

Lemma perform_commit_first env mu req db :
  commit_precedes_publish env db (run (perform env mu req) db).
Proof.
  destruct (perform_outcome env mu req db)
    as [(Ht & Hdb & _) | [(Hok & Ht & Hdb & _) | (Hok & Hdb & _ & p & Ht & _)]];
    unfold commit_precedes_publish, out_events; rewrite Ht; split.
  - intros [|x t1] e t2 H; discriminate.
  - intros _. split; [exact Hdb |]. split; [intros [] |]. intros e [].
  - intros [|x [|y t1]] e t2 H; discriminate.
  - congruence.
  - intros t1 e t2 H _. apply split_committed_emit in H.
    destruct H as [-> ->]. repeat split; auto.
    + now left.
    + cbn. intros [H | [H | []]]; discriminate.
  - congruence.
Qed.

Lemma send_message_commit_first env data db :
  commit_precedes_publish env db (run (handle_send_message env data) db).
Proof.
  destruct (send_message_cases env data db)
    as [-> | [-> | (Hok & s & c & r & ->)]];
    unfold commit_precedes_publish, out_events; cbn [out_trace out_db
      out_session]; split.
  - intros [|x [|y t1]] e t2 H; inversion H; subst.
    intros Hn. exfalso. apply Hn. split; reflexivity.
  - intros _. split; [reflexivity |]. split.
    + cbn. intros [H | []]. discriminate.
    + cbn. intros e [<- | []]. split; reflexivity.
  - intros [|x [|y [|z t1]]] e t2 H; inversion H; subst.
    intros Hn. exfalso. apply Hn. split; reflexivity.
  - intros _. split; [reflexivity |]. split.
    + cbn. intros [H | [H | []]]; discriminate.
    + cbn. intros e [<- | []]. split; reflexivity.
  - intros t1 e t2 H _. apply split_committed_emit in H.
    destruct H as [-> ->]. repeat split; auto.
    + now left.
    + cbn. intros [H | [H | []]]; discriminate.
  - congruence.
Qed.

Lemma iso_datetime_stamp env d j :
  iso_datetime env d = Ok j -> j = json_stamp (isoformat env) d.
Proof. destruct d; cbn; congruence. Qed.

Lemma iso_date_stamp env d j :
  iso_date env d = Ok j -> j = json_stamp (date_isoformat env) d.
Proof. destruct d; cbn; congruence. Qed.

Lemma iso_raises env d e :
  iso_datetime env d = Raise e -> e = AttributeError /\ d = None.
Proof. destruct d; cbn; [discriminate | intros H; inversion H; auto]. Qed.

Ltac stamps :=
  repeat match goal with
         | H : iso_datetime _ _ = Ok _ |- _ =>
             apply iso_datetime_stamp in H; subst
         | H : iso_date _ _ = Ok _ |- _ =>
             apply iso_date_stamp in H; subst
         end.

(** The row an event tells of is the one the handler has just written. *)
Ltac agreed :=
  stamps;
  cbv [agrees dict_get announcement_columns repair_columns booking_columns
       bill_columns payment_columns calendar_columns visitor_columns
       incident_columns message_columns
       String.eqb Ascii.eqb Bool.eqb];
  record_cbn; repeat split; reflexivity.

Ltac told_row :=
  match goal with
  | |- context [replace_row _ ?r _] =>
      exists r; (split; [reflexivity |]);
      split;
      [ record_cbn; found_rows;
        match goal with
        | H : find_row ?pk ?id ?rows = Some ?old |- _ =>
            exact (find_row_updated pk id rows old r H eq_refl)
        end
      | agreed ]
  | |- context [(?rows ++ [ ?r ])%list] =>
      exists r; (split; [reflexivity |]);
      split; [ apply (find_row_new _ rows r); reflexivity | agreed ]
  end.

Ltac untold_row :=
  eexists; (split; [reflexivity |]);
  record_cbn; found_rows;
  eapply find_row_erased; eassumption.

Lemma perform_durable env mu req db :
  publishes_what_is_stored env (run (perform env mu req) db).
Proof.
  unfold publishes_what_is_stored, out_events.
  destruct mu;
    cbv [perform manage_announcements handle_single_announcement
         announcement_payload manage_repair_requests handle_single_repair_request
         manage_booking_requests handle_single_booking_request
         manage_bills handle_single_bill manage_payments approve_payment
         manage_calendar_events manage_security_visitors
         manage_security_incidents];
    exec; repeat (exec_more; repeat exec_step);
    cbn [emitted]; intros ev Hev; try contradiction;
    destruct Hev as [<- | []]; intros _;
    cbv [durably_committed event_record assoc ev_name ev_payload
         String.eqb Ascii.eqb Bool.eqb holds_row lacks_row];
    first [ told_row | untold_row ].
Qed.

Lemma send_message_durable env data db :
  publishes_what_is_stored env (run (handle_send_message env data) db).
Proof.
  unfold publishes_what_is_stored, out_events.
  destruct (send_message_cases env data db)
    as [-> | [-> | (_ & sender & content & room & ->)]];
    cbn [out_trace out_db emitted local_error]; intros ev [<- | []] Hn.
  - exfalso. apply Hn. split; reflexivity.
  - exfalso. apply Hn. split; reflexivity.
  - cbv [durably_committed event_record assoc ev_name ev_payload
         String.eqb Ascii.eqb Bool.eqb holds_row].
    exists (new_chat_row env db sender content room).
    split; [reflexivity |]. split.
    + apply (find_row_new _ (chat_messages db)). reflexivity.
    + cbv [agrees dict_get message_columns relayed_payload new_chat_row
           String.eqb Ascii.eqb Bool.eqb].
      record_cbn. repeat split; reflexivity.
Qed.

(** C2: in every run of a mutation that has an event, and of
    [send_message], an event other than the error reply to the caller is
    emitted only after the commit has succeeded, with no rollback and no
    change left uncommitted; when the storage refuses the commit, the
    storage is unchanged and nothing but an error reply is emitted.  And
    every such event tells of a write that is in the durable storage the
    run leaves: the row of the id in the payload is there with the values
    the payload carries, or, for a deletion, there is no row of that id
    any more. *)
Theorem events_follow_commit :
  (forall env mu req db,
      let o := run (perform env mu req) db in
      commit_precedes_publish env db o /\ publishes_what_is_stored env o) /\
  (forall env data db,
      let o := run (handle_send_message env data) db in
      commit_precedes_publish env db o /\ publishes_what_is_stored env o).
Proof.
  split.
  - intros env mu req db. split;
      [apply perform_commit_first | apply perform_durable].
  - intros env data db. split;
      [apply send_message_commit_first | apply send_message_durable].
Qed.

Lemma events_follow_commit_witness :
  let refused := run (perform (test_env false 0) CreateRepairRequest
                        report_tap) db_ann in
  let stored := run (perform (test_env true 0) CreateRepairRequest
                       report_tap) db_ann in
  (commit_ok (test_env false 0) = false /\
   out_db refused = db_ann /\
   ~ In Commit (out_trace refused) /\
   forall e, In e (out_events refused) -> error_reply (test_env false 0) e)
  /\
  (exists e,
      out_trace stored = ([ Commit ] ++ Emit e :: [])%list /\
      ev_name e = "new_repair_request" /\
      ~ error_reply (test_env true 0) e /\
      (In Commit [ Commit ] /\ ~ In Rollback (out_trace stored) /\
       commit_ok (test_env true 0) = true /\
       out_db stored = out_session stored) /\
      holds_row RepairRequests.request_id (repair_requests (out_db stored))
        "request_id" (repair_columns (test_env true 0)) (ev_payload e)).
Proof.
  intros refused stored.
  pose proof (proj1 events_follow_commit (test_env false 0)
                CreateRepairRequest report_tap db_ann) as [Hr _].
  pose proof (proj1 events_follow_commit (test_env true 0)
                CreateRepairRequest report_tap db_ann) as [Hs Hd].
  split.
  - split; [reflexivity |]. exact (proj2 Hr eq_refl).
  - eexists. split; [reflexivity |]. split; [reflexivity |].
    match goal with
    | |- ~ error_reply _ ?e /\ _ =>
        assert (Hn : ~ error_reply (test_env true 0) e)
          by (intros [H _]; discriminate H);
        split; [exact Hn |];
        split;
        [ exact (proj1 Hs [ Commit ] e [] eq_refl Hn)
        | exact (Hd e (or_introl eq_refl) Hn) ]
    end.
Defined.

(** ** One event per committed mutation *)

Ltac unfold_mutations :=
  cbv [perform manage_announcements handle_single_announcement
       announcement_payload manage_repair_requests handle_single_repair_request
       manage_booking_requests handle_single_booking_request
       manage_bills handle_single_bill manage_payments approve_payment
       manage_calendar_events manage_security_visitors
       manage_security_incidents].

Ltac exec_mutation :=
  unfold_mutations; exec; repeat (exec_more; repeat exec_step).

(** A mutation answered 2xx has emitted its one event, addressed as the
    delivery table says. *)
Lemma answered_mutation_published env mu req db :
  let o := run (perform env mu req) db in
  succeeded o ->
  exists e a,
    out_events o = [ e ] /\
    ev_name e = event_of mu /\
    spec_delivery_table (ev_name e) = Some a /\
    ev_target e = audience_target a (affected_user db mu).
Proof.
  intros o Hs. subst o.
  destruct (perform_outcome env mu req db)
    as [(_ & _ & Hn) | [(_ & _ & _ & Hn) | (_ & _ & _ & p & Ht & _)]];
    try contradiction.
  unfold out_events. rewrite Ht. cbn [emitted ev_name ev_target].
  destruct mu; eexists; eexists; repeat split.
Qed.

(** The mutations whose event goes to a room are answered 2xx as soon as
    they have committed. *)
Lemma room_mutation_answered env mu req db :
  spec_delivery_table (event_of mu) <> Some Everyone ->
  let o := run (perform env mu req) db in
  In Commit (out_trace o) -> succeeded o.
Proof.
  intros Ha. cbv zeta.
  destruct mu; try (exfalso; apply Ha; reflexivity);
    exec_mutation; cbn [In];
    intros Hc; try tauto;
    try (destruct Hc as [Hc | []]; discriminate Hc);
    cbv [succeeded http_status out_result status]; lia.
Qed.

(** A server that refuses the broadcast keyword receives no event from
    the mutations that broadcast; those that have committed are answered
    500. *)
Lemma refused_broadcast env mu req db :
  takes_broadcast env = false ->
  spec_delivery_table (event_of mu) = Some Everyone ->
  let o := run (perform env mu req) db in
  out_events o = [] /\
  (In Commit (out_trace o) ->
   out_trace o = [ Commit ] /\ http_status o = 500 /\
   out_db o = out_session o).
Proof.
  intros Hno Ha. cbv zeta. unfold out_events.
  destruct mu; try discriminate Ha;
    unfold_mutations; monad_cbn; rewrite ?Hno;
    exec; repeat (exec_more; repeat exec_step);
    try congruence;
    (split; [reflexivity |]); cbn [In]; intros Hc; try tauto;
    repeat split;
    cbv [http_status out_result];
    repeat match goal with
           | H : iso_datetime _ _ = Raise ?e |- _ =>
               destruct (iso_raises _ _ _ H); subst e
           end;
    reflexivity.
Qed.

(** C5: a mutation whose event the table sends to a room ([admins], or
    [user_{id}] of the owner of the updated row) publishes that one event
    to that room whenever it has committed.  A mutation whose event the
    table broadcasts does so only on a Socket.IO server that takes the
    keyword [broadcast=True]: on a server that refuses it the mutation
    commits, publishes nothing and is answered 500.  In every case a
    mutation answered 2xx has published exactly one event, the one of its
    kind, addressed as the table says. *)
Theorem committed_mutation_publication env mu req db :
  let o := run (perform env mu req) db in
  In Commit (out_trace o) ->
  (spec_delivery_table (event_of mu) = Some Everyone ->
   takes_broadcast env = false ->
   out_events o = [] /\ out_trace o = [ Commit ] /\ http_status o = 500 /\
   out_db o = out_session o) /\
  (spec_delivery_table (event_of mu) <> Some Everyone -> succeeded o) /\
  (succeeded o ->
   exists e a,
     out_events o = [ e ] /\
     ev_name e = event_of mu /\
     spec_delivery_table (ev_name e) = Some a /\
     ev_target e = audience_target a (affected_user db mu) /\
     (a = Everyone -> takes_broadcast env = true)).
Proof.
  intros o Hc. subst o. split; [| split].
  - intros Ha Hno.
    destruct (refused_broadcast env mu req db Hno Ha) as [He Hrest].
    split; [exact He | exact (Hrest Hc)].
  - intros Ha. exact (room_mutation_answered env mu req db Ha Hc).
  - intros Hs.
    destruct (answered_mutation_published env mu req db Hs)
      as (e & a & He & Hn & Ha & Ht).
    exists e, a. repeat split; try assumption.
    intros ->. destruct (takes_broadcast env) eqn:Hb; [reflexivity |].
    rewrite Hn in Ha.
    destruct (refused_broadcast env mu req db Hb Ha) as [Hnone _].
    rewrite Hnone in He. discriminate He.
Qed.

Lemma committed_mutation_publication_witness :
  let lost := run (perform (test_env true 0) CreateAnnouncement announce)
                empty_db in
  let told := run (perform (test_env true 0) CreateRepairRequest report_tap)
                db_ann in
  (In Commit (out_trace lost) /\
   takes_broadcast (test_env true 0) = false /\
   List.length (announcements (out_db lost)) = 1%nat /\
   out_events lost = [] /\ out_trace lost = [ Commit ] /\
   http_status lost = 500 /\ out_db lost = out_session lost) /\
  (In Commit (out_trace told) /\ succeeded told /\
   exists e a,
     out_events told = [ e ] /\
     ev_name e = "new_repair_request" /\
     spec_delivery_table (ev_name e) = Some a /\
     ev_target e = audience_target a None /\
     ev_target e = Room (JStr "admins")).
Proof.
  intros lost told.
  assert (Hl : In Commit (out_trace lost)) by (left; reflexivity).
  assert (Ht : In Commit (out_trace told)) by (left; reflexivity).
  split.
  - split; [exact Hl |]. split; [reflexivity |]. split; [reflexivity |].
    exact (proj1 (committed_mutation_publication (test_env true 0)
                    CreateAnnouncement announce empty_db Hl)
             eq_refl eq_refl).
  - split; [exact Ht |].
    destruct (committed_mutation_publication (test_env true 0)
                CreateRepairRequest report_tap db_ann Ht)
      as (_ & Hroom & Hpub).
    assert (Hs : succeeded told) by (apply Hroom; discriminate).
    split; [exact Hs |].
    destruct (Hpub Hs) as (e & a & He & Hn & Ha & Htg & _).
    exists e, a. repeat split; try assumption.
    fold told in He. vm_compute in He. inversion He. reflexivity.
Defined.

(** ** Derived display names *)

Ltac exec_listing :=
  match goal with
  | |- context [if py_truthy ?v then _ else _] =>
      let E := fresh "E" in destruct (py_truthy v) eqn:E
  end; monad_cbn.

(** Decide the fallible steps of one loop body that has succeeded. *)
Ltac row_steps H :=
  repeat match type of H with
         | context [match ?r with Ok _ => _ | Raise _ => _ end] =>
             lazymatch r with
             | match _ with Ok _ => _ | Raise _ => _ end => fail
             | _ => destruct r; try discriminate H
             end
         end;
  inversion H; subst; clear H.



(** *** A missing user fails nothing *)










(** * Further properties of the handlers *)

Ltac exec_account :=
  match goal with
  | |- context [match find_username ?u ?l with _ => _ end] =>
      let E := fresh "E" in destruct (find_username u l) eqn:E
  | |- context [if (andb ?a ?b) then _ else _] =>
      let E := fresh "E" in destruct (andb a b) eqn:E
  | |- context [if or_default false ?o then _ else _] =>
      let E := fresh "E" in destruct (or_default false o) eqn:E
  | |- context [match Users.avatar ?u with _ => _ end] =>
      let E := fresh "E" in destruct (Users.avatar u) eqn:E
  | |- context [if String.eqb ?a ?b then _ else _] =>
      let E := fresh "E" in destruct (String.eqb a b) eqn:E
  | |- context [match find ?f ?l with _ => _ end] =>
      let E := fresh "E" in destruct (find f l) eqn:E
  | |- context [if ?b then _ else _] =>
      is_var b; destruct b
  end; monad_cbn.

Ltac exec_all :=
  monad_cbn;
  repeat first [exec_step | exec_more | exec_listing | exec_account].

Ltac unfold_handlers :=
  cbv [read single list_rows perform
       manage_announcements handle_single_announcement
       manage_repair_requests handle_single_repair_request
       manage_booking_requests handle_single_booking_request
       manage_bills handle_single_bill manage_payments approve_payment
       manage_calendar_events manage_documents delete_document
       manage_security_visitors manage_security_incidents
       manage_voting_results get_chat_messages
       handle_users handle_single_user login].

(** X1: a request that reads (any listing, the calendar, the votes, the
    user directory, one user) commits nothing, emits nothing and leaves the
    storage as it was, whatever it answers. *)
Theorem reading_changes_nothing env lib r req db :
  untouched db (run (read env lib r req) db).
Proof.
  unfold untouched.
  destruct r as [l | | | |id]; [destruct l | | | |];
    unfold_handlers; exec_all; repeat split.
Qed.

Lemma single_unknown env lib res req db id :
  allows res (req_method req) = true ->
  has_row db res id = false ->
  run (single env lib res req id) db
  = {| out_result := Raise NotFound; out_db := db; out_session := db;
       out_trace := [] |}.
Proof.
  intros Hm Hrow.
  destruct res; cbn [has_row] in Hrow; apply find_row_none in Hrow;
    destruct (req_method req) eqn:Em; try discriminate Hm;
    unfold_handlers; rewrite Em; monad_cbn; rewrite Hrow; reflexivity.
Qed.

(** X2: a request for a row that does not exist is answered 404 and
    changes nothing, for every method of every route that takes an id. *)
Theorem unknown_id_is_not_found env lib res req db id :
  allows res (req_method req) = true ->
  has_row db res id = false ->
  let o := run (single env lib res req id) db in
  http_status o = 404 /\ untouched db o.
Proof.
  intros Hm Hrow o. subst o.
  rewrite (single_unknown env lib res req db id Hm Hrow).
  unfold untouched. repeat split.
Qed.







(** X4: [approve_payment] accepts the statuses ['paid'] and ['rejected']
    only; any other value, of any type, is answered 400 and changes
    nothing. *)
Theorem approval_rejects_other_statuses env req db id :
  req_method req = PUT ->
  has_row db APayment id = true ->
  requested_status req <> JStr "paid" ->
  requested_status req <> JStr "rejected" ->
  let o := run (approve_payment env req id) db in
  http_status o = 400 /\ untouched db o.
Proof.
  unfold requested_status, untouched. intros Hm Hrow Hp Hr.
  cbn [has_row] in Hrow.
  destruct (find_row Payments.payment_id id (payments db)) as [p|] eqn:Ef.
  2:{ unfold find_row in Ef.
      apply existsb_exists in Hrow. destruct Hrow as (x & Hin & Hx).
      eapply find_none in Ef; [| exact Hin]. cbv beta in Ef. congruence. }
  unfold approve_payment. rewrite Hm. monad_cbn. rewrite Ef. monad_cbn.
  destruct (get_default (req_json req) "status" (JStr "paid")) as
    [ | | |s| | ]; try (repeat split; reflexivity).
  destruct (String.eqb_spec s "paid") as [-> | _]; [congruence |].
  destruct (String.eqb_spec s "rejected") as [-> | _]; [congruence |].
  repeat split.
Qed.

(** X5: an accepted approval sets the payment and, when the payment is
    linked to a bill, that bill to the same status, in one commit; every
    other payment is as it was.  After the commit the handler broadcasts
    [payment_approved]: on a Socket.IO server that takes the broadcast
    keyword the event goes out and the answer is 200; on one that refuses
    it nothing goes out and the answer is 500, with the approval
    stored. *)
Theorem approval_carries_to_the_bill env req db id p s :
  req_method req = PUT ->
  find_row Payments.payment_id id (payments db) = Some p ->
  requested_status req = JStr s ->
  s = "paid" \/ s = "rejected" ->
  commit_ok env = true ->
  let o := run (approve_payment env req id) db in
  find_row Payments.payment_id id (payments (out_db o))
  = Some (with_payment_status (Some s) p) /\
  (forall b,
      related_bill db (Payments.bill_id p) = Some b ->
      find_row Bills.bill_id (Bills.bill_id b) (bills (out_db o))
      = Some (set_bill_status (Some s) b)) /\
  (related_bill db (Payments.bill_id p) = None ->
   bills (out_db o) = bills db) /\
  (forall id',
      id' <> id ->
      find_row Payments.payment_id id' (payments (out_db o))
      = find_row Payments.payment_id id' (payments db)) /\
  (takes_broadcast env = true ->
   http_status o = 200 /\
   out_trace o
   = [ Commit;
       Emit {| ev_name := "payment_approved";
               ev_payload :=
                 [ ("payment_id", JInt (Payments.payment_id p));
                   ("user_id", json_opt_int (Payments.user_id p));
                   ("bill_id", json_opt_int (Payments.bill_id p));
                   ("status", JStr s) ];
               ev_target := Broadcast |} ]) /\
  (takes_broadcast env = false ->
   http_status o = 500 /\ out_trace o = [ Commit ]).
Proof.
  unfold requested_status. intros Hm Ef Hs Hcase Hok.
  pose proof (find_row_key _ _ _ _ Ef) as Hkey.
  assert (Hcheck : ((s =? "paid") || (s =? "rejected"))%string = true).
  { destruct Hcase as [-> | ->]; reflexivity. }
  unfold approve_payment. rewrite Hm. monad_cbn. rewrite Ef. monad_cbn.
  rewrite Hs, Hcheck. monad_cbn. cbn [col_text]. monad_cbn.
  assert (Hrel : forall l, related_bill (set_payments l db)
                             (Payments.bill_id p)
                           = related_bill db (Payments.bill_id p)).
  { intros l. destruct (Payments.bill_id p); reflexivity. }
  rewrite Hrel.
  destruct (related_bill db (Payments.bill_id p)) as [b|] eqn:Eb;
    monad_cbn; rewrite Hok; monad_cbn;
    destruct (takes_broadcast env); monad_cbn.
  all: split;
    [apply (find_row_replaced _ _ _ p); [exact Ef | exact Hkey] |].
  all: split;
    [ first
        [ discriminate
        | intros b' Hb'; inversion Hb'; subst b';
          destruct (Payments.bill_id p) as [bid|] eqn:Ebid;
          [| discriminate];
          cbn in Eb;
          pose proof (find_row_key _ _ _ _ Eb) as Hbk;
          apply (find_row_replaced _ _ _ b); [| reflexivity];
          rewrite Hbk; exact Eb ] |].
  all: split; [first [discriminate | reflexivity] |].
  all: split; [intros id' Hne; apply find_row_other; cbn; congruence |].
  all: split; intros Hb; try discriminate Hb; split; reflexivity.
Qed.

Ltac absurd_success H :=
  exfalso; revert H;
  first [ apply raised_not_succeeded
        | cbv [succeeded http_status out_result status]; lia ].

(** X7: once a DELETE has committed, whatever it is then answered, the
    storage it leaves has no row of that id in the table, and a request
    on the same URL that meets the storage in that state, with a method
    the route accepts, is answered 404 and changes nothing.  (Which id a
    later insert receives is the storage's business and not part of the
    statement.) *)
Theorem deleted_row_is_gone env lib res req db id :
  req_method req = DELETE ->
  In Commit (out_trace (run (single env lib res req id) db)) ->
  let db' := out_db (run (single env lib res req id) db) in
  has_row db' res id = false /\
  forall env' lib' req',
    allows res (req_method req') = true ->
    let o' := run (single env' lib' res req' id) db' in
    http_status o' = 404 /\ untouched db' o'.
Proof.
  intros Hm Hs.
  assert (Hgone :
            has_row (out_db (run (single env lib res req id) db)) res id
            = false).
  { revert Hs.
    destruct res; unfold_handlers; rewrite Hm; exec_all; intros Hs;
      try (now destruct Hs);
      found_rows;
      repeat match goal with
             | H : find_row _ _ _ = Some _ |- _ =>
                 apply find_row_key in H; rewrite H
             end;
      cbn [has_row detach_user set_users users]; record_cbn;
      apply deleted_row_gone. }
  cbv zeta. split; [exact Hgone |].
  intros env' lib' req' Hallow.
  rewrite (single_unknown env' lib' res req' _ id Hallow Hgone).
  unfold untouched. repeat split.
Qed.

(** X8: a repair request and a booking start as ['pending'] and a bill as
    ['unpaid'], whatever the body says; the new row is added after the
    rows that were there, under an id above all of theirs. *)
Theorem new_rows_start_unprocessed env req db :
  (succeeded (run (perform env CreateRepairRequest req) db) ->
   exists r,
     repair_requests (out_db (run (perform env CreateRepairRequest req) db))
     = (repair_requests db ++ [ r ])%list /\
     RepairRequests.status r = Some "pending" /\
     forall x, In x (repair_requests db) ->
               RepairRequests.request_id x < RepairRequests.request_id r) /\
  (succeeded (run (perform env CreateBookingRequest req) db) ->
   exists b,
     booking_requests
       (out_db (run (perform env CreateBookingRequest req) db))
     = (booking_requests db ++ [ b ])%list /\
     BookingRequests.status b = Some "pending" /\
     forall x, In x (booking_requests db) ->
               BookingRequests.booking_id x < BookingRequests.booking_id b) /\
  (succeeded (run (perform env CreateBill req) db) ->
   exists b,
     bills (out_db (run (perform env CreateBill req) db))
     = (bills db ++ [ b ])%list /\
     Bills.status b = Some "unpaid" /\
     forall x, In x (bills db) -> Bills.bill_id x < Bills.bill_id b).
Proof.
  repeat split; unfold_handlers; exec_all; intros Hs;
    try (absurd_success Hs);
    eexists; (split; [reflexivity |]); (split; [reflexivity |]);
    intros x Hx; cbn; apply next_id_above; exact Hx.
Qed.

Lemma updated_present {A} data k (adapt : json -> result A) old v a :
  dict_get data k = Some v ->
  updated data k adapt old = Ok a -> adapt v = Ok a.
Proof. unfold updated. now intros ->. Qed.

Lemma updated_absent {A} data k (adapt : json -> result A) old a :
  dict_get data k = None ->
  updated data k adapt old = Ok a -> a = old.
Proof. unfold updated. intros ->. congruence. Qed.

(** X6: a successful [PUT /repair-requests/<id>] keeps the id, the owner
    and the submission date of the request, sets the status the body
    gives (and keeps it when the body gives none), touches no other
    request, and tells the owner's room. *)
Theorem repair_update_keeps_owner env req db id r :
  req_method req = PUT ->
  find_row RepairRequests.request_id id (repair_requests db) = Some r ->
  let o := run (handle_single_repair_request env req id) db in
  succeeded o ->
  exists r',
    find_row RepairRequests.request_id id (repair_requests (out_db o))
    = Some r' /\
    RepairRequests.request_id r' = id /\
    RepairRequests.user_id r' = RepairRequests.user_id r /\
    RepairRequests.submitted_date r' = RepairRequests.submitted_date r /\
    (forall s, dict_get (req_json req) "status" = Some (JStr s) ->
               RepairRequests.status r' = Some s) /\
    (dict_get (req_json req) "status" = None ->
     RepairRequests.status r' = RepairRequests.status r) /\
    (forall x, In x (repair_requests db) ->
               RepairRequests.request_id x <> id ->
               In x (repair_requests (out_db o))) /\
    List.length (repair_requests (out_db o))
    = List.length (repair_requests db) /\
    map ev_target (out_events o)
    = [ Room (JStr ("user_" ++ str_opt_int (RepairRequests.user_id r))) ].
Proof.
  intros Hm Ef. pose proof (find_row_key _ _ _ _ Ef) as Hkey.
  unfold handle_single_repair_request. rewrite Hm. monad_cbn.
  rewrite Ef. exec_all; intros Hs; try (absurd_success Hs).
  eexists. split.
  { apply (find_row_replaced _ _ _ r); [exact Ef | exact Hkey]. }
  repeat split; try assumption.
  - intros s Hd.
    match goal with
    | H : updated _ "status" _ _ = Ok _ |- _ =>
        apply (updated_present _ _ _ _ _ _ Hd) in H; cbn in H;
        inversion H; reflexivity
    end.
  - intros Hd.
    match goal with
    | H : updated _ "status" _ _ = Ok _ |- _ =>
        apply (updated_absent _ _ _ _ _ Hd) in H; exact H
    end.
  - intros x Hin Hne. apply replace_row_others; [exact Hin |].
    cbn. congruence.
  - apply replace_row_length.
Qed.

(** ** Votes *)

Lemma opt_eqb_eq a b : opt_eqb a b = true <-> a = b.
Proof.
  destruct a, b; cbn; split; try congruence.
  - intros H. apply Z.eqb_eq in H. congruence.
  - intros H. inversion H. apply Z.eqb_refl.
Qed.




Lemma find_snoc_new {A} (f : A -> bool) l x :
  f x = true -> exists y, find f (l ++ [ x ]) = Some y.
Proof.
  intros Hx. induction l as [|a l IH]; cbn.
  - rewrite Hx. eauto.
  - destruct (f a); eauto.
Qed.

(** X10: a vote that was recorded cannot be repeated: the same voter
    voting again in the same poll, for any option, is answered 409 and the
    storage keeps the first vote only. *)
Theorem second_vote_is_refused env req req' db :
  req_method req = POST -> req_method req' = POST ->
  dict_get (req_json req') "poll_id" = dict_get (req_json req) "poll_id" ->
  dict_get (req_json req') "user_id" = dict_get (req_json req) "user_id" ->
  let first := run (manage_voting_results env req) db in
  succeeded first ->
  let second := run (manage_voting_results env req') (out_db first) in
  http_status second = 409 /\ out_db second = out_db first /\
  out_trace second = [].
Proof.
  intros Hm Hm' Hp Hu. cbv zeta.
  unfold manage_voting_results. rewrite Hm, Hm'. unfold getitem.
  rewrite Hp, Hu.
  destruct (dict_get (req_json req) "poll_id") as [pv|]; monad_cbn;
    [| intros Hs; absurd_success Hs].
  destruct (dict_get (req_json req) "user_id") as [uv|]; monad_cbn;
    [| intros Hs; absurd_success Hs].
  destruct (col_int env pv) as [poll|] eqn:Epoll; monad_cbn;
    [| intros Hs; absurd_success Hs].
  destruct (col_int env uv) as [user|] eqn:Euser; monad_cbn;
    [| intros Hs; absurd_success Hs].
  destruct (find _ (voting_results db)) eqn:Efind; monad_cbn;
    [intros Hs; absurd_success Hs |].
  destruct (dict_get (req_json req) "option_id") as [ov|]; monad_cbn;
    [| intros Hs; absurd_success Hs].
  destruct (col_int env ov) as [option|] eqn:Eopt; monad_cbn;
    [| intros Hs; absurd_success Hs].
  destruct (commit_ok env) eqn:Eok; monad_cbn;
    [| intros Hs; absurd_success Hs].
  intros _.
  match goal with
  | |- context [find ?f (?l ++ [ ?x ])%list] =>
      destruct (find_snoc_new f l x) as [y Hy];
      [cbn; now rewrite !opt_eqb_refl | rewrite Hy]
  end.
  repeat split.
Qed.

(** ** Listings *)

Lemma traverse_project {A B C} (f : A -> result B) (h : B -> C) (h' : A -> C)
    (Q : A -> Prop) xs ys :
  (forall x y, f x = Ok y -> h y = h' x /\ Q x) ->
  traverse f xs = Ok ys ->
  map h ys = map h' xs /\ Forall Q xs.
Proof.
  intros Hf. revert ys. induction xs as [|x xs IH]; cbn; intros ys H.
  - inversion H. auto.
  - destruct (f x) as [y|] eqn:Ex; cbn in H; [| discriminate].
    destruct (traverse f xs) as [ys'|] eqn:Exs; cbn in H; [| discriminate].
    inversion H; subst. destruct (Hf _ _ Ex) as [Hh Hq].
    destruct (IH _ eq_refl) as [Hm Hall]. cbn. rewrite Hh, Hm. auto.
Qed.

Lemma map_eq_Forall {A B C} (h : B -> C) (h' : A -> C) (c : C) xs ys :
  map h ys = map h' xs ->
  Forall (fun x => h' x = c) xs -> Forall (fun y => h y = c) ys.
Proof.
  revert xs. induction ys as [|y ys IH]; intros [|x xs] Hm Hall;
    cbn in Hm; try discriminate; constructor.
  - inversion Hm. inversion Hall; subst. congruence.
  - inversion Hm. inversion Hall; subst. eauto.
Qed.

(** X11: [GET /payments?user_id=u] lists the payments of user [u], all of
    them and no other, in storage order; without the argument (or with an
    empty one) it lists every payment. *)
Theorem payments_are_filtered_by_user env req db entries :
  http_body (run (manage_payments env (with_method GET req)) db)
  = Some (JList entries) ->
  let wanted := get (req_args req) "user_id" in
  (py_truthy wanted = false ->
   map (fun e => json_field e "payment_id") entries
   = map (fun p => Some (JInt (Payments.payment_id p))) (payments db)) /\
  (py_truthy wanted = true ->
   exists u,
     col_int env wanted = Ok u /\
     map (fun e => json_field e "payment_id") entries
     = map (fun p => Some (JInt (Payments.payment_id p)))
         (filter (fun p => opt_eqb (Payments.user_id p) u) (payments db)) /\
     Forall (fun e => json_field e "user_id" = Some (json_opt_int u))
       entries).
Proof.
  unfold manage_payments. exec_all; cbv [http_body out_result body];
    try discriminate; intros Hb; inversion Hb; subst; clear Hb;
    match goal with
    | H : traverse ?f ?rows = Ok _ |- _ =>
        assert (Hid : forall p y,
                   f p = Ok y ->
                   json_field y "payment_id"
                   = Some (JInt (Payments.payment_id p)) /\ True)
          by (intros p y Hy; cbv beta in Hy; row_steps Hy;
              split; reflexivity);
        assert (Hus : forall p y,
                   f p = Ok y ->
                   json_field y "user_id"
                   = Some (json_opt_int (Payments.user_id p)) /\ True)
          by (intros p y Hy; cbv beta in Hy; row_steps Hy;
              split; reflexivity);
        destruct (traverse_project _ _ _ _ _ _ Hid H) as [Hids _];
        destruct (traverse_project _ _ _ _ _ _ Hus H) as [Husers _]
    end;
    (split; intros Hw; try discriminate Hw; try exact Hids).
  eexists. split; [reflexivity |]. split; [exact Hids |].
  eapply map_eq_Forall; [exact Husers |].
  apply Forall_forall. intros p Hp. apply filter_In in Hp.
  destruct Hp as [_ Hp]. apply opt_eqb_eq in Hp. now rewrite Hp.
Qed.

(** X12: [GET /announcements] lists every announcement, newest first: when
    one entry precedes another, its publication date is not earlier. *)
Theorem announcements_are_newest_first env req db entries :
  http_body (run (manage_announcements env (with_method GET req)) db)
  = Some (JList entries) ->
  exists rows,
    Permutation rows (announcements db) /\
    map (fun e => json_field e "announcement_id") entries
    = map (fun a => Some (JInt (Announcements.announcement_id a))) rows /\
    forall i j a b,
      (i < j)%nat ->
      nth_error rows i = Some a -> nth_error rows j = Some b ->
      exists ta tb,
        Announcements.published_date a = Some ta /\
        Announcements.published_date b = Some tb /\ tb <= ta.
Proof.
  unfold manage_announcements, announcement_payload.
  exec_all; cbv [http_body out_result body]; try discriminate.
  intros Hb. inversion Hb; subst; clear Hb.
  match goal with
  | H : traverse ?f ?rows = Ok _ |- _ =>
      assert (Hrow : forall a y,
                 f a = Ok y ->
                 json_field y "announcement_id"
                 = Some (JInt (Announcements.announcement_id a)) /\
                 Announcements.published_date a <> None);
      [| destruct (traverse_project _ _ _ _ _ _ Hrow H) as [Hids Hdated];
         exists rows ]
  end.
  { intros a y Hy. cbv beta in Hy. unfold iso_datetime in Hy.
    destruct (Announcements.published_date a); cbn in Hy;
      [| discriminate].
    inversion Hy. split; [reflexivity | discriminate]. }
  split; [apply order_by_perm |]. split; [exact Hids |].
  intros i j a b Hij Ha Hb.
  pose proof (StronglySorted_nth_error _ _
                (order_by_sorted (desc Announcements.published_date)
                   (fun x y => opt_leb_total _ _)
                   (fun x y z H1 H2 => opt_leb_trans _ _ _ H2 H1)
                   (announcements db))
                i j a b Hij Ha Hb) as Hle.
  rewrite Forall_forall in Hdated.
  pose proof (Hdated _ (nth_error_In _ _ Ha)) as Da.
  pose proof (Hdated _ (nth_error_In _ _ Hb)) as Db.
  unfold desc in Hle.
  destruct (Announcements.published_date a) as [ta|]; [| congruence].
  destruct (Announcements.published_date b) as [tb|]; [| congruence].
  exists ta, tb. cbn in Hle. apply Z.leb_le in Hle. auto.
Qed.

(** ** The colours of a tag *)

Lemma tag_info_palette o : tag_info (json_opt_str o) = Ok (palette o).
Proof. destruct o; reflexivity. Qed.

Lemma Forall_replace_row {R} (pk : R -> Z) (P : R -> Prop) r' rows :
  Forall P rows -> P r' -> Forall P (replace_row pk r' rows).
Proof.
  intros Hall Hr. unfold replace_row. apply Forall_forall.
  intros x Hx. apply in_map_iff in Hx. destruct Hx as (y & <- & Hy).
  destruct (pk y =? pk r'); [exact Hr |].
  rewrite Forall_forall in Hall. auto.
Qed.

Lemma Forall_delete_row {R} (pk : R -> Z) (P : R -> Prop) id rows :
  Forall P rows -> Forall P (delete_row pk id rows).
Proof.
  intros Hall. unfold delete_row. apply Forall_forall.
  intros x Hx. apply filter_In in Hx.
  rewrite Forall_forall in Hall. apply Hall. tauto.
Qed.

Lemma text_tag_cases data :
  tag_is_text data ->
  exists o,
    (dict_get data "tag" = None \/ dict_get data "tag" = Some (json_opt_str o))
    /\ get data "tag" = json_opt_str o.
Proof.
  unfold tag_is_text, get, get_default.
  destruct (dict_get data "tag") as [[ | | |s| | ]|]; try contradiction;
    intros _.
  - exists None. auto.
  - exists (Some s). auto.
  - exists None. auto.
Qed.

(** X13: the stored colours of an announcement are those of its stored
    tag in the palette.  Every mutation whose body gives the tag as text
    (or gives none) keeps this true of every announcement. *)
Theorem colours_follow_the_tag env mu req db :
  tag_is_text (req_json req) ->
  Forall well_coloured (announcements db) ->
  Forall well_coloured
    (announcements (out_db (run (perform env mu req) db))).
Proof.
  intros Ht Hall.
  destruct (text_tag_cases _ Ht) as (o & Hget & Hg).
  destruct mu;
    try (unfold_handlers; exec_all; record_cbn; exact Hall).
  - (* a new announcement *)
    unfold perform, manage_announcements, announcement_payload.
    monad_cbn. rewrite Hg, tag_info_palette. cbn [col_text json_opt_str].
    assert (Hc : col_text env (json_opt_str o) = Ok o)
      by (destruct o; reflexivity).
    rewrite Hc. exec_all; try exact Hall.
    all: apply Forall_app; split; [exact Hall |];
      repeat constructor.
  - (* an updated announcement *)
    unfold perform, handle_single_announcement, announcement_payload.
    monad_cbn.
    destruct (of_option NotFound
                (find_row Announcements.announcement_id id
                   (announcements db))) as [a|] eqn:Ea;
      monad_cbn; [| exact Hall].
    assert (Hrow : well_coloured a).
    { apply of_option_ok in Ea. unfold find_row in Ea.
      apply find_some in Ea. rewrite Forall_forall in Hall.
      apply Hall. tauto. }
    assert (Hnew :
              exists o',
                get_default (req_json req) "tag"
                  (json_opt_str (Announcements.tag a)) = json_opt_str o' /\
                updated (req_json req) "tag" (col_text env)
                  (Announcements.tag a) = Ok o').
    { unfold get_default, updated.
      destruct Hget as [-> | ->].
      - exists (Announcements.tag a). auto.
      - exists o. split; [reflexivity |]. destruct o; reflexivity. }
    destruct Hnew as (o' & Hd & Hu). rewrite Hd, Hu, tag_info_palette.
    exec_all; try exact Hall.
    all: apply Forall_replace_row; [exact Hall |]; split; reflexivity.
  - (* a deleted announcement *)
    unfold perform, handle_single_announcement.
    exec_all; try exact Hall.
    all: apply Forall_delete_row; exact Hall.
Qed.

(** ** Chat: what is relayed, what is stored and what is read back *)


(** X15: a [send_message] that is stored carries the room of its row in
    its payload.  A room given as a non-empty string is the room of the
    row and the one room the event goes to; a room given as null leaves
    the row in the column default ['general'] and the event to every
    connection. *)
Theorem message_room_and_delivery env data db sender content room :
  py_truthy (get data "sender_id") = true ->
  py_truthy (get data "content") = true ->
  accepted env data sender content room ->
  commit_ok env = true ->
  let o := run (handle_send_message env data) db in
  let requested := get_default data "room_name" (JStr "general_chat") in
  exists msg payload to,
    chat_messages (out_db o) = (chat_messages db ++ [msg])%list /\
    out_events o
    = [ {| ev_name := "receive_message"; ev_payload := payload;
           ev_target := to |} ] /\
    dict_get payload "room_name"
    = Some (json_opt_str (ChatMessages.room_name msg)) /\
    (forall r, requested = JStr r -> r <> "" ->
               ChatMessages.room_name msg = Some r /\ to = Room (JStr r)) /\
    (requested = JNull ->
     ChatMessages.room_name msg = Some "general" /\ to = Broadcast).
Proof.
  intros Hs Hc Hacc Hok o requested. subst o.
  rewrite (send_message_stored env data db _ _ _ Hs Hc Hacc Hok).
  destruct Hacc as (_ & _ & Hroom). fold requested in Hroom |- *.
  eexists. eexists. eexists.
  split; [reflexivity |]. split; [reflexivity |].
  split; [reflexivity |]. split.
  - intros r Hr Hne. rewrite Hr in Hroom |- *. cbn in Hroom.
    inversion Hroom. split; [reflexivity |].
    destruct r; [contradiction | reflexivity].
  - intros Hr. rewrite Hr in Hroom |- *. cbn in Hroom.
    inversion Hroom. split; reflexivity.
Qed.

(** ** Room membership *)

(** X16: for a caller whose connection id is not empty (Socket.IO gives
    every connection one), a membership handler changes the rooms of the
    calling connection only and answers to it alone, with one [status]
    event for each change and at most one change.  A room name or user id
    that is absent or falsy changes nothing and answers nothing; a truthy
    one makes exactly one change unless the handler fails; and a handler
    that fails has changed and answered nothing. *)
Theorem membership_concerns_the_caller env lib c :
  request_sid env <> "" ->
  let m := on_socket env lib c in
  Forall (fun ch => change_sid ch = request_sid env) (changes m) /\
  Forall (status_for (request_sid env)) (replies m) /\
  List.length (replies m) = List.length (changes m) /\
  (List.length (changes m) <= 1)%nat /\
  (failed m = true -> changes m = [] /\ replies m = []) /\
  (py_truthy (named c) = false -> m = unchanged) /\
  (py_truthy (named c) = true -> failed m = false ->
   List.length (changes m) = 1%nat).
Proof.
  intros Hsid.
  assert (Hto : room_target (JStr (request_sid env))
                = Room (JStr (request_sid env))).
  { unfold room_target. cbn.
    destruct (request_sid env); [contradiction | reflexivity]. }
  destruct c as [| |data|data|data]; cbn [on_socket named];
    unfold handle_connect, handle_disconnect, handle_join_chat_room,
      handle_leave_chat_room, handle_join_user_room, unchanged, status_for,
      status_reply;
    rewrite ?Hto;
    repeat match goal with
           | |- context [if ?b then _ else _] => destruct b
           end;
    cbn; repeat split; auto; try discriminate;
    repeat constructor.
Qed.

(** X17: the room a client enters with [join_user_room] and its user id is
    the room to which the status of its repair and booking requests is
    published. *)
Theorem status_updates_reach_the_owner env lib mu req db n :
  status_update mu = true ->
  affected_user db mu = Some n ->
  n <> 0 ->
  succeeded (run (perform env mu req) db) ->
  exists room,
    changes (handle_join_user_room env lib [ ("user_id", JInt n) ])
    = [ Enter (request_sid env) room ] /\
    map ev_target (out_events (run (perform env mu req) db)) = [ Room room ].
Proof.
  intros Hmu Hown Hn Hok.
  exists (JStr ("user_" ++ str_int n)). split.
  - unfold handle_join_user_room. cbn.
    destruct (n =? 0) eqn:E; [apply Z.eqb_eq in E; contradiction |].
    reflexivity.
  - destruct (perform_outcome env mu req db)
      as [(_ & _ & Hno) | [(_ & _ & _ & Hno) | (_ & _ & _ & p & Ht & _)]];
      try contradiction.
    unfold out_events. rewrite Ht, Hown.
    destruct mu; try discriminate; reflexivity.
Qed.

(** ** Password hashes and the answers to reading requests *)

Lemma find_row_rehashed f id rows :
  find_row Users.user_id id (map (fun u => with_hash (f u) u) rows)
  = option_map (fun u => with_hash (f u) u)
      (find_row Users.user_id id rows).
Proof.
  unfold find_row. induction rows as [|u rows IH]; cbn; [reflexivity |].
  destruct (Users.user_id u =? id); [reflexivity | exact IH].
Qed.

Lemma related_user_rehashed f db k :
  related_user (rehashed f db) k
  = option_map (fun u => with_hash (f u) u) (related_user db k).
Proof.
  destruct k as [id|]; cbn; [apply find_row_rehashed | reflexivity].
Qed.


Lemma traverse_ext {A B} (f g : A -> result B) l :
  (forall x, f x = g x) -> traverse f l = traverse g l.
Proof.
  intros H. induction l as [|x l IH]; cbn; [reflexivity |].
  now rewrite H, IH.
Qed.

Lemma display_name_rehashed f db k p :
  display_name (related_user (rehashed f db) k) p
  = display_name (related_user db k) p.
Proof.
  rewrite related_user_rehashed. now destruct (related_user db k).
Qed.

Lemma sender_name_rehashed f db k :
  sender_name_of (related_user (rehashed f db) k)
  = sender_name_of (related_user db k).
Proof.
  rewrite related_user_rehashed. now destruct (related_user db k).
Qed.

Lemma sender_avatar_rehashed f db k n :
  sender_avatar_of (related_user (rehashed f db) k) n
  = sender_avatar_of (related_user db k) n.
Proof.
  rewrite related_user_rehashed. now destruct (related_user db k).
Qed.


Lemma related_bill_rehashed f db k :
  related_bill (rehashed f db) k = related_bill db k.
Proof. destruct k; reflexivity. Qed.

Lemma message_payload_rehashed env f db msg k :
  message_payload env msg (related_user (rehashed f db) k)
  = message_payload env msg (related_user db k).
Proof.
  unfold message_payload.
  now rewrite sender_name_rehashed, sender_avatar_rehashed.
Qed.

Ltac forget_hashes :=
  repeat match goal with
         | |- context [traverse ?F ?l] =>
             match F with
             | context [rehashed] =>
                 erewrite (traverse_ext F)
                   by (intros ?;
                       rewrite ?display_name_rehashed, ?sender_name_rehashed,
                         ?sender_avatar_rehashed, ?related_bill_rehashed,
                         ?message_payload_rehashed;
                       reflexivity)
             end
         end.


Ltac same_tables :=
  repeat match goal with
         | |- context [?tbl (rehashed ?f ?db)] =>
             lazymatch tbl with
             | users => fail
             | related_user => fail
             | related_bill => fail
             | _ => progress change (tbl (rehashed f db)) with (tbl db)
             end
         end.

Ltac hash_steps :=
  repeat first
    [ progress same_tables
    | progress forget_hashes
    | match goal with
      | |- context [if ?b then _ else _] => destruct b
      | |- context [match col_int ?e ?v with _ => _ end] =>
          destruct (col_int e v)
      | |- context [match traverse ?F ?l with _ => _ end] =>
          lazymatch F with
          | context [rehashed] => fail
          | _ => lazymatch l with
                 | context [rehashed] => fail
                 | _ => destruct (traverse F l)
                 end
          end
      end; monad_cbn ].


(** X18: no answer to a reading request depends on a password hash: with
    every stored hash replaced, each listing, the calendar, the votes, the
    user directory and the entry of one user answer the same. *)
Theorem readings_hide_password_hashes env lib r req db f :
  out_result (run (read env lib r req) (rehashed f db))
  = out_result (run (read env lib r req) db).
Proof.
  destruct r as [l | | | |id]; [destruct l | | | |];
    unfold_handlers; monad_cbn; hash_steps; try reflexivity.
  - change (users (rehashed f db))
      with (map (fun u => with_hash (f u) u) (users db)).
    rewrite map_map. reflexivity.
  - change (users (rehashed f db))
      with (map (fun u => with_hash (f u) u) (users db)).
    rewrite find_row_rehashed.
    destruct (find_row Users.user_id id (users db)); reflexivity.
Qed.

(** ** Accounts *)

(** What a registration that is answered 201 has read and stored. *)
Lemma registered env lib req db :
  http_status (run (handle_users env lib (with_method POST req)) db) = 201 ->
  exists uname name pw u,
    let data := req_json req in
    dict_get data "username" = Some uname /\
    col_text env uname = Ok (Some (Users.username u)) /\
    find_username (Some (Users.username u)) (users db) = None /\
    dict_get data "name" = Some name /\
    text_nn env name = Ok (Users.name u) /\
    (exists i, initial lib name = Ok i /\
               col_text env (get_default data "avatar" i)
               = Ok (Users.avatar u)) /\
    dict_get data "password" = Some (JStr pw) /\
    hashpw lib pw = Some (Users.password_hash u) /\
    (exists role,
        col_text env (get_default data "role" (JStr "resident")) = Ok role /\
        Users.role u = or_default "resident" role) /\
    (exists st,
        col_text env (get_default data "status" (JStr "pending")) = Ok st /\
        Users.status u = Some (or_default "pending" st)) /\
    Users.user_id u = next_id Users.user_id (users db) /\
    commit_ok env = true /\
    run (handle_users env lib (with_method POST req)) db
    = {| out_result :=
           Ok {| body :=
                   JObj [ ("message", JStr "User registered successfully");
                          ("user_id", JInt (Users.user_id u)) ];
                 status := 201 |};
         out_db := set_users (users db ++ [ u ])%list db;
         out_session := set_users (users db ++ [ u ])%list db;
         out_trace := [ Commit ] |}.
Proof.
  remember (run (handle_users env lib (with_method POST req)) db) as o eqn:Ho.
  intros H.
  match goal with |- ?G => set (P := G) end.
  rewrite Ho in H. revert Ho H. unfold handle_users. exec_all; intros Ho;
    try (cbv [http_status out_result status]; intros H; exfalso;
         first [ discriminate H
               | match type of H with
                 | context [match ?e with _ => _ end] =>
                     destruct e; discriminate H
                 end ]).
  intros _. subst P. cbv zeta.
  unfold getitem in *. found_rows. subst.
  destruct a3; try discriminate. cbn [set_password] in *. found_rows.
  eexists. eexists. eexists.
  eexists {| Users.user_id := _ |}. cbn [Users.username Users.name
    Users.avatar Users.password_hash Users.role Users.status Users.user_id].
  repeat match goal with
         | |- _ /\ _ => split
         | |- exists _, _ => eexists
         end; try eassumption; try reflexivity.
Qed.

Lemma find_username_new s l u :
  find_username (Some s) l = None -> Users.username u = s ->
  find_username (Some s) (l ++ [ u ])%list = Some u.
Proof.
  unfold find_username. intros Hnone Hu.
  induction l as [|x l IH]; cbn in *.
  - rewrite Hu, String.eqb_refl. reflexivity.
  - destruct (Users.username x =? s)%string; [discriminate | auto].
Qed.

Lemma get_present data k v : dict_get data k = Some v -> get data k = v.
Proof. unfold get, get_default. now intros ->. Qed.

Lemma login_pending env lib req db u st :
  verified env lib req db u ->
  Users.status u = Some st ->
  st = "pending" \/ st = "suspended" ->
  http_status (run (login env lib (with_method POST req)) db) = 403.
Proof.
  intros (s & pw & Hs & Hu & Hpw & Hck) Hst Hor.
  unfold login. monad_cbn. rewrite Hs. monad_cbn. rewrite Hu, Hpw.
  cbn [check_password]. rewrite Hck, Hst. monad_cbn.
  destruct Hor as [-> | ->]; reflexivity.
Qed.

Lemma login_welcome env lib req db u :
  verified env lib req db u ->
  Users.status u <> Some "pending" ->
  Users.status u <> Some "suspended" ->
  (or_default "" (Users.avatar u) = "" -> Users.name u <> "") ->
  exists a,
    run (login env lib (with_method POST req)) db
    = {| out_result :=
           Ok {| body :=
                   JObj [ ("message", JStr "Login successful");
                          ("user_id", JInt (Users.user_id u));
                          ("username", JStr (Users.username u));
                          ("name", JStr (Users.name u));
                          ("role", JStr (Users.role u));
                          ("avatar", JStr a) ];
                 status := 200 |};
         out_db := db; out_session := db; out_trace := [] |}.
Proof.
  intros (s & pw & Hs & Hu & Hpw & Hck) Hpend Hsusp Hname.
  unfold login. monad_cbn. rewrite Hs. monad_cbn. rewrite Hu, Hpw.
  cbn [check_password]. rewrite Hck. monad_cbn.
  destruct (Users.status u) as [st|]; cbn [option_map or_default].
  - destruct (st =? "pending")%string eqn:E1;
      [apply String.eqb_eq in E1; congruence |].
    destruct (st =? "suspended")%string eqn:E2;
      [apply String.eqb_eq in E2; congruence |].
    unfold name_initial.
    destruct (Users.avatar u) as [a|]; cbn [or_default] in Hname.
    + destruct (a =? "")%string eqn:Ea.
      * apply String.eqb_eq in Ea.
        destruct (Users.name u =? "")%string eqn:En;
          [apply String.eqb_eq in En; tauto |].
        monad_cbn. eauto.
      * monad_cbn. eauto.
    + destruct (Users.name u =? "")%string eqn:En;
        [apply String.eqb_eq in En; tauto |].
      monad_cbn. eauto.
  - unfold name_initial.
    destruct (Users.avatar u) as [a|]; cbn [or_default] in Hname.
    + destruct (a =? "")%string eqn:Ea.
      * apply String.eqb_eq in Ea.
        destruct (Users.name u =? "")%string eqn:En;
          [apply String.eqb_eq in En; tauto |].
        monad_cbn. eauto.
      * monad_cbn. eauto.
    + destruct (Users.name u =? "")%string eqn:En;
        [apply String.eqb_eq in En; tauto |].
      monad_cbn. eauto.
Qed.

(** The user a registration has added is the one [login] finds for the
    same username and password, when the library verifies what it
    hashed. *)
Lemma registered_is_verified env lib req req' db :
  (forall s h, hashpw lib s = Some h -> checkpw lib s h = Some true) ->
  http_status (run (handle_users env lib (with_method POST req)) db) = 201 ->
  get (req_json req') "username" = get (req_json req) "username" ->
  get (req_json req') "password" = get (req_json req) "password" ->
  exists u,
    out_db (run (handle_users env lib (with_method POST req)) db)
    = set_users (users db ++ [ u ])%list db /\
    verified env lib req'
      (out_db (run (handle_users env lib (with_method POST req)) db)) u /\
    (exists st,
        col_text env (get_default (req_json req) "status" (JStr "pending"))
        = Ok st /\
        Users.status u = Some (or_default "pending" st)) /\
    (exists role,
        col_text env (get_default (req_json req) "role" (JStr "resident"))
        = Ok role /\
        Users.role u = or_default "resident" role) /\
    (exists name i,
        dict_get (req_json req) "name" = Some name /\
        initial lib name = Ok i /\
        text_nn env name = Ok (Users.name u)).
Proof.
  intros Hlib H Hname Hpass.
  destruct (registered env lib req db H)
    as (uname & name & pw & u & Hu & Hcol & Hnew & Hn & Htext & (i & Hi & _)
        & Hpw & Hhash & Hrole & Hst & _ & _ & Ho).
  cbv zeta in *. exists u. rewrite Ho. cbn [out_db].
  split; [reflexivity |]. split.
  - exists (Users.username u), pw.
    rewrite Hname, Hpass, (get_present _ _ _ Hu), (get_present _ _ _ Hpw).
    repeat split; auto.
    cbv [set_users]. record_cbn. now apply find_username_new.
  - split; [exact Hst |]. split; [exact Hrole |]. eauto.
Qed.

(** X19: a registration that is answered 201 has added one user and
    nothing else, under an id above every id in use and a username nobody
    had; it stores the hash of the password it was given, was not given
    the empty string as a name, and publishes nothing. *)
Theorem registration_adds_one_user env lib req db :
  let o := run (handle_users env lib (with_method POST req)) db in
  http_status o = 201 ->
  exists u pw,
    out_db o = set_users (users db ++ [ u ])%list db /\
    (forall v, In v (users db) ->
               Users.user_id v < Users.user_id u /\
               Users.username v <> Users.username u) /\
    dict_get (req_json req) "password" = Some (JStr pw) /\
    hashpw lib pw = Some (Users.password_hash u) /\
    dict_get (req_json req) "name" <> Some (JStr "") /\
    out_trace o = [ Commit ].
Proof.
  intros o H. subst o.
  destruct (registered env lib req db H)
    as (uname & name & pw & u & Hu & Hcol & Hnew & Hn & Htext & (i & Hi & _)
        & Hpw & Hhash & _ & _ & Hid & _ & Ho).
  cbv zeta in *. exists u, pw. rewrite Ho. cbn [out_db out_trace].
  split; [reflexivity |]. split; [| repeat split; auto].
  - intros v Hv. split.
    + rewrite Hid. apply next_id_above. exact Hv.
    + intros Heq. unfold find_username in Hnew.
      eapply find_none in Hnew; [| exact Hv]. cbv beta in Hnew.
      rewrite Heq, String.eqb_refl in Hnew. discriminate.
  - rewrite Hn. intros Heq. inversion Heq; subst. cbn in Hi. discriminate.
Qed.

(** X20: an account registered without a status cannot log in: the login
    with the same username and password is answered 403. *)
Theorem new_account_awaits_approval env lib req req' db :
  (forall s h, hashpw lib s = Some h -> checkpw lib s h = Some true) ->
  dict_get (req_json req) "status" = None ->
  http_status (run (handle_users env lib (with_method POST req)) db) = 201 ->
  get (req_json req') "username" = get (req_json req) "username" ->
  get (req_json req') "password" = get (req_json req) "password" ->
  let db' := out_db (run (handle_users env lib (with_method POST req)) db) in
  http_status (run (login env lib (with_method POST req')) db') = 403.
Proof.
  intros Hlib Hnone H Hname Hpass db'.
  destruct (registered_is_verified env lib req req' db Hlib H Hname Hpass)
    as (u & _ & Hver & (st & Hcol & Hst) & _).
  unfold get_default in Hcol. rewrite Hnone in Hcol. cbn in Hcol.
  inversion Hcol; subst st.
  eapply login_pending; [exact Hver | exact Hst | left; reflexivity].
Qed.

(** X21: the status and the role of a new account are those the body of
    the registration asks for: an account registered with a status other
    than ['pending'] and ['suspended'] logs in at once, in the role it
    asked for. *)
Theorem registration_trusts_the_caller env lib req req' db name st role :
  (forall s h, hashpw lib s = Some h -> checkpw lib s h = Some true) ->
  dict_get (req_json req) "name" = Some (JStr name) ->
  dict_get (req_json req) "status" = Some (JStr st) ->
  st <> "pending" -> st <> "suspended" ->
  dict_get (req_json req) "role" = Some (JStr role) ->
  http_status (run (handle_users env lib (with_method POST req)) db) = 201 ->
  get (req_json req') "username" = get (req_json req) "username" ->
  get (req_json req') "password" = get (req_json req) "password" ->
  let db' := out_db (run (handle_users env lib (with_method POST req)) db) in
  let o' := run (login env lib (with_method POST req')) db' in
  exists body,
    http_body o' = Some body /\ http_status o' = 200 /\
    json_field body "role" = Some (JStr role).
Proof.
  intros Hlib Hn Hs Hpend Hsusp Hr H Hname Hpass db' o'.
  destruct (registered_is_verified env lib req req' db Hlib H Hname Hpass)
    as (u & _ & Hver & (st' & Hcol & Hst) & (role' & Hcolr & Hrole)
        & (name' & i & Hn' & Hi & Htext)).
  unfold get_default in Hcol, Hcolr. rewrite Hs in Hcol. rewrite Hr in Hcolr.
  cbn in Hcol, Hcolr. inversion Hcol; subst st'. inversion Hcolr; subst role'.
  cbn [or_default] in Hst, Hrole.
  rewrite Hn in Hn'. inversion Hn'; subst name'.
  cbn in Htext. inversion Htext as [Hname'].
  assert (Hne : name <> "").
  { intros ->. cbn in Hi. discriminate. }
  destruct (login_welcome env lib req' db' u Hver) as [a Ho].
  - rewrite Hst. congruence.
  - rewrite Hst. congruence.
  - intros _. congruence.
  - subst o'. rewrite Ho. cbv [http_body http_status out_result body status].
    eexists. split; [reflexivity |]. split; [reflexivity |].
    cbn. rewrite Hrole. reflexivity.
Qed.

(** X22: a registration under a username that is taken is answered 409
    before anything else of the body is read, and changes nothing. *)
Theorem duplicate_username_is_refused env lib req db s u :
  dict_get (req_json req) "username" = Some (JStr s) ->
  In u (users db) ->
  Users.username u = s ->
  let o := run (handle_users env lib (with_method POST req)) db in
  http_status o = 409 /\ untouched db o.
Proof.
  intros Hs Hin Hu o. subst o.
  destruct (find_exists (fun r => (Users.username r =? s)%string)
              (users db) u Hin) as [y Hy].
  { rewrite Hu. apply String.eqb_refl. }
  unfold handle_users, untouched, getitem. monad_cbn. rewrite Hs.
  monad_cbn. cbn [col_text]. monad_cbn.
  unfold find_username. rewrite Hy. monad_cbn.
  repeat split.
Qed.

Ltac shown_avatar_cases :=
  unfold name_initial;
  repeat (match goal with
          | |- context [match Users.avatar ?u with _ => _ end] =>
              destruct (Users.avatar u)
          | |- context [if String.eqb ?a ?b then _ else _] =>
              destruct (String.eqb a b)
          end; monad_cbn).

(** X23: a login changes nothing.  It is answered 200 only for an account
    found by the username whose stored hash the library verifies against
    the password, and whose status is neither ['pending'] nor
    ['suspended']; it is answered 403 only for such an account in one of
    these two states. *)
Theorem login_needs_a_matching_password env lib req db :
  let o := run (login env lib (with_method POST req)) db in
  untouched db o /\
  (http_status o = 200 ->
   exists u, verified env lib req db u /\
             Users.status u <> Some "pending" /\
             Users.status u <> Some "suspended") /\
  (http_status o = 403 ->
   exists u, verified env lib req db u /\
             (Users.status u = Some "pending" \/
              Users.status u = Some "suspended")).
Proof.
  cbv zeta. unfold login, untouched, verified.
  monad_cbn.
  destruct (col_text env (get (req_json req) "username")) as [wanted|e]
    eqn:Ew; monad_cbn;
    [| repeat split; cbv [http_status out_result]; intros H; exfalso;
       destruct e; discriminate H].
  destruct (find_username wanted (users db)) as [u|] eqn:Eu; monad_cbn;
    [| repeat split; cbv [http_status out_result status]; discriminate].
  destruct wanted as [s|]; [| discriminate].
  destruct (get (req_json req) "password") eqn:Epw; cbn [check_password];
    monad_cbn;
    try (repeat split; cbv [http_status out_result status]; discriminate).
  destruct (checkpw lib s0 (Users.password_hash u)) as [[|]|] eqn:Eck;
    monad_cbn;
    try (repeat split; cbv [http_status out_result status]; discriminate).
  assert (Hver : exists s' pw,
             Ok (Some s) = Ok (Some s') /\
             find_username (Some s') (users db) = Some u /\
             JStr s0 = JStr pw /\
             checkpw lib pw (Users.password_hash u) = Some true)
    by (exists s, s0; auto).
  destruct (Users.status u) as [st|] eqn:Est; cbn [option_map or_default].
  - destruct (st =? "pending")%string eqn:E1; monad_cbn.
    { apply String.eqb_eq in E1. subst st.
      repeat split; cbv [http_status out_result status];
        try discriminate. intros _. exists u. rewrite Est. auto. }
    destruct (st =? "suspended")%string eqn:E2; monad_cbn.
    { apply String.eqb_eq in E2. subst st.
      repeat split; cbv [http_status out_result status];
        try discriminate. intros _. exists u. rewrite Est. auto. }
    apply String.eqb_neq in E1, E2.
    shown_avatar_cases;
      repeat split; cbv [http_status out_result status];
        try discriminate.
    all: intros _; exists u; rewrite Est;
      repeat split; auto; congruence.
  - shown_avatar_cases;
      repeat split; cbv [http_status out_result status];
        try discriminate.
    all: intros _; exists u; rewrite Est;
      repeat split; auto; discriminate.
Qed.

(** X24: the avatar in the answer to a login is the stored avatar when
    there is one that is not empty, and the upper-cased first character
    of the name otherwise; an account with neither an avatar nor a name
    is answered 500. *)
Theorem login_avatar_falls_back env lib req db u :
  verified env lib req db u ->
  Users.status u <> Some "pending" ->
  Users.status u <> Some "suspended" ->
  let o := run (login env lib (with_method POST req)) db in
  let stored := or_default "" (Users.avatar u) in
  (stored <> "" ->
   exists body, http_body o = Some body /\
                json_field body "avatar" = Some (JStr stored)) /\
  (stored = "" -> Users.name u <> "" ->
   exists body, http_body o = Some body /\
                json_field body "avatar"
                = Some (JStr (py_upper lib (py_head lib (Users.name u))))) /\
  (stored = "" -> Users.name u = "" -> http_status o = 500).
Proof.
  intros (s & pw & Hs & Hu & Hpw & Hck) Hpend Hsusp. cbv zeta.
  unfold login. monad_cbn. rewrite Hs. monad_cbn. rewrite Hu, Hpw.
  cbn [check_password]. rewrite Hck. monad_cbn.
  assert (Hp : or_default false
                 (option_map (fun s => (s =? "pending")%string)
                    (Users.status u)) = false).
  { destruct (Users.status u) as [st|]; [| reflexivity]. cbn.
    apply String.eqb_neq. congruence. }
  assert (Hq : or_default false
                 (option_map (fun s => (s =? "suspended")%string)
                    (Users.status u)) = false).
  { destruct (Users.status u) as [st|]; [| reflexivity]. cbn.
    apply String.eqb_neq. congruence. }
  rewrite Hp, Hq. unfold name_initial.
  destruct (Users.avatar u) as [a|]; cbn [or_default];
    [destruct (a =? "")%string eqn:Ea;
     [apply String.eqb_eq in Ea | apply String.eqb_neq in Ea] |];
    (destruct (Users.name u =? "")%string eqn:En;
     [apply String.eqb_eq in En | apply String.eqb_neq in En]);
    monad_cbn; cbv [http_body http_status out_result body status];
    repeat split; intros; try congruence;
    eexists; split; reflexivity.
Qed.

(** X25: a successful [PUT /users/<id>] leaves the password hash of the
    user as it was unless the body carries a password that is not empty,
    and then stores the hash of that password. *)
Theorem profile_update_keeps_the_password env lib req db id u :
  req_method req = PUT ->
  find_row Users.user_id id (users db) = Some u ->
  let o := run (handle_single_user env lib req id) db in
  succeeded o ->
  exists u',
    find_row Users.user_id id (users (out_db o)) = Some u' /\
    (py_truthy (get (req_json req) "password") = false ->
     Users.password_hash u' = Users.password_hash u) /\
    (forall pw, get (req_json req) "password" = JStr pw -> pw <> "" ->
                hashpw lib pw = Some (Users.password_hash u')).
Proof.
  intros Hm Hu o. subst o. unfold handle_single_user. rewrite Hm.
  monad_cbn. rewrite Hu. monad_cbn.
  pose proof (find_row_key Users.user_id id (users db) u Hu) as Hid.
  destruct (contains (req_json req) "password"
            && py_truthy (get (req_json req) "password"))%bool eqn:Ec;
    exec_all; intros Hok; try (absurd_success Hok).
  - eexists. split.
    + eapply find_row_replaced; [exact Hu | exact Hid].
    + cbn [Users.password_hash].
      apply andb_true_iff in Ec. destruct Ec as [_ Ec].
      split; [congruence |].
      intros pw Hpw _. rewrite Hpw in *. cbn [set_password] in *.
      found_rows. assumption.
  - eexists. split.
    + eapply find_row_replaced; [exact Hu | exact Hid].
    + cbn [Users.password_hash]. split; [reflexivity |].
      intros pw Hpw Hne. exfalso.
      apply andb_false_iff in Ec. unfold contains, get, get_default in *.
      destruct (dict_get (req_json req) "password") as [v|];
        [| discriminate].
      subst v. cbn in Ec. destruct Ec as [Ec | Ec]; [discriminate |].
      destruct pw; [contradiction | discriminate].
Qed.

(** ** The requests without an outbound event *)

(** X26: deleting a repair or a booking request, uploading or deleting a
    document, registering, updating or deleting a user and voting emit no
    event, whatever their outcome.  When they succeed they have committed
    once; when they do not, the storage is as it was and nothing was
    committed. *)
Theorem quiet_mutations_publish_nothing env lib q req db :
  let o := run (perform_quietly env lib q req) db in
  out_events o = [] /\
  (succeeded o ->
   out_trace o = [ Commit ] /\ commit_ok env = true /\
   out_db o = out_session o) /\
  (~ succeeded o -> out_db o = db /\ out_trace o = []).
Proof.
  cbv zeta. destruct q; cbv [perform_quietly]; unfold_handlers; exec_all;
    (split; [reflexivity |]);
    (split;
     [ intros Hs; first [ absurd_success Hs | repeat split; assumption ]
     | intros Hn;
       first [ split; reflexivity
             | exfalso; apply Hn;
               cbv [succeeded http_status out_result status]; lia ] ]).
Qed.

(** X27: [send_message] never ends by an exception and emits exactly one
    event: an error for the caller alone, with the storage as it was, or
    the relayed message, with its row added. *)
Theorem send_message_always_answers env data db :
  let o := run (handle_send_message env data) db in
  out_result o = Ok tt /\
  exists e,
    out_events o = [ e ] /\
    ((error_reply env e /\ out_db o = db) \/
     (ev_name e = "receive_message" /\
      exists msg,
        chat_messages (out_db o) = (chat_messages db ++ [ msg ])%list /\
        ev_payload e = relayed_payload env db msg)).
Proof.
  cbv zeta.
  destruct (send_message_cases env data db)
    as [Ho | [Ho | (_ & sender & content & room & Ho)]];
    cbv zeta in Ho; rewrite Ho; (split; [reflexivity |]);
    eexists; (split; [reflexivity |]).
  - left. repeat split.
  - left. repeat split.
  - right. split; [reflexivity |]. eexists. split; reflexivity.
Qed.

(** ** The properties at work *)

Lemma unknown_id_is_not_found_witness :
  let env := test_env true 0 in
  let o := run (single env test_lib ABill delete_request 7) db_bob in
  allows ABill (req_method delete_request) = true /\
  has_row db_bob ABill 7 = false /\
  http_status o = 404 /\ untouched db_bob o.
Proof.
  intros env o. split; [reflexivity |]. split; [reflexivity |].
  exact (unknown_id_is_not_found env test_lib ABill delete_request db_bob 7
           eq_refl eq_refl).
Defined.


Lemma approval_rejects_other_statuses_witness :
  let env := test_env true 0 in
  let req := put [ ("status", JStr "maybe") ] in
  let o := run (approve_payment env req 1) db_one_payment in
  has_row db_one_payment APayment 1 = true /\
  requested_status req = JStr "maybe" /\
  http_status o = 400 /\ untouched db_one_payment o.
Proof.
  intros env req o. split; [reflexivity |]. split; [reflexivity |].
  apply (approval_rejects_other_statuses env req db_one_payment 1);
    try reflexivity; discriminate.
Defined.

Lemma approval_carries_to_the_bill_witness :
  let env := test_env true 0 in
  let req := put [ ("status", JStr "rejected") ] in
  let o := run (approve_payment env req 1) db_one_payment in
  let o' := run (approve_payment (legacy_env true 0) req 1) db_one_payment in
  find_row Payments.payment_id 1 (payments db_one_payment)
  = Some water_payment /\
  requested_status req = JStr "rejected" /\
  find_row Payments.payment_id 1 (payments (out_db o))
  = Some (with_payment_status (Some "rejected") water_payment) /\
  find_row Bills.bill_id 1 (bills (out_db o))
  = Some (set_bill_status (Some "rejected") water_bill) /\
  http_status o = 500 /\ out_trace o = [ Commit ] /\
  http_status o' = 200 /\ List.length (out_events o') = 1%nat.
Proof.
  intros env req o o'. split; [reflexivity |]. split; [reflexivity |].
  destruct (approval_carries_to_the_bill env req db_one_payment 1
              water_payment "rejected" eq_refl eq_refl eq_refl
              (or_intror eq_refl) eq_refl)
    as (Hp & Hb & _ & _ & _ & Hlost).
  destruct (approval_carries_to_the_bill (legacy_env true 0) req
              db_one_payment 1 water_payment "rejected" eq_refl eq_refl
              eq_refl (or_intror eq_refl) eq_refl)
    as (_ & _ & _ & _ & Hsent & _).
  split; [exact Hp |]. split; [exact (Hb water_bill eq_refl) |].
  destruct (Hlost eq_refl) as [H500 Ht].
  split; [exact H500 |]. split; [exact Ht |].
  destruct (Hsent eq_refl) as [H200 Ht'].
  split; [exact H200 |].
  unfold out_events. fold o' in Ht'. rewrite Ht'. reflexivity.
Defined.

Lemma repair_update_keeps_owner_witness :
  let env := test_env true 0 in
  let req := put [ ("status", JStr "approved") ] in
  let o := run (handle_single_repair_request env req 1) db_one_repair in
  find_row RepairRequests.request_id 1 (repair_requests db_one_repair)
  = Some tap_repair /\
  succeeded o /\
  exists r',
    find_row RepairRequests.request_id 1 (repair_requests (out_db o))
    = Some r' /\
    RepairRequests.user_id r' = Some 42 /\
    RepairRequests.status r' = Some "approved" /\
    map ev_target (out_events o) = [ Room (JStr "user_42") ].
Proof.
  intros env req o.
  assert (Hs : succeeded o)
    by (unfold succeeded; change (http_status o) with 200; lia).
  split; [reflexivity |]. split; [exact Hs |].
  destruct (repair_update_keeps_owner env req db_one_repair 1 tap_repair
              eq_refl eq_refl Hs)
    as (r' & Hf & _ & Hu & _ & Hgiven & _ & _ & _ & He).
  exists r'. split; [exact Hf |]. split; [exact Hu |].
  split; [exact (Hgiven "approved" eq_refl) | exact He].
Defined.

Lemma deleted_row_is_gone_witness :
  let env := test_env true 0 in
  let o := run (single env test_lib ARepairRequest delete_request 1)
             db_one_repair in
  let later := run (single env test_lib ARepairRequest
                      (put [ ("status", JStr "approved") ]) 1) (out_db o) in
  In Commit (out_trace o) /\
  has_row db_one_repair ARepairRequest 1 = true /\
  has_row (out_db o) ARepairRequest 1 = false /\
  http_status later = 404 /\ untouched (out_db o) later.
Proof.
  intros env o later.
  assert (Hs : In Commit (out_trace o)) by (left; reflexivity).
  split; [exact Hs |]. split; [reflexivity |].
  destruct (deleted_row_is_gone env test_lib ARepairRequest delete_request
              db_one_repair 1 eq_refl Hs) as [Hgone Hlater].
  split; [exact Hgone |].
  exact (Hlater env test_lib (put [ ("status", JStr "approved") ]) eq_refl).
Defined.

Lemma new_rows_start_unprocessed_witness :
  let env := test_env true 0 in
  let o := run (perform env CreateRepairRequest report_tap) db_ann in
  succeeded o /\
  exists r,
    repair_requests (out_db o) = (repair_requests db_ann ++ [ r ])%list /\
    RepairRequests.status r = Some "pending" /\
    forall x, In x (repair_requests db_ann) ->
              RepairRequests.request_id x < RepairRequests.request_id r.
Proof.
  intros env o.
  assert (Hs : succeeded o)
    by (unfold succeeded; change (http_status o) with 201; lia).
  split; [exact Hs |].
  exact (proj1 (new_rows_start_unprocessed env report_tap db_ann) Hs).
Defined.


Lemma second_vote_is_refused_witness :
  let env := test_env true 0 in
  let first := run (manage_voting_results env (vote 3 8 5)) empty_db in
  let second := run (manage_voting_results env (vote 3 9 5)) (out_db first) in
  succeeded first /\
  http_status second = 409 /\ out_db second = out_db first /\
  out_trace second = [].
Proof.
  intros env first second.
  assert (Hs : succeeded first)
    by (unfold succeeded; change (http_status first) with 201; lia).
  split; [exact Hs |].
  exact (second_vote_is_refused env (vote 3 8 5) (vote 3 9 5) empty_db
           eq_refl eq_refl eq_refl eq_refl Hs).
Defined.

Lemma payments_are_filtered_by_user_witness :
  let env := test_env true 0 in
  let req := {| req_method := GET; req_json := [];
                req_args := [ ("user_id", JStr "1") ] |} in
  exists entries,
    http_body (run (manage_payments env (with_method GET req))
                 db_one_payment)
    = Some (JList entries) /\
    exists u,
      col_int env (JStr "1") = Ok u /\
      map (fun e => json_field e "payment_id") entries
      = map (fun p => Some (JInt (Payments.payment_id p)))
          (filter (fun p => opt_eqb (Payments.user_id p) u)
             (payments db_one_payment)) /\
      Forall (fun e => json_field e "user_id" = Some (json_opt_int u))
        entries.
Proof.
  intros env req. eexists. split; [reflexivity |].
  exact (proj2 (payments_are_filtered_by_user env req db_one_payment _
                  eq_refl) eq_refl).
Defined.

Lemma announcements_are_newest_first_witness :
  let env := test_env true 0 in
  exists entries rows,
    http_body (run (manage_announcements env (with_method GET get_request))
                 db_two_announcements)
    = Some (JList entries) /\
    Permutation rows (announcements db_two_announcements) /\
    map (fun e => json_field e "announcement_id") entries
    = map (fun a => Some (JInt (Announcements.announcement_id a))) rows.
Proof.
  intros env. eexists.
  destruct (announcements_are_newest_first env get_request
              db_two_announcements _ eq_refl) as (rows & Hp & Hids & _).
  exists rows. split; [reflexivity |]. split; [exact Hp | exact Hids].
Defined.

Lemma colours_follow_the_tag_witness :
  let env := test_env true 0 in
  let req := put [ ("tag", JStr "notice") ] in
  tag_is_text (req_json req) /\
  Forall well_coloured (announcements db_two_announcements) /\
  Forall well_coloured
    (announcements
       (out_db (run (perform env (UpdateAnnouncement 1) req)
                  db_two_announcements))).
Proof.
  intros env req.
  assert (Ht : tag_is_text (req_json req)) by exact I.
  assert (Hall : Forall well_coloured (announcements db_two_announcements))
    by (repeat constructor).
  split; [exact Ht |]. split; [exact Hall |].
  exact (colours_follow_the_tag env (UpdateAnnouncement 1) req
           db_two_announcements Ht Hall).
Defined.


Lemma message_room_and_delivery_witness :
  let env := test_env true 7 in
  let data := ("room_name", JStr "lobby") :: hello 1 "hi" in
  let o := run (handle_send_message env data) db_bob in
  accepted env data (Some 1) "hi" (Some "lobby") /\
  exists msg payload to,
    chat_messages (out_db o) = (chat_messages db_bob ++ [ msg ])%list /\
    out_events o
    = [ {| ev_name := "receive_message"; ev_payload := payload;
           ev_target := to |} ] /\
    ChatMessages.room_name msg = Some "lobby" /\
    to = Room (JStr "lobby").
Proof.
  intros env data o.
  assert (Ha : accepted env data (Some 1) "hi" (Some "lobby"))
    by (repeat split).
  split; [exact Ha |].
  destruct (message_room_and_delivery env data db_bob (Some 1) "hi"
              (Some "lobby") eq_refl eq_refl Ha eq_refl)
    as (msg & payload & to & Hrows & Hev & _ & Hnamed & _).
  exists msg, payload, to.
  split; [exact Hrows |]. split; [exact Hev |].
  apply (Hnamed "lobby" eq_refl). discriminate.
Defined.

Lemma membership_concerns_the_caller_witness :
  let env := test_env true 0 in
  let joined := on_socket env test_lib
                  (JoinChatRoom [ ("room_name", JStr "lobby") ]) in
  let ignored := on_socket env test_lib
                   (JoinChatRoom [ ("room_name", JStr "") ]) in
  request_sid env <> "" /\
  changes joined = [ Enter "sid-1" (JStr "lobby") ] /\
  Forall (status_for "sid-1") (replies joined) /\
  List.length (replies joined) = 1%nat /\
  ignored = unchanged.
Proof.
  intros env joined ignored.
  assert (Hsid : request_sid env <> "") by discriminate.
  split; [exact Hsid |].
  destruct (membership_concerns_the_caller env test_lib
              (JoinChatRoom [ ("room_name", JStr "lobby") ]) Hsid)
    as (_ & Hreplies & Hlen & _).
  destruct (membership_concerns_the_caller env test_lib
              (JoinChatRoom [ ("room_name", JStr "") ]) Hsid)
    as (_ & _ & _ & _ & _ & Hfalsy & _).
  split; [reflexivity |]. split; [exact Hreplies |].
  split; [exact Hlen |]. exact (Hfalsy eq_refl).
Defined.

Lemma status_updates_reach_the_owner_witness :
  let env := test_env true 0 in
  let req := put [ ("status", JStr "approved") ] in
  let o := run (perform env (UpdateRepairRequest 1) req) db_one_repair in
  affected_user db_one_repair (UpdateRepairRequest 1) = Some 42 /\
  succeeded o /\
  exists room,
    changes (handle_join_user_room env test_lib [ ("user_id", JInt 42) ])
    = [ Enter (request_sid env) room ] /\
    map ev_target (out_events o) = [ Room room ].
Proof.
  intros env req o.
  assert (Hs : succeeded o)
    by (unfold succeeded; change (http_status o) with 200; lia).
  split; [reflexivity |]. split; [exact Hs |].
  apply (status_updates_reach_the_owner env test_lib (UpdateRepairRequest 1)
           req db_one_repair 42 eq_refl eq_refl); [discriminate | exact Hs].
Defined.

Lemma test_lib_verifies s h :
  hashpw test_lib s = Some h -> checkpw test_lib s h = Some true.
Proof.
  cbn. intros H. inversion H. now rewrite String.eqb_refl.
Qed.

Lemma registration_adds_one_user_witness :
  let env := test_env true 0 in
  let o := run (handle_users env test_lib (with_method POST (sign_up [])))
             db_bob in
  http_status o = 201 /\
  exists u pw,
    out_db o = set_users (users db_bob ++ [ u ])%list db_bob /\
    (forall v, In v (users db_bob) ->
               Users.user_id v < Users.user_id u /\
               Users.username v <> Users.username u) /\
    dict_get (req_json (sign_up [])) "password" = Some (JStr pw) /\
    hashpw test_lib pw = Some (Users.password_hash u) /\
    dict_get (req_json (sign_up [])) "name" <> Some (JStr "") /\
    out_trace o = [ Commit ].
Proof.
  intros env o. split; [reflexivity |].
  exact (registration_adds_one_user env test_lib (sign_up []) db_bob
           eq_refl).
Defined.

Lemma new_account_awaits_approval_witness :
  let env := test_env true 0 in
  let registered := run (handle_users env test_lib
                           (with_method POST (sign_up []))) empty_db in
  dict_get (req_json (sign_up [])) "status" = None /\
  http_status registered = 201 /\
  http_status (run (login env test_lib (with_method POST sign_in))
                 (out_db registered))
  = 403.
Proof.
  intros env registered. split; [reflexivity |]. split; [reflexivity |].
  exact (new_account_awaits_approval env test_lib (sign_up []) sign_in
           empty_db test_lib_verifies eq_refl eq_refl eq_refl eq_refl).
Defined.

Lemma registration_trusts_the_caller_witness :
  let env := test_env true 0 in
  let req := sign_up [ ("status", JStr "approved"); ("role", JStr "admin") ] in
  let registered := run (handle_users env test_lib (with_method POST req))
                      empty_db in
  let o' := run (login env test_lib (with_method POST sign_in))
              (out_db registered) in
  http_status registered = 201 /\
  exists body,
    http_body o' = Some body /\ http_status o' = 200 /\
    json_field body "role" = Some (JStr "admin").
Proof.
  intros env req registered o'. split; [reflexivity |].
  apply (registration_trusts_the_caller env test_lib req sign_in empty_db
           "Ann" "approved" "admin" test_lib_verifies);
    try reflexivity; discriminate.
Defined.

Lemma duplicate_username_is_refused_witness :
  let env := test_env true 0 in
  let req := post [ ("username", JStr "bob") ] in
  let o := run (handle_users env test_lib (with_method POST req)) db_bob in
  In (resident 1 "bob" None) (users db_bob) /\
  http_status o = 409 /\ untouched db_bob o.
Proof.
  intros env req o.
  assert (Hin : In (resident 1 "bob" None) (users db_bob))
    by (left; reflexivity).
  split; [exact Hin |].
  exact (duplicate_username_is_refused env test_lib req db_bob "bob"
           (resident 1 "bob" None) eq_refl Hin eq_refl).
Defined.

Lemma login_needs_a_matching_password_witness :
  let env := test_env true 0 in
  let o := run (login env test_lib (with_method POST sign_in))
             db_registered in
  http_status o = 200 /\
  exists u, verified env test_lib sign_in db_registered u /\
            Users.status u <> Some "pending" /\
            Users.status u <> Some "suspended".
Proof.
  intros env o. split; [reflexivity |].
  exact (proj1 (proj2 (login_needs_a_matching_password env test_lib sign_in
                         db_registered)) eq_refl).
Defined.

Lemma login_avatar_falls_back_witness :
  let env := test_env true 0 in
  let o := run (login env test_lib (with_method POST sign_in))
             db_registered in
  verified env test_lib sign_in db_registered ann /\
  exists body,
    http_body o = Some body /\
    json_field body "avatar" = Some (JStr "A").
Proof.
  intros env o.
  assert (Hv : verified env test_lib sign_in db_registered ann)
    by (exists "ann", "secret"; repeat split).
  split; [exact Hv |].
  destruct (login_avatar_falls_back env test_lib sign_in db_registered ann
              Hv) as (_ & Hinitial & _); try discriminate.
  apply Hinitial; [reflexivity | discriminate].
Defined.

Lemma profile_update_keeps_the_password_witness :
  let env := test_env true 0 in
  let req := put [ ("phone", JStr "555") ] in
  let o := run (handle_single_user env test_lib req 1) db_registered in
  find_row Users.user_id 1 (users db_registered) = Some ann /\
  succeeded o /\
  exists u',
    find_row Users.user_id 1 (users (out_db o)) = Some u' /\
    Users.password_hash u' = Users.password_hash ann.
Proof.
  intros env req o.
  assert (Hs : succeeded o)
    by (unfold succeeded; change (http_status o) with 200; lia).
  split; [reflexivity |]. split; [exact Hs |].
  destruct (profile_update_keeps_the_password env test_lib req db_registered
              1 ann eq_refl eq_refl Hs) as (u' & Hf & Hkeep & _).
  exists u'. split; [exact Hf | exact (Hkeep eq_refl)].
Defined.
